(** * Synchronisation of the twin graph (ADT) and the asset graph (CDF)

    A shallow embedding of the two handlers of the repository,
    [Functions/CDF2ADT/CDF2ADTSync/handler.py] (timer driven, bulk) and
    [Functions/ADT2CDF/ADT2CDFSync/handler.py] (event driven, incremental),
    followed by the properties established about them.

    Layout: [Py] holds the fragment of the Python runtime the handlers rely
    on (strings, insertion-ordered dictionaries, exceptions, a state and
    exception monad); [Model] holds the records exchanged with the two
    stores; [CDF2ADT] and [ADT2CDF] follow the two source files function by
    function.  All lemmas come after the definitions. *)

From Stdlib Require Import List String Ascii ZArith QArith Lia Bool Permutation.
From Stdlib Require Import DecimalString.
Import ListNotations.
Open Scope string_scope.
Open Scope list_scope.

(* ================================================================== *)
(** ** The Python fragment *)
(* ================================================================== *)

Module Py.

(** Exceptions the handlers can raise or catch. *)
Inductive exn : Type :=
| KeyError (key : string)
| IndexError
| TypeError
| AttributeError
| ValueError
| ResourceNotFoundError.

(** Outcome of a call: a value, an exception that escapes, or a loop that
    never ends. *)
Inductive result (A : Type) : Type :=
| Ok (a : A)
| Raise (e : exn)
| Diverge.
Arguments Ok {A} a.
Arguments Raise {A} e.
Arguments Diverge {A}.

(** Computations over a world [W]: effects already performed stay in the
    world when an exception is raised. *)
Definition M (W A : Type) : Type := W -> result A * W.

Definition ret {W A} (a : A) : M W A := fun w => (Ok a, w).

Definition bind {W A B} (m : M W A) (k : A -> M W B) : M W B :=
  fun w =>
    match m w with
    | (Ok a, w') => k a w'
    | (Raise e, w') => (Raise e, w')
    | (Diverge, w') => (Diverge, w')
    end.

Definition raise {W A} (e : exn) : M W A := fun w => (Raise e, w).

Definition gets {W A} (f : W -> A) : M W A := fun w => (Ok (f w), w).

Definition modify {W} (f : W -> W) : M W unit := fun w => (Ok tt, f w).

(** [try: m except h]: [h] decides which exceptions it handles. *)
Definition try_except {W A} (m : M W A) (h : exn -> option (M W A)) : M W A :=
  fun w =>
    match m w with
    | (Raise e, w') =>
        match h e with
        | Some k => k w'
        | None => (Raise e, w')
        end
    | r => r
    end.

Declare Scope py_scope.
Delimit Scope py_scope with py.
Notation "x <- m ;; k" := (bind m (fun x => k))
  (at level 61, m at next level, right associativity) : py_scope.
Notation "m ;;; k" := (bind m (fun _ => k))
  (at level 61, right associativity) : py_scope.

(** *** Strings *)

(** [s.replace(old, new)] for a non-empty [old]: occurrences are found from
    the left and do not overlap.  [skip] counts the characters of the
    occurrence just replaced that are still to be dropped. *)
Fixpoint replace_from (old new : string) (skip : nat) (s : string) : string :=
  match s with
  | EmptyString => EmptyString
  | String c s' =>
      match skip with
      | S k => replace_from old new k s'
      | O =>
          if String.prefix old s
          then (new ++ replace_from old new (String.length old - 1) s')%string
          else String c (replace_from old new 0 s')
      end
  end.

Definition str_replace (s old new : string) : string :=
  replace_from old new 0 s.

(** [s.startswith(p)] *)
Definition startswith (s p : string) : bool := String.prefix p s.

(** [c in s] for a one-character [c] *)
Fixpoint occurs (c : ascii) (s : string) : bool :=
  match s with
  | EmptyString => false
  | String c' s' => Ascii.eqb c' c || occurs c s'
  end.

(** [p in s] for a non-empty string [p] *)
Fixpoint contains (p s : string) : bool :=
  match s with
  | EmptyString => false
  | String _ s' => String.prefix p s || contains p s'
  end.

(** [str(n)] for an [int] *)
Definition str_of_int (n : Z) : string :=
  NilZero.string_of_int (Z.to_int n).

(** Truth value of a string and of an optional string ([None] and [''] are
    both false). *)
Definition truthy (s : string) : bool := negb (String.eqb s "").

Definition truthy_opt (s : option string) : bool :=
  match s with
  | Some x => truthy x
  | None => false
  end.

(** [a == b] on values that are a string or [None] *)
Definition opt_str_eqb (a b : option string) : bool :=
  match a, b with
  | Some x, Some y => String.eqb x y
  | None, None => true
  | _, _ => false
  end.

(** [s.split(c)] for a one-character separator *)
Fixpoint split_on (c : ascii) (s : string) : list string :=
  match s with
  | EmptyString => [EmptyString]
  | String x s' =>
      if Ascii.eqb x c
      then EmptyString :: split_on c s'
      else match split_on c s' with
           | h :: t => String x h :: t
           | [] => [String x EmptyString]
           end
  end.

(** *** Dictionaries

    A [dict] keeps its items in insertion order; assigning to a key that is
    present keeps its position, a new key goes to the end. *)
Section Dict.
Context {V : Type}.

Definition dict : Type := list (string * V).

Fixpoint dict_get (k : string) (d : dict) : option V :=
  match d with
  | [] => None
  | (k', v) :: d' => if String.eqb k' k then Some v else dict_get k d'
  end.

Definition dict_mem (k : string) (d : dict) : bool :=
  match dict_get k d with
  | Some _ => true
  | None => false
  end.

Fixpoint dict_set (k : string) (v : V) (d : dict) : dict :=
  match d with
  | [] => [(k, v)]
  | (k', v') :: d' =>
      if String.eqb k' k then (k', v) :: d' else (k', v') :: dict_set k v d'
  end.

Definition dict_del (k : string) (d : dict) : dict :=
  filter (fun kv => negb (String.eqb (fst kv) k)) d.

Definition dict_keys (d : dict) : list string := map fst d.

(** Well-formed dictionaries have pairwise distinct keys. *)
Definition dict_wf (d : dict) : Prop := NoDup (dict_keys d).

(** [d1 == d2]: same keys with equal values, in any order. *)
Definition dict_eqb (veqb : V -> V -> bool) (d1 d2 : dict) : bool :=
  Nat.eqb (List.length d1) (List.length d2)
  && forallb (fun kv =>
                match dict_get (fst kv) d2 with
                | Some v2 => veqb (snd kv) v2
                | None => false
                end) d1.
End Dict.
Arguments dict V : clear implicits.

(** *** Logging *)
Inductive level : Type := INFO | WARNING | ERROR.

(** A log record keeps its level and its format string; the interpolated
    arguments are not modelled, and a double quote of the source's format
    string is written as a single quote. *)
Definition LogRecord : Type := (level * string)%type.

End Py.

Import Py.
Open Scope py_scope.

(* ================================================================== *)
(** ** Records exchanged with the two stores *)
(* ================================================================== *)

Module Model.

(** A CDF resource as the SDK returns it ([Asset] or [TimeSeries]): the
    attributes the handlers read or write.  [parent_external_id] is
    meaningful for assets, [asset_id] and [is_string] for time series. *)
Record Resource : Type := mkResource {
  external_id : string;
  id : option Z;
  name : option string;
  description : option string;
  metadata : option (dict string);
  parent_external_id : option string;
  asset_id : option Z;
  is_string : bool;
  last_updated_time : Z
}.

Definition set_name (v : option string) (r : Resource) : Resource :=
  mkResource (external_id r) (id r) v (description r) (metadata r)
             (parent_external_id r) (asset_id r) (is_string r)
             (last_updated_time r).

Definition set_description (v : option string) (r : Resource) : Resource :=
  mkResource (external_id r) (id r) (name r) v (metadata r)
             (parent_external_id r) (asset_id r) (is_string r)
             (last_updated_time r).

Definition set_metadata (v : option (dict string)) (r : Resource) : Resource :=
  mkResource (external_id r) (id r) (name r) (description r) v
             (parent_external_id r) (asset_id r) (is_string r)
             (last_updated_time r).

Definition set_parent_external_id (v : option string) (r : Resource) : Resource :=
  mkResource (external_id r) (id r) (name r) (description r) (metadata r)
             v (asset_id r) (is_string r) (last_updated_time r).

Definition set_asset_id (v : option Z) (r : Resource) : Resource :=
  mkResource (external_id r) (id r) (name r) (description r) (metadata r)
             (parent_external_id r) v (is_string r) (last_updated_time r).

Definition set_is_string (v : bool) (r : Resource) : Resource :=
  mkResource (external_id r) (id r) (name r) (description r) (metadata r)
             (parent_external_id r) (asset_id r) v (last_updated_time r).

Definition set_id (v : option Z) (r : Resource) : Resource :=
  mkResource (external_id r) v (name r) (description r) (metadata r)
             (parent_external_id r) (asset_id r) (is_string r)
             (last_updated_time r).

(** [str(resource.id)] *)
Definition str_of_id (i : option Z) : string :=
  match i with
  | Some n => str_of_int n
  | None => "None"
  end.

(** [ADT_MODEL_IDS] *)
Inductive ADT_MODEL_IDS : Type := ASSET | TIMESERIES.

Definition model_value (m : ADT_MODEL_IDS) : string :=
  match m with
  | ASSET => "dtmi:digitaltwins:cognite:cdf:Asset;1"
  | TIMESERIES => "dtmi:digitaltwins:cognite:cdf:TimeSeries;1"
  end.

(** A digital twin dictionary, restricted to the keys the handlers look at.
    An absent key is [None]; the twin graph stores no key holding [None], so
    the payload built from a resource without a name renders that key as
    absent too.  [dt_tags] is the ['tags'] component, holding its ['values']
    map when that key is present. *)
Record DigitalTwin : Type := mkTwin {
  dt_displayName : option string;
  dt_externalId : option string;
  dt_id : option string;
  dt_model : option string;
  dt_tags : option (option (dict string));
  dt_description : option string
}.

(** The value carried by a JSON patch operation: [None], a string, or a map
    for the whole ['/tags/values'] property. *)
Inductive PatchValue : Type :=
| VNone
| VStr (s : string)
| VMap (d : dict string).

Definition value_of (s : option string) : PatchValue :=
  match s with
  | Some x => VStr x
  | None => VNone
  end.

(** One JSON patch operation; [value] is absent for [remove]. *)
Record Patch : Type := mkPatch {
  op : string;
  path : string;
  value : option PatchValue
}.

(** A twin-graph relationship dictionary. *)
Record Relationship : Type := mkRelationship {
  relationshipId : string;
  relationshipName : string;
  sourceId : string;
  targetId : string;
  labels : option string
}.

(** A row of a twin-graph query: [{'R': relationship}] for the [SELECT R]
    queries, [{'assetId', 'tsId', 'relId'}] for the time-series query. *)
Inductive Row : Type :=
| RowR (R : Relationship)
| RowTs (assetId tsId relId : string).

(** The twin graph as its client exposes it to the modelled functions:
    [get_digital_twin] is [None] where the client raises
    [ResourceNotFoundError]. *)
Record ADT : Type := mkADT {
  get_digital_twin : string -> option DigitalTwin;
  query_twins : string -> list Row
}.

End Model.

Import Model.

(* ================================================================== *)
(** ** CDF2ADTSync/handler.py *)
(* ================================================================== *)

Module CDF2ADT.

Definition SQL_IN_BATCH_SIZE : nat := 100.
Definition SQL_PLACEHOLDER : string := "<_:_>".

(** What [adt_client], the clock and [logging] give access to. *)
Record TwinSide : Type := mkTwinSide {
  adt : ADT;
  issued : list string;      (* queries sent to the twin graph, oldest first *)
  now : Q;                   (* wall clock, in seconds *)
  logs : list LogRecord
}.

Definition log (l : level) (msg : string) : M TwinSide unit :=
  modify (fun w => mkTwinSide (adt w) (issued w) (now w) (logs w ++ [(l, msg)])).

(** [adt_client.query_twins(sql_query)], materialised with [list(...)] *)
Definition run_query (sql_query : string) : M TwinSide (list Row) :=
  fun w => (Ok (query_twins (adt w) sql_query),
            mkTwinSide (adt w) (issued w ++ [sql_query]) (now w) (logs w)).

(** [convert_ext_id] *)
Definition convert_ext_id (external_id : string) : string :=
  if truthy external_id
  then str_replace (str_replace (str_replace external_id ":" "*") " " "_") "&" "AND"
  else external_id.

(** The key translation of [convert_metadata]:
    [k.replace(' ', '_').replace('.', '^').replace('$', '#')]. *)
Definition convert_key (k : string) : string :=
  str_replace (str_replace (str_replace k " " "_") "." "^") "$" "#".

(** [convert_metadata]: iterating over [None] raises [TypeError]. *)
Definition convert_items (metadata : dict string) : dict string :=
  fold_left (fun new_map kv => dict_set (convert_key (fst kv)) (snd kv) new_map)
            metadata [].

Definition convert_metadata {W} (metadata : option (dict string)) : M W (dict string) :=
  match metadata with
  | None => raise TypeError
  | Some m => ret (convert_items m)
  end.

(** [get_twin_dict] *)
Definition get_twin_dict {W} (resource : Resource) (model : ADT_MODEL_IDS)
  : M W DigitalTwin :=
  values <- convert_metadata (metadata resource) ;;
  let twin_dict :=
    mkTwin (name resource) (Some (external_id resource))
           (Some (str_of_id (id resource))) (Some (model_value model))
           (Some (Some values)) None in
  if truthy_opt (description resource)
  then ret (mkTwin (dt_displayName twin_dict) (dt_externalId twin_dict)
                   (dt_id twin_dict) (dt_model twin_dict) (dt_tags twin_dict)
                   (description resource))
  else ret twin_dict.

(** The first block of [get_update_patches], once for ['/externalId'] and
    once for ['/id']: set only if empty, warn on a mismatch. *)
Definition immutable_patches (path warning current : string) (twin_value : option string)
  : M TwinSide (list Patch) :=
  match twin_value with
  | None => ret [mkPatch "add" path (Some (VStr current))]
  | Some v =>
      if String.eqb v ""
      then ret [mkPatch "replace" path (Some (VStr current))]
      else if negb (String.eqb current v)
           then log WARNING warning ;;; ret []
           else ret []
  end.

Definition name_patches (resource : Resource) (digital_twin : DigitalTwin) : list Patch :=
  match dt_displayName digital_twin with
  | None => [mkPatch "add" "/displayName" (Some (value_of (name resource)))]
  | Some v =>
      if negb (opt_str_eqb (name resource) (Some v))
      then [mkPatch "replace" "/displayName" (Some (value_of (name resource)))]
      else []
  end.

Definition description_patches (resource : Resource) (digital_twin : DigitalTwin)
  : list Patch :=
  match description resource with
  | Some d =>
      if truthy d
      then match dt_description digital_twin with
           | None => [mkPatch "add" "/description" (Some (VStr d))]
           | Some v =>
               if negb (String.eqb d v)
               then [mkPatch "replace" "/description" (Some (VStr d))]
               else []
           end
      else match dt_description digital_twin with
           | Some _ => [mkPatch "remove" "/description" None]
           | None => []
           end
  | None =>
      match dt_description digital_twin with
      | Some _ => [mkPatch "remove" "/description" None]
      | None => []
      end
  end.

(** The two loops over the metadata keys. *)
Definition metadata_patches (meta values : dict string) : list Patch :=
  if negb (dict_eqb String.eqb meta values)
  then
    flat_map (fun kv =>
                let k := fst kv in
                match dict_get k values with
                | None => [mkPatch "add" ("/tags/values/" ++ k)%string (Some (VStr (snd kv)))]
                | Some v =>
                    if negb (String.eqb (snd kv) v)
                    then [mkPatch "replace" ("/tags/values/" ++ k)%string (Some (VStr (snd kv)))]
                    else []
                end) meta
    ++ flat_map (fun kv =>
                   if negb (dict_mem (fst kv) meta)
                   then [mkPatch "remove" ("/tags/values/" ++ fst kv)%string None]
                   else []) values
  else [].

(** [get_update_patches].  The assignment
    [digital_twin['tags']['values'] = {}] changes the caller's dictionary; no
    caller reads it afterwards and the changed twin is not returned here. *)
Definition get_update_patches (resource : Resource) (digital_twin : DigitalTwin)
  : M TwinSide (list Patch) :=
  p1 <- immutable_patches "/externalId"
          "CDF external ID '%s' should match ADT external ID property '%s'. Not updating!"
          (external_id resource) (dt_externalId digital_twin) ;;
  p2 <- immutable_patches "/id"
          "CDF internal ID '%s' should match ADT 'id' property '%s'. Not updating!"
          (str_of_id (id resource)) (dt_id digital_twin) ;;
  let p3 := name_patches resource digital_twin in
  let p4 := description_patches resource digital_twin in
  match dt_tags digital_twin with
  | None => raise (KeyError "tags")
  | Some tags =>
      let values := match tags with Some v => v | None => [] end in
      meta <- convert_metadata (metadata resource) ;;
      ret (p1 ++ p2 ++ p3 ++ p4 ++ metadata_patches meta values)
  end.

(** [range(start, stop, step)] for a positive [step]; [stop] bounds the
    number of elements. *)
Fixpoint range_from (fuel start stop step : nat) : list nat :=
  match fuel with
  | O => []
  | S fuel' =>
      if Nat.ltb start stop
      then start :: range_from fuel' (start + step) stop step
      else []
  end.

Definition py_range (start stop step : nat) : list nat :=
  range_from stop start stop step.

(** [[predicates[i:i+n] for i in range(0, len(predicates), n)]] *)
Definition batches (n : nat) (predicates : list string) : list (list string) :=
  map (fun i => firstn n (skipn i predicates))
      (py_range 0 (List.length predicates) n).

Section Queries.
(** [str(pred_batch)]: Python's rendering of a list of strings. *)
Variable str_of_list : list string -> string.

(** The query sent for one batch. *)
Definition batch_query (sql_template : string) (pred_batch : list string) : string :=
  str_replace sql_template SQL_PLACEHOLDER (str_of_list pred_batch).

Fixpoint query_each (sql_template : string) (bs : list (list string))
         (res_adt : list Row) : M TwinSide (list Row) :=
  match bs with
  | [] => ret res_adt
  | pred_batch :: bs' =>
      res_adt_batch <- run_query (batch_query sql_template pred_batch) ;;
      query_each sql_template bs' (res_adt ++ res_adt_batch)
  end.

(** [query_adt_batches] *)
Definition query_adt_batches (sql_template : string) (predicates : list string)
  : M TwinSide (list Row) :=
  query_each sql_template (batches SQL_IN_BATCH_SIZE predicates) [].
End Queries.

(** *** The checkpoint document *)

(** One element of ['last_executions']. *)
Record Execution : Type := mkExecution {
  root_asset_ext_id : string;
  timestamp_UTC : Q
}.

(** [func_runs.json]: the list stored under ['last_executions']. *)
Definition FuncRuns : Type := list Execution.

(** What the bulk pass works on: the twin side, and the blob behind
    [blob_client] ([None] while the file does not exist) with the history of
    [upload_blob] calls, oldest first. *)
Record World : Type := mkWorld {
  twin : TwinSide;
  blob : option FuncRuns;
  uploads : list FuncRuns
}.

Definition lift {A} (m : M TwinSide A) : M World A :=
  fun w =>
    let (r, t) := m (twin w) in
    (r, mkWorld t (blob w) (uploads w)).

(** [get_last_exec_file]: the stored document, or the empty one when the
    blob is missing. *)
Definition get_last_exec_file : M World FuncRuns :=
  gets (fun w => match blob w with
                 | Some func_runs => func_runs
                 | None => []
                 end).

(** [blob_client.upload_blob(json.dumps(func_runs), overwrite=True)] *)
Definition upload_blob (func_runs : FuncRuns) : M World unit :=
  modify (fun w => mkWorld (twin w) (Some func_runs) (uploads w ++ [func_runs])).

(** [get_last_exec_TS] *)
Fixpoint find_exec_TS (ext_id : string) (func_runs : FuncRuns) : option Q :=
  match func_runs with
  | [] => None
  | x :: rest =>
      if String.eqb (root_asset_ext_id x) ext_id
      then Some (timestamp_UTC x)
      else find_exec_TS ext_id rest
  end.

Definition get_last_exec_TS (ext_id : string) : M World (option Q) :=
  func_runs <- get_last_exec_file ;;
  ret (find_exec_TS ext_id func_runs).

(** The loop of [set_last_exec_TS]: every element for [ext_id] gets the new
    timestamp, and [found] records whether there was one. *)
Fixpoint mark_exec_TS (ext_id : string) (ts : Q) (func_runs : FuncRuns) (found : bool)
  : FuncRuns * bool :=
  match func_runs with
  | [] => ([], found)
  | x :: rest =>
      if String.eqb (root_asset_ext_id x) ext_id
      then let (rest', found') := mark_exec_TS ext_id ts rest true in
           (mkExecution (root_asset_ext_id x) ts :: rest', found')
      else let (rest', found') := mark_exec_TS ext_id ts rest found in
           (x :: rest', found')
  end.

(** [set_last_exec_TS] *)
Definition set_last_exec_TS (ext_id : string) (ts : Q) : M World unit :=
  func_runs <- get_last_exec_file ;;
  let (marked, found) := mark_exec_TS ext_id ts func_runs false in
  let func_runs' :=
    if negb found then marked ++ [mkExecution ext_id ts] else marked in
  upload_blob func_runs'.

(** *** The bulk pass *)

(** The asset graph as [cdf_client] exposes it to [handle]; this direction
    only reads it. *)
Record CDF : Type := mkCDF {
  assets_retrieve : string -> option Resource;
  assets_retrieve_subtree : string -> list Resource
}.

(** Truth value of [sync_ts]: [None] and [0.0] are false. *)
Definition has_sync_ts (sync_ts : option Q) : bool :=
  match sync_ts with
  | Some t => negb (Qeq_bool t 0)
  | None => false
  end.

Definition sync_ts_value (sync_ts : option Q) : Q :=
  match sync_ts with
  | Some t => t
  | None => 0
  end.

Section Pass.
(** The nine phases of a pass.  They receive [adt_client] (the twin side
    of the world), and [cdf_client] where the source passes it; they are
    not unfolded here. *)
Variable insert_assets : list Resource -> M TwinSide nat.
Variable insert_asset_to_asset_relationships : CDF -> list Resource -> M TwinSide nat.
Variable insert_timeseries : CDF -> list Resource -> M TwinSide nat.
Variable update_assets : list Resource -> M TwinSide nat.
Variable update_asset_to_asset_relationships : CDF -> list Resource -> Q -> M TwinSide nat.
Variable update_timeseries : CDF -> list Resource -> Q -> M TwinSide nat.
Variable delete_assets : list Resource -> string -> M TwinSide nat.
Variable delete_asset_to_asset_relationships : CDF -> list Resource -> M TwinSide nat.
Variable delete_timeseries : CDF -> list Resource -> M TwinSide nat.

(** [handle].  [datetime.utcnow()] reads the clock of the twin side and
    [date_now.timestamp()] is that reading. *)
Definition handle (cdf_client : CDF) (root_ext_id : string) : M World unit :=
  match assets_retrieve cdf_client root_ext_id with
  | None =>
      lift (log ERROR "The root asset with external ID '%s' does not exist in CDF. Aborting synchronization!")
  | Some root_asset =>
      sync_ts <- get_last_exec_TS root_ext_id ;;
      twin_exists <- lift (gets (fun w =>
                       match get_digital_twin (adt w) (convert_ext_id root_ext_id) with
                       | Some _ => true
                       | None => false
                       end)) ;;
      if has_sync_ts sync_ts && negb twin_exists
      then lift (log ERROR "Last CDF->ADT synchronization timestamp is defined, but the digital twin in ADT corresponding to the root asset '%s' from CDF does NOT exist!")
      else
        (if negb (has_sync_ts sync_ts) && twin_exists
         then lift (log WARNING "Last CDF->ADT synchronization timestamp is NOT defined, but the digital twin in ADT corresponding to the root asset '%s' from CDF does exist!")
         else ret tt) ;;;
        let asset_list := assets_retrieve_subtree cdf_client root_ext_id in
        date_now <- lift (gets now) ;;
        (if negb (has_sync_ts sync_ts)
         then
           lift (log INFO "Creating new ADT digital twins for CDF asset hierarchy with root asset external ID '%s'!") ;;;
           na <- lift (insert_assets asset_list) ;;
           nr <- lift (insert_asset_to_asset_relationships cdf_client asset_list) ;;
           nt <- lift (insert_timeseries cdf_client asset_list) ;;
           lift (log INFO "Created %d assets, %d relationships, %d timeseries in ADT!")
         else
           let ts := sync_ts_value sync_ts in
           lift (log INFO "Updating existing ADT digital twins for CDF asset hierarchy with root asset external ID '%s'!") ;;;
           na <- lift (update_assets
                         (filter (fun x => negb (Qle_bool (inject_Z (last_updated_time x)) (ts * 1000)))
                                 asset_list)) ;;
           nr <- lift (update_asset_to_asset_relationships cdf_client asset_list ts) ;;
           nt <- lift (update_timeseries cdf_client asset_list ts) ;;
           nad <- lift (delete_assets (tl asset_list) root_ext_id) ;;
           nrd <- lift (delete_asset_to_asset_relationships cdf_client asset_list) ;;
           ntd <- lift (delete_timeseries cdf_client asset_list) ;;
           lift (log INFO "Updated %d assets, %d relationships, %d timeseries in ADT!") ;;;
           lift (log INFO "Deleted %d assets, %d relationships, %d timeseries in ADT!")) ;;;
        set_last_exec_TS root_ext_id date_now ;;;
        lift (log INFO "Finished synchronizing CDF asset hierarchy to ADT!")
  end.
End Pass.

End CDF2ADT.

(* ================================================================== *)
(** ** ADT2CDFSync/handler.py *)
(* ================================================================== *)

Module ADT2CDF.

(** *** The asset graph behind [cdf_client] *)

(** A datapoint value: a number (floats are idealised as rationals) or a
    string. *)
Inductive DValue : Type :=
| DNum (x : Q)
| DStr (s : string).

Record Datapoint : Type := mkDatapoint {
  dp_external_id : string;
  dp_timestamp : Q;          (* milliseconds *)
  dp_value : DValue
}.

(** A CDF relationship between two assets. *)
Record CdfRelationship : Type := mkCdfRelationship {
  rel_external_id : string;
  source_external_id : string;
  target_external_id : string;
  rel_labels : list string
}.

Record Store : Type := mkStore {
  assets : list Resource;
  time_series : list Resource;
  datapoints : list Datapoint;
  relationships : list CdfRelationship;
  label_definitions : list string      (* external ids of the label definitions *)
}.

(** The calls that change the asset graph. *)
Inductive Call : Type :=
| AssetsCreate (r : Resource)
| AssetsUpdate (r : Resource)
| AssetsSetParent (ext parent : string)
| AssetsDelete (ext : string)
| TimeSeriesCreate (r : Resource)
| TimeSeriesUpdate (r : Resource)
| TimeSeriesSetAsset (ext : string) (asset : option Z)
| TimeSeriesDelete (ext : string)
| DatapointsInsert (d : Datapoint)
| RelationshipsCreate (r : CdfRelationship).

Record World : Type := mkWorld {
  cdf : Store;
  calls : list Call;        (* mutating calls made, oldest first *)
  logs : list LogRecord
}.

Definition log (l : level) (msg : string) : M World unit :=
  modify (fun w => mkWorld (cdf w) (calls w) (logs w ++ [(l, msg)])).

(** A mutating call: the store changes and the call is recorded. *)
Definition mutate (c : Call) (f : Store -> Store) : M World unit :=
  modify (fun w => mkWorld (f (cdf w)) (calls w ++ [c]) (logs w)).

Definition has_ext (ext : string) (r : Resource) : bool :=
  String.eqb (external_id r) ext.

Definition opt_Z_eqb (a b : option Z) : bool :=
  match a, b with
  | Some x, Some y => Z.eqb x y
  | None, None => true
  | _, _ => false
  end.

(** The store assigns the internal id of a created resource. *)
Definition next_id (s : Store) : Z :=
  1 + fold_left (fun m r => match id r with Some i => Z.max m i | None => m end)
                (assets s ++ time_series s) 0%Z.

Definition assets_retrieve (ext : string) : M World (option Resource) :=
  gets (fun w => find (has_ext ext) (assets (cdf w))).

Definition assets_create (r : Resource) : M World unit :=
  mutate (AssetsCreate r)
         (fun s => mkStore (assets s ++ [set_id (Some (next_id s)) r]) (time_series s)
                           (datapoints s) (relationships s) (label_definitions s)).

(** [assets.update(asset)] with a whole resource: the stored asset with the
    same internal id is replaced. *)
Definition assets_update (r : Resource) : M World unit :=
  mutate (AssetsUpdate r)
         (fun s => mkStore (map (fun a => if opt_Z_eqb (id a) (id r) then r else a) (assets s))
                           (time_series s) (datapoints s) (relationships s)
                           (label_definitions s)).

(** [assets.update(AssetUpdate(external_id=ext).parent_external_id.set(p))] *)
Definition assets_set_parent (ext p : string) : M World unit :=
  mutate (AssetsSetParent ext p)
         (fun s => mkStore (map (fun a => if has_ext ext a
                                          then set_parent_external_id (Some p) a else a)
                                (assets s))
                           (time_series s) (datapoints s) (relationships s)
                           (label_definitions s)).

Definition assets_delete (ext : string) : M World unit :=
  mutate (AssetsDelete ext)
         (fun s => mkStore (filter (fun a => negb (has_ext ext a)) (assets s))
                           (time_series s) (datapoints s) (relationships s)
                           (label_definitions s)).

Definition time_series_retrieve (ext : string) : M World (option Resource) :=
  gets (fun w => find (has_ext ext) (time_series (cdf w))).

Definition time_series_create (r : Resource) : M World unit :=
  mutate (TimeSeriesCreate r)
         (fun s => mkStore (assets s) (time_series s ++ [set_id (Some (next_id s)) r])
                           (datapoints s) (relationships s) (label_definitions s)).

Definition time_series_update (r : Resource) : M World unit :=
  mutate (TimeSeriesUpdate r)
         (fun s => mkStore (assets s)
                           (map (fun a => if opt_Z_eqb (id a) (id r) then r else a)
                                (time_series s))
                           (datapoints s) (relationships s) (label_definitions s)).

Definition time_series_set_asset (ext : string) (a : option Z) : M World unit :=
  mutate (TimeSeriesSetAsset ext a)
         (fun s => mkStore (assets s)
                           (map (fun t => if has_ext ext t then set_asset_id a t else t)
                                (time_series s))
                           (datapoints s) (relationships s) (label_definitions s)).

(** Deleting a time series deletes its datapoints with it. *)
Definition time_series_delete (ext : string) : M World unit :=
  mutate (TimeSeriesDelete ext)
         (fun s => mkStore (assets s)
                           (filter (fun t => negb (has_ext ext t)) (time_series s))
                           (filter (fun d => negb (String.eqb (dp_external_id d) ext))
                                   (datapoints s))
                           (relationships s) (label_definitions s)).

(** [datapoints.retrieve_latest(external_id=ext)]: the datapoint of [ext]
    with the greatest timestamp, if there is one. *)
Definition later (best : option Datapoint) (d : Datapoint) : option Datapoint :=
  match best with
  | None => Some d
  | Some b => if Qle_bool (dp_timestamp d) (dp_timestamp b) then Some b else Some d
  end.

Definition datapoints_retrieve_latest (ext : string) : M World (option Datapoint) :=
  gets (fun w =>
          fold_left later
                    (filter (fun d => String.eqb (dp_external_id d) ext) (datapoints (cdf w)))
                    None).

Definition datapoints_insert (d : Datapoint) : M World unit :=
  mutate (DatapointsInsert d)
         (fun s => mkStore (assets s) (time_series s) (datapoints s ++ [d])
                           (relationships s) (label_definitions s)).

Definition relationships_retrieve (ext : string) : M World (option CdfRelationship) :=
  gets (fun w => find (fun r => String.eqb (rel_external_id r) ext) (relationships (cdf w))).

Definition relationships_create (r : CdfRelationship) : M World unit :=
  mutate (RelationshipsCreate r)
         (fun s => mkStore (assets s) (time_series s) (datapoints s)
                           (relationships s ++ [r]) (label_definitions s)).

(** [labels.list(external_id_prefix=l)] *)
Definition labels_list (l : string) : M World (list string) :=
  gets (fun w => filter (fun x => startswith x l) (label_definitions (cdf w))).

(** *** Event payloads *)

(** The body of a cloud event, restricted to the keys the handlers look up;
    an absent key is [None].  [b_tags] is ['tags'] with its ['values'] map,
    [b_metadata] is ['$metadata'] with its ['$model']. *)
Record Body : Type := mkBody {
  b_dtId : option string;
  b_externalId : option string;
  b_displayName : option string;
  b_description : option string;
  b_tags : option (option (dict string));
  b_latestValue : option string;
  b_timestamp : option string;
  b_metadata : option (option string);
  b_modelId : option string;
  b_patch : option (list Patch);
  b_relationshipId : option string;
  b_relationshipName : option string;
  b_sourceId : option string;
  b_targetId : option string;
  b_labels : option string
}.

(** [d[key]] on a body: [KeyError] when the key is absent. *)
Definition item {W A} (key : string) (v : option A) : M W A :=
  match v with
  | Some a => ret a
  | None => raise (KeyError key)
  end.

(** [EventRepresentation]: an attribute that was never assigned is [None]
    and reading it raises [AttributeError]. *)
Record EventRepresentation : Type := mkEventRepresentation {
  type : option string;
  resource : option string;
  subject : string;
  body : Body
}.

Definition attr {W A} (v : option A) : M W A :=
  match v with
  | Some a => ret a
  | None => raise AttributeError
  end.

(** [MetadataConversion] *)
Record MetadataConversion : Type := mkMetadataConversion {
  mc_value : string;
  mc_key : string
}.

(** [convert_metadata] of this handler keeps the original key next to the
    value. *)
Definition convert_key (k : string) : string :=
  str_replace (str_replace (str_replace k " " "_") "." "^") "$" "#".

Definition convert_items (metadata : dict string) : dict MetadataConversion :=
  fold_left (fun new_map kv =>
               dict_set (convert_key (fst kv)) (mkMetadataConversion (snd kv) (fst kv)) new_map)
            metadata [].

Definition convert_metadata {W} (metadata : option (dict string))
  : M W (dict MetadataConversion) :=
  match metadata with
  | None => raise TypeError
  | Some m => ret (convert_items m)
  end.

(** [has_asset_in_CDF_by_external_id] *)
Definition has_asset_in_CDF_by_external_id (adt_id : string) : M World bool :=
  asset <- assets_retrieve adt_id ;;
  ret (match asset with Some _ => true | None => false end).

(** [has_timeseries_in_CDF_by_external_id] *)
Definition has_timeseries_in_CDF_by_external_id (adt_id : string) : M World bool :=
  ts <- time_series_retrieve adt_id ;;
  ret (match ts with Some _ => true | None => false end).

(** *** Applying a patch to a record *)

(** A patch value read where the record holds a string or [None], a
    metadata map, or a metadata value.  The twin graph validates patches
    against the model, so a value of another shape is not delivered; the
    record types cannot hold one and the model raises [TypeError] there. *)
Definition as_scalar {W} (v : PatchValue) : M W (option string) :=
  match v with
  | VNone => ret None
  | VStr s => ret (Some s)
  | VMap _ => raise TypeError
  end.

Definition as_map {W} (v : PatchValue) : M W (option (dict string)) :=
  match v with
  | VNone => ret None
  | VMap d => ret (Some d)
  | VStr _ => raise TypeError
  end.

Definition as_str {W} (v : PatchValue) : M W string :=
  match v with
  | VStr s => ret s
  | _ => raise TypeError
  end.

(** [x != action['value']] for a string or [None] [x] *)
Definition differs (x : option string) (v : PatchValue) : bool :=
  match x, v with
  | None, VNone => false
  | Some a, VStr b => negb (String.eqb a b)
  | _, _ => true
  end.

(** [record.metadata[k] = v] *)
Definition metadata_setitem {W} (k v : string) (record : Resource) : M W Resource :=
  match metadata record with
  | None => raise TypeError
  | Some d => ret (set_metadata (Some (dict_set k v d)) record)
  end.

(** [del record.metadata[k]] *)
Definition metadata_delitem {W} (k : string) (record : Resource) : M W Resource :=
  match metadata record with
  | None => raise TypeError
  | Some d =>
      if dict_mem k d
      then ret (set_metadata (Some (dict_del k d)) record)
      else raise (KeyError k)
  end.

(** [check_value_change_and_update_record] *)
Definition check_value_change_and_update_record {W}
    (has_change : bool) (record_to_update : Resource)
    (converted_metadata : dict MetadataConversion)
    (metadata_key : string) (metadata_value : PatchValue)
  : M W (bool * Resource) :=
  match dict_get metadata_key converted_metadata with
  | Some c =>
      if differs (Some (mc_value c)) metadata_value
      then v <- as_str metadata_value ;;
           r <- metadata_setitem (mc_key c) v record_to_update ;;
           ret (true, r)
      else ret (has_change, record_to_update)
  | None =>
      v <- as_str metadata_value ;;
      r <- metadata_setitem metadata_key v record_to_update ;;
      ret (true, r)
  end.

(** The body of the loop of [fetch_changes_to_CDF_record] for one patch
    operation. *)
Definition apply_action (converted_metadata : dict MetadataConversion)
    (st : bool * Resource) (action : Patch) : M World (bool * Resource) :=
  let (has_change, record_to_update) := st in
  if String.eqb (path action) "/displayName" then
    if String.eqb (op action) "remove" then ret st
    else
      v <- item "value" (value action) ;;
      if differs (name record_to_update) v
      then n <- as_scalar v ;; ret (true, set_name n record_to_update)
      else ret st
  else if String.eqb (path action) "/description" then
    if String.eqb (op action) "remove" then
      if truthy_opt (description record_to_update)
      then ret (true, set_description (Some "") record_to_update)
      else ret st
    else
      v <- item "value" (value action) ;;
      if differs (description record_to_update) v
      then d <- as_scalar v ;; ret (true, set_description d record_to_update)
      else ret st
  else if String.eqb (path action) "/externalId" then
    (if String.eqb (op action) "add" then
       v <- item "value" (value action) ;;
       adt_id <- as_str v ;;
       exists_ <- has_asset_in_CDF_by_external_id adt_id ;;
       if negb exists_
       then log ERROR "Inconsistent hierarchy warning. The external ID '%s' already exists in CDF!"
       else ret tt
     else log ERROR "Invalid operation: DO NOT modify the 'externalId' property in ADT!") ;;;
    ret st
  else if String.eqb (path action) "/id" then
    (if negb (String.eqb (op action) "add")
     then log ERROR "Invalid operation: DO NOT modify the 'id' property in ADT!"
     else ret tt) ;;;
    ret st
  else if String.eqb (path action) "/tags/values" then
    st1 <- (if String.eqb (op action) "add" then
              match converted_metadata with
              | [] =>
                  v <- item "value" (value action) ;;
                  m <- as_map v ;;
                  ret (true, set_metadata m record_to_update)
              | _ :: _ =>
                  log WARNING "Trying to add metadata, but it already exists in CDF!" ;;;
                  ret st
              end
            else ret st) ;;
    if String.eqb (op action) "remove" then
      match converted_metadata with
      | [] => ret st1
      | _ :: _ => ret (true, set_metadata (Some []) (snd st1))
      end
    else ret st1
  else
    if startswith (path action) "/tags/values/" then
      let path := str_replace (path action) "/tags/values/" "" in
      st1 <- (if String.eqb (op action) "replace" then
                v <- item "value" (value action) ;;
                check_value_change_and_update_record has_change record_to_update
                                                     converted_metadata path v
              else ret st) ;;
      st2 <- (if String.eqb (op action) "add" then
                v <- item "value" (value action) ;;
                check_value_change_and_update_record (fst st1) (snd st1)
                                                     converted_metadata path v
              else ret st1) ;;
      if String.eqb (op action) "remove" then
        match dict_get path converted_metadata with
        | Some c =>
            r <- metadata_delitem (mc_key c) (snd st2) ;;
            ret (true, r)
        | None => ret st2
        end
      else ret st2
    else ret st.

Fixpoint apply_actions (converted_metadata : dict MetadataConversion)
         (st : bool * Resource) (patch : list Patch) : M World (bool * Resource) :=
  match patch with
  | [] => ret st
  | action :: rest =>
      st' <- apply_action converted_metadata st action ;;
      apply_actions converted_metadata st' rest
  end.

(** [fetch_changes_to_CDF_record] *)
Definition fetch_changes_to_CDF_record (record_to_update : Resource) (event_body : Body)
  : M World (bool * Resource) :=
  converted_metadata <- convert_metadata (metadata record_to_update) ;;
  patch <- item "patch" (b_patch event_body) ;;
  apply_actions converted_metadata (false, record_to_update) patch.

Section Handlers.
(** [ROOT_EXTERNAL_ID], read from the environment. *)
Variable ROOT_EXTERNAL_ID : string.

(** [datetime.strptime(s, '%Y-%m-%dT%H:%M:%S.%fZ')] as a UTC timestamp in
    seconds, and [float(s)]; [None] where Python raises [ValueError]. *)
Variable strptime : string -> option Q.
Variable float_of : string -> option Q.

(** A resource as its constructor leaves it: only the named attributes
    are set. *)
Definition new_resource (ext : string) (parent : option string) (nm : option string)
           (asset : option Z) : Resource :=
  mkResource ext None nm None None parent asset false 0.

(** The attributes a Create handler copies from the event body. *)
Definition fill_from_body (event_body : Body) (r : Resource) : M World Resource :=
  let r1 := match b_displayName event_body with
            | Some n => set_name (Some n) r
            | None => set_name (b_dtId event_body) r
            end in
  let r2 := match b_description event_body with
            | Some d => set_description (Some d) r1
            | None => r1
            end in
  tags <- item "tags" (b_tags event_body) ;;
  match tags with
  | Some values => ret (set_metadata (Some values) r2)
  | None => ret r2
  end.

(** [create_asset] *)
Definition create_asset (adt_id : string) (event_body : Body) : M World bool :=
  exists_ <- has_asset_in_CDF_by_external_id adt_id ;;
  if negb exists_ then
    new_asset <- fill_from_body event_body
                   (new_resource adt_id (Some ROOT_EXTERNAL_ID) None None) ;;
    assets_create new_asset ;;;
    ret true
  else
    log WARNING "CDF asset with external ID '%s' already exists!" ;;;
    ret false.

(** [update_asset] *)
Definition update_asset (adt_client : ADT) (adt_id : string) (event_body : Body)
  : M World bool :=
  found <- assets_retrieve adt_id ;;
  resolved <-
    match found with
    | Some a => ret (Some a)
    | None =>
        match get_digital_twin adt_client adt_id with
        | None => raise ResourceNotFoundError
        | Some dt =>
            match dt_externalId dt with
            | None =>
                log ERROR "Cannot perform update! CDF asset with external ID '%s' does not exist!" ;;;
                ret None
            | Some ext =>
                again <- assets_retrieve ext ;;
                match again with
                | Some a => ret (Some a)
                | None =>
                    log ERROR "Cannot perform update! CDF asset with external ID '%s' does not exist!" ;;;
                    ret None
                end
            end
        end
    end ;;
  match resolved with
  | None => ret false
  | Some asset_to_update =>
      try_except
        (st <- fetch_changes_to_CDF_record asset_to_update event_body ;;
         (if fst st
          then assets_update (snd st)
          else log WARNING "Nothing to update! The asset '%s' is already up to date!") ;;;
         ret true)
        (fun e => match e with
                  | KeyError _ => Some (log ERROR "KeyError in update_asset %s !" ;;; ret false)
                  | _ => None
                  end)
  end.

(** [delete_asset] *)
Definition delete_asset (adt_id : string) : M World bool :=
  exists_ <- has_asset_in_CDF_by_external_id adt_id ;;
  (if exists_
   then assets_delete adt_id
   else log WARNING "CDF asset with external ID '%s' was not found!") ;;;
  ret true.

(** [handle_asset]; falling off the end returns [None], which is false. *)
Definition handle_subject (event_representation : EventRepresentation) : string :=
  match b_externalId (body event_representation) with
  | Some ext => if truthy ext then ext else subject event_representation
  | None => subject event_representation
  end.

Definition handle_asset (adt_client : ADT) (event_representation : EventRepresentation)
  : M World bool :=
  let event_body := body event_representation in
  let adt_id := handle_subject event_representation in
  ty <- attr (type event_representation) ;;
  if String.eqb ty "Create" then create_asset adt_id event_body
  else if String.eqb ty "Update" then update_asset adt_client adt_id event_body
  else if String.eqb ty "Delete" then delete_asset adt_id
  else ret false.

(** [check_and_insert_datapoint].  While the deleted time series can still
    be retrieved the source sleeps and retrieves again; nothing else
    changes the store meanwhile, so a successful retrieval there repeats
    forever. *)
Definition check_and_insert_datapoint (adt_id latest_value timestamp_str : string)
  : M World bool :=
  match strptime timestamp_str with
  | None => raise ValueError
  | Some timestamp =>
      datapoint <- datapoints_retrieve_latest adt_id ;;
      timeseries <- time_series_retrieve adt_id ;;
      let newer := match datapoint with
                   | None => true
                   | Some d => negb (Qle_bool timestamp (dp_timestamp d / 1000))
                   end in
      if newer then
        checked <-
          match float_of latest_value with
          | Some x =>
              ts <- attr timeseries ;;
              if is_string ts
              then log ERROR "Cannot insert number '%s' into string timeseries '%s'!" ;;;
                   ret None
              else ret (Some (DNum x, ts))
          | None =>
              ts <- attr timeseries ;;
              match datapoint with
              | None =>
                  log WARNING "The value '%s' is the first one to be inserted into timeseries '%s'. Converting timeseries to string BY RECREATION!" ;;;
                  let ts' := set_id None (set_is_string true ts) in
                  time_series_delete (external_id ts') ;;;
                  still <- time_series_retrieve (external_id ts') ;;
                  match still with
                  | Some _ => (fun w => (Diverge, w))
                  | None =>
                      time_series_create ts' ;;;
                      ret (Some (DStr latest_value, ts'))
                  end
              | Some _ =>
                  if negb (is_string ts)
                  then log ERROR "Cannot insert string '%s' into numeric timeseries '%s'!" ;;;
                       ret None
                  else ret (Some (DStr latest_value, ts))
              end
          end ;;
        match checked with
        | None => ret false
        | Some (latest_value_to_insert, ts) =>
            datapoints_insert (mkDatapoint (external_id ts) (timestamp * 1000)
                                           latest_value_to_insert) ;;;
            log INFO "New datapoint added with values %s to timeseries '%s'!" ;;;
            ret true
        end
      else ret false
  end.

(** [create_timeseries] *)
Definition create_timeseries (adt_id : string) (event_body : Body) : M World bool :=
  exists_ <- has_timeseries_in_CDF_by_external_id adt_id ;;
  if negb exists_ then
    root <- assets_retrieve ROOT_EXTERNAL_ID ;;
    rootAsset <- attr root ;;
    new_data <- fill_from_body event_body
                  (new_resource adt_id None (Some adt_id) (id rootAsset)) ;;
    time_series_create new_data ;;;
    log INFO "Timeseries '%s' was created!" ;;;
    match b_latestValue event_body, b_timestamp event_body with
    | Some lv, Some ts =>
        if truthy lv && truthy ts
        then check_and_insert_datapoint adt_id lv ts ;;; ret true
        else ret true
    | _, _ => ret true
    end
  else
    log WARNING "CDF timeseries '%s' already exists!" ;;;
    ret false.

(** [delete_timeseries] *)
Definition delete_timeseries (adt_id : string) : M World bool :=
  exists_ <- has_timeseries_in_CDF_by_external_id adt_id ;;
  (if exists_
   then time_series_delete adt_id
   else log WARNING "Timeseries '%s' was not found in CDF!") ;;;
  ret true.

(** The query for the other ['parent'] edges of a source twin, and for the
    other ['contains'] edges into a time-series twin. *)
Definition other_parents_query (source_id relationship_id : string) : string :=
  ("SELECT R FROM DIGITALTWINS T JOIN CT RELATED T.parent R "
     ++ "WHERE T.$dtId = '" ++ source_id ++ "'"
     ++ " and R.$relationshipId != '" ++ relationship_id ++ "'")%string.

Definition other_contains_query (target_id relationship_id : string) : string :=
  ("SELECT R FROM DIGITALTWINS T JOIN CT RELATED T.contains R "
     ++ "WHERE CT.$dtId = '" ++ target_id ++ "'"
     ++ " and R.$relationshipId != '" ++ relationship_id ++ "'")%string.

(** The label check of [create_relationship]: the first label without a
    definition stops the loop. *)
Fixpoint labels_exist (labels : list string) : M World bool :=
  match labels with
  | [] => ret true
  | l :: rest =>
      defs <- labels_list l ;;
      match defs with
      | [] =>
          log ERROR "Cannot create CDF relationship. The label with the external ID '%s' does not exist!" ;;;
          ret false
      | _ :: _ => labels_exist rest
      end
  end.

(** [create_relationship] *)
Definition create_relationship (adt_client : ADT) (event_body : Body)
           (rel_source rel_target : Resource) : M World bool :=
  rel_name <- item "$relationshipName" (b_relationshipName event_body) ;;
  if String.eqb rel_name "parent" then
    source_id <- item "$sourceId" (b_sourceId event_body) ;;
    relationship_id <- item "$relationshipId" (b_relationshipId event_body) ;;
    let parent_rels := query_twins adt_client (other_parents_query source_id relationship_id) in
    match parent_rels with
    | _ :: _ =>
        log ERROR "An asset in CDF can have a single parent, but another parent was added to asset '%s'. Aborting synchronization! Please delete the relationship with ID: '%s' from ADT!" ;;;
        ret false
    | [] =>
        found <- assets_retrieve (external_id rel_source) ;;
        a <- attr found ;;
        if opt_str_eqb (parent_external_id a) (Some (external_id rel_target))
        then log WARNING "The parent of '%s' in CDF is already '%s'!" ;;;
             ret true
        else assets_set_parent (external_id rel_source) (external_id rel_target) ;;;
             ret true
    end
  else if String.eqb rel_name "contains" then
    target_id <- item "$targetId" (b_targetId event_body) ;;
    relationship_id <- item "$relationshipId" (b_relationshipId event_body) ;;
    let contain_rels := query_twins adt_client (other_contains_query target_id relationship_id) in
    match contain_rels with
    | _ :: _ =>
        log ERROR "A timeseries in CDF can have a single asset linked, but another asset was added to timeseries '%s'. Aborting synchronization! Please delete the relationship with ID: '%s' from ADT!" ;;;
        ret false
    | [] =>
        found <- time_series_retrieve (external_id rel_target) ;;
        ts <- attr found ;;
        if opt_Z_eqb (asset_id ts) (id rel_source)
        then log WARNING "The linked asset of '%s' in CDF is already '%s'!" ;;;
             ret false
        else time_series_set_asset (external_id rel_target) (id rel_source) ;;;
             ret true
    end
  else if String.eqb rel_name "relatesTo" then
    relationship_id <- item "$relationshipId" (b_relationshipId event_body) ;;
    existing <- relationships_retrieve relationship_id ;;
    match existing with
    | Some _ =>
        log WARNING "The CDF relationship with external ID '%s' already exists!" ;;;
        ret false
    | None =>
        let labels := match b_labels event_body with
                      | Some ls => split_on "," ls
                      | None => []
                      end in
        ok <- labels_exist labels ;;
        if ok then
          relationships_create
            (mkCdfRelationship relationship_id (external_id rel_source)
                               (external_id rel_target) labels) ;;;
          ret true
        else ret false
    end
  else
    log ERROR "The relationship with body: %s cannot be handled by the current solution!" ;;;
    ret false.

(** *** Parsing and dispatch *)

(** One element of [event.metadata["PropertiesArray"]]. *)
Record Properties : Type := mkProperties {
  ce_type : option string;        (* 'cloudEvents:type' *)
  ce_subject : option string;     (* 'cloudEvents:subject' *)
  ce_time : option string         (* 'cloudEvents:time' *)
}.

(** An event of the batch: [get_body] is the decoded and parsed body,
    [None] where decoding or [json.loads] raises (a [ValueError]);
    [PropertiesArray] is that key of [event.metadata]. *)
Record EventHubEvent : Type := mkEvent {
  get_body : option Body;
  PropertiesArray : option (list Properties)
}.

(** The values of [CLOUD_EVENT_TYPES]. *)
Definition CLOUD_EVENT_TYPES : list string :=
  [ "Microsoft.DigitalTwins.Twin.Create";
    "Microsoft.DigitalTwins.Twin.Update";
    "Microsoft.DigitalTwins.Twin.Delete";
    "Microsoft.DigitalTwins.Relationship.Create";
    "Microsoft.DigitalTwins.Relationship.Update";
    "Microsoft.DigitalTwins.Relationship.Delete" ].

Definition str_in (s : string) (l : list string) : bool :=
  existsb (String.eqb s) l.

(** [l[i]] *)
Definition index {W A} (l : list A) (i : nat) : M W A :=
  match nth_error l i with
  | Some a => ret a
  | None => raise IndexError
  end.

(** The body of the inner [try] of [parse_event]. *)
Definition parse_event_body (event : EventHubEvent) (event_properties : Properties)
  : M World (option EventRepresentation) :=
  ce <- item "cloudEvents:type" (ce_type event_properties) ;;
  (if str_in ce CLOUD_EVENT_TYPES then ret tt else raise ValueError) ;;;
  event_body <- match get_body event with
                | Some b => ret b
                | None => raise ValueError
                end ;;
  event_subject <- item "cloudEvents:subject" (ce_subject event_properties) ;;
  let cloud_event_parts := split_on "." ce in
  event_type <-
    (if Nat.leb 4 (List.length cloud_event_parts)
     then p3 <- index cloud_event_parts 3 ;;
          ret (if str_in p3 ["Create"; "Update"; "Delete"] then Some p3 else None)
     else ret None) ;;
  p2 <- index cloud_event_parts 2 ;;
  event_resource <-
    (if String.eqb p2 "Twin" then
       p3 <- index cloud_event_parts 3 ;;
       model <-
         (if String.eqb p3 "Create" || String.eqb p3 "Delete" then
            md <- item "$metadata" (b_metadata event_body) ;;
            m <- item "$model" md ;;
            ret (Some m)
          else if String.eqb p3 "Update" then
            m <- item "modelId" (b_modelId event_body) ;;
            ret (Some m)
          else ret None) ;;
       ret (if opt_str_eqb model (Some (model_value ASSET)) then Some "asset"
            else if opt_str_eqb model (Some (model_value TIMESERIES)) then Some "timeseries"
            else None)
     else if String.eqb p2 "Relationship" then ret (Some "relationship")
     else ret None) ;;
  ret (Some (mkEventRepresentation event_type event_resource event_subject event_body)).

(** [parse_event]: after either [except] clause the function falls off
    its end and returns [None]. *)
Definition parse_event (event : EventHubEvent) (event_properties : Properties)
  : M World (option EventRepresentation) :=
  try_except
    (try_except
       (parse_event_body event event_properties)
       (fun e => match e with
                 | ValueError =>
                     Some (log ERROR "Cloud event type '%s' is not handled by the current solution!" ;;;
                           ret None)
                 | _ => None
                 end))
    (fun e => match e with
              | KeyError _ =>
                  Some (log ERROR "Key error when parsing cloud event with body: %s and metadata: %s!" ;;;
                        ret None)
              | _ => None
              end).

Section Dispatch.
(** The relationship and time-series handler families, as [handle]
    calls them. *)
Variable handle_relationship : ADT -> EventRepresentation -> M World bool.
Variable handle_timeseries : ADT -> EventRepresentation -> M World bool.

(** The outcome line [handle] logs for one event. *)
Definition log_outcome (result : bool) : M World unit :=
  if result
  then log INFO "Event processed sucesfully for subject '%s'!"
  else log INFO "There was a problem when processing event for subject '%s'! Check log messages above for errors/warnings!".

(** The loop of [handle]; [n_events] is [len(events)].  The result is
    [None] where the source leaves with a bare [return]. *)
Fixpoint handle_events (adt_client : ADT) (n_events : nat)
         (events : list EventHubEvent) (eventIndex : nat) : M World (option nat) :=
  match events with
  | [] => ret (Some eventIndex)
  | event :: rest =>
      metadata <- item "PropertiesArray" (PropertiesArray event) ;;
      if negb (Nat.eqb (List.length metadata) n_events) then
        log ERROR "Length of cloud event list (%s) does not match length of metadata (%s)!" ;;;
        ret None
      else
        props <- index metadata eventIndex ;;
        parsed <- parse_event event props ;;
        event_representation <- attr parsed ;;
        ty <- attr (type event_representation) ;;
        if negb (str_in ty ["Create"; "Update"; "Delete"]) then
          log ERROR "Error: unknown event type '%s' for event with body %s" ;;;
          ret None
        else
          res <- attr (resource event_representation) ;;
          item "cloudEvents:time" (ce_time props) ;;;
          log INFO "EVENT INFO: %s %s '%s' at %s." ;;;
          result <-
            (if String.eqb res "asset"
             then handle_asset adt_client event_representation
             else if String.eqb res "relationship"
             then handle_relationship adt_client event_representation
             else if String.eqb res "timeseries"
             then handle_timeseries adt_client event_representation
             else log ERROR "Unknown cloud event type '%s' for event: %s" ;;;
                  ret false) ;;
          log_outcome result ;;;
          handle_events adt_client n_events rest (eventIndex + 1)
  end.

(** [handle] *)
Definition handle (adt_client : ADT) (events : list EventHubEvent)
  : M World (option nat) :=
  rootAsset <- assets_retrieve ROOT_EXTERNAL_ID ;;
  match rootAsset with
  | None =>
      log ERROR "Error: root asset with external id: '%s' was not found in CDF!" ;;;
      ret None
  | Some _ => handle_events adt_client (List.length events) events 0
  end.
End Dispatch.
End Handlers.

End ADT2CDF.


(* ================================================================== *)
(** ** ADT2CDFSync/handler.py: the relationship and time-series families *)
(* ================================================================== *)

Module ADT2CDF_Handlers.
Import ADT2CDF.

(** *** A further call on the asset graph

    [relationships.delete] changes the store; the call log of [World] lists
    the calls of the asset, time-series and datapoint families and the
    creation of relationships, so this call is visible in the store only. *)
Definition relationships_delete (ext : string) : M World unit :=
  modify (fun w =>
            mkWorld (mkStore (assets (cdf w)) (time_series (cdf w)) (datapoints (cdf w))
                             (filter (fun r => negb (String.eqb (rel_external_id r) ext))
                                     (relationships (cdf w)))
                             (label_definitions (cdf w)))
                    (calls w) (logs w)).

(** [adt_client.get_digital_twin(id)] inside [try ... except
    ResourceNotFoundError] (where the twin becomes [{}]), followed by the
    test for ['externalId']. *)
Definition twin_externalId (adt_client : ADT) (digital_twin_id : string) : option string :=
  match get_digital_twin adt_client digital_twin_id with
  | Some dt => dt_externalId dt
  | None => None
  end.

(** The second attempt of [get_rel_endpoints] for one endpoint: the
    ['externalId'] of the twin is looked up with [retrieve]; [missing_twin]
    and [missing_resource] are the two records logged on failure. *)
Definition retry_by_twin (adt_client : ADT) (retrieve : string -> M World (option Resource))
           (digital_twin_id : string) (missing_twin missing_resource : LogRecord)
  : M World (option Resource) :=
  match twin_externalId adt_client digital_twin_id with
  | None => log (fst missing_twin) (snd missing_twin) ;;; ret None
  | Some ext =>
      again <- retrieve ext ;;
      match again with
      | Some r => ret (Some r)
      | None => log (fst missing_resource) (snd missing_resource) ;;; ret None
      end
  end.

(** [get_rel_endpoints] *)
Definition get_rel_endpoints (adt_client : ADT) (rel : Body)
  : M World (option (Resource * Resource)) :=
  source_id <- item "$sourceId" (b_sourceId rel) ;;
  source_asset <- assets_retrieve source_id ;;
  rel_name <- item "$relationshipName" (b_relationshipName rel) ;;
  target_id <- item "$targetId" (b_targetId rel) ;;
  target_res <- (if String.eqb rel_name "contains"
                 then time_series_retrieve target_id
                 else assets_retrieve target_id) ;;
  match source_asset, target_res with
  | Some s, Some t => ret (Some (s, t))
  | _, _ =>
      source <-
        match source_asset with
        | Some s => ret (Some s)
        | None =>
            retry_by_twin adt_client assets_retrieve source_id
              (WARNING, "The asset with digital twin ID '%s' does not exist in ADT anymore!")
              (WARNING, "The asset with external ID '%s' does not exist in CDF!")
        end ;;
      match source with
      | None => ret None
      | Some s =>
          target <-
            match target_res with
            | Some t => ret (Some t)
            | None =>
                if String.eqb rel_name "contains"
                then retry_by_twin adt_client time_series_retrieve target_id
                       (WARNING, "The timeseries with digital twin ID '%s' does not exist in ADT anymore!")
                       (WARNING, "The timeseries with external ID '%s' does not exist in CDF!")
                else retry_by_twin adt_client assets_retrieve target_id
                       (ERROR, "The timeseries with external ID '%s' does not exist in ADT anymore!")
                       (ERROR, "The asset with external ID '%s' does not exist in CDF!")
            end ;;
          match target with
          | None => ret None
          | Some t => ret (Some (s, t))
          end
      end
  end.

(** [rows[0]['R']]: a row of another query has no ['R']. *)
Definition row_R {W} (r : Row) : M W Relationship :=
  match r with
  | RowR R => ret R
  | RowTs _ _ _ => raise (KeyError "R")
  end.

(** The asset [delete_relationship] falls back to: the asset with the
    given id or, failing that, the asset named by the ['externalId'] of the
    twin with that id.  Here [get_digital_twin] is not guarded. *)
Definition other_asset (adt_client : ADT) (digital_twin_id : string)
  : M World (option Resource) :=
  found <- assets_retrieve digital_twin_id ;;
  match found with
  | Some a => ret (Some a)
  | None =>
      match get_digital_twin adt_client digital_twin_id with
      | None => raise ResourceNotFoundError
      | Some dt =>
          ext <- item "externalId" (dt_externalId dt) ;;
          again <- assets_retrieve ext ;;
          match again with
          | Some a => ret (Some a)
          | None =>
              log ERROR "The asset with external ID '%d' does not exist in CDF!" ;;;
              ret None
          end
      end
  end.

Section Handlers.
Variable ROOT_EXTERNAL_ID : string.
Variable strptime : string -> option Q.
Variable float_of : string -> option Q.

(** [delete_relationship].  The keys a log call reads from the event body
    are looked up before the record is logged. *)
Definition delete_relationship (adt_client : ADT) (event_body : Body)
           (rel_source rel_target : Resource) : M World bool :=
  rel_name <- item "$relationshipName" (b_relationshipName event_body) ;;
  if String.eqb rel_name "parent" then
    if negb (opt_str_eqb (parent_external_id rel_source) (Some (external_id rel_target))) then
      item "$sourceId" (b_sourceId event_body) ;;;
      item "$targetId" (b_targetId event_body) ;;;
      log WARNING "Parent not deleted in CDF! You are deleting the '%s'->'%s' parent relationship from ADT, but the parent is actually '%s' in CDF!" ;;;
      ret true
    else
      source_id <- item "$sourceId" (b_sourceId event_body) ;;
      relationship_id <- item "$relationshipId" (b_relationshipId event_body) ;;
      let parent_rels := query_twins adt_client (other_parents_query source_id relationship_id) in
      match parent_rels with
      | row0 :: _ =>
          item "$targetId" (b_targetId event_body) ;;;
          R <- row_R row0 ;;
          log WARNING "Changing parent in CDF! You are deleting the '%s'->'%s' parent relationship from ADT, but '%s' is another parent in ADT, setting it in CDF as well!" ;;;
          new_parent_asset <- other_asset adt_client (targetId R) ;;
          match new_parent_asset with
          | None => ret false
          | Some p =>
              assets_set_parent (external_id rel_source) (external_id p) ;;;
              ret true
          end
      | [] =>
          assets_set_parent (external_id rel_source) ROOT_EXTERNAL_ID ;;;
          ret true
      end
  else if String.eqb rel_name "contains" then
    if negb (opt_Z_eqb (id rel_source) (asset_id rel_target)) then
      item "$sourceId" (b_sourceId event_body) ;;;
      item "$targetId" (b_targetId event_body) ;;;
      log WARNING "Timeseries-asset link not deleted in CDF! You are deleting the '%s'->'%s' link relationship from ADT, but the linked asset is different in CDF!" ;;;
      ret true
    else
      target_id <- item "$targetId" (b_targetId event_body) ;;
      relationship_id <- item "$relationshipId" (b_relationshipId event_body) ;;
      let contain_rels := query_twins adt_client (other_contains_query target_id relationship_id) in
      match contain_rels with
      | row0 :: _ =>
          item "$sourceId" (b_sourceId event_body) ;;;
          R <- row_R row0 ;;
          log WARNING "Changing linked asset in CDF! You are deleting the '%s'->'%s' link relationship from ADT, but '%s' is another linked asset in ADT, setting it in CDF as well!" ;;;
          new_linked_asset <- other_asset adt_client (sourceId R) ;;
          match new_linked_asset with
          | None => ret false
          | Some a =>
              time_series_set_asset (external_id rel_target) (id a) ;;;
              ret true
          end
      | [] =>
          root <- assets_retrieve ROOT_EXTERNAL_ID ;;
          r <- attr root ;;
          time_series_set_asset (external_id rel_target) (id r) ;;;
          ret true
      end
  else if String.eqb rel_name "relatesTo" then
    relationship_id <- item "$relationshipId" (b_relationshipId event_body) ;;
    rel <- relationships_retrieve relationship_id ;;
    match rel with
    | Some r =>
        source_id <- item "$sourceId" (b_sourceId event_body) ;;
        if negb (String.eqb (source_external_id r) source_id) then
          log WARNING "Relationship '%s' not deleted from CDF, because the source asset in CDF ('%s') is different from ADT ('%s')!" ;;;
          ret true
        else
          target_id <- item "$targetId" (b_targetId event_body) ;;
          if negb (String.eqb (target_external_id r) target_id) then
            log WARNING "Relationship '%s' not deleted from CDF, because the target asset in CDF ('%s') is different from ADT ('%s')!" ;;;
            ret true
          else
            relationships_delete relationship_id ;;;
            ret true
    | None =>
        log ERROR "Relationship with external ID '%s' does not exist in CDF!" ;;;
        ret false
    end
  else
    log ERROR "The relationship with body: %s cannot be handled by the current solution!" ;;;
    ret false.

Section Relationship.
(** [update_relationship], as [handle_relationship] calls it; it is not
    unfolded here. *)
Variable update_relationship : Body -> string -> M World bool.

(** [handle_relationship].  The endpoints are looked up for Create and
    Delete events only, so only these two reach a branch that uses them;
    falling off the end returns [None], which is false. *)
Definition handle_relationship (adt_client : ADT) (event_representation : EventRepresentation)
  : M World bool :=
  ty <- attr (type event_representation) ;;
  if str_in ty ["Create"; "Delete"] then
    rel_endptspoints <- get_rel_endpoints adt_client (body event_representation) ;;
    match rel_endptspoints with
    | None => ret false
    | Some (rel_source, rel_target) =>
        if String.eqb ty "Create"
        then create_relationship adt_client (body event_representation) rel_source rel_target
        else if String.eqb ty "Update"
        then update_relationship (body event_representation) (subject event_representation)
        else if String.eqb ty "Delete"
        then delete_relationship adt_client (body event_representation) rel_source rel_target
        else ret false
    end
  else if String.eqb ty "Update"
  then update_relationship (body event_representation) (subject event_representation)
  else ret false.
End Relationship.

(** A patch value passed where [check_and_insert_datapoint] expects a
    string; as for the record attributes, a value of another shape is not
    delivered and the model raises [TypeError] there. *)
Definition get_str {W} (v : option PatchValue) : M W string :=
  match v with
  | Some (VStr s) => ret s
  | _ => raise TypeError
  end.

(** [event_body['patch'].remove(x)] for the first element [x] whose path
    contains ['/timestamp']: every element equal to [x] has that path, so
    the element removed is [x] itself. *)
Fixpoint remove_first (p : Patch -> bool) (l : list Patch) : list Patch :=
  match l with
  | [] => []
  | a :: rest => if p a then rest else a :: remove_first p rest
  end.

Definition is_timestamp (action_item : Patch) : bool :=
  contains "/timestamp" (path action_item).

(** The loop of [update_timeseries] over a copy of the patch; [live] is
    [event_body['patch']], which the loop shortens. *)
Fixpoint insert_datapoints (ts_external_id : string) (actions live : list Patch)
         (has_datapoint : bool) : M World bool :=
  match actions with
  | [] => ret has_datapoint
  | action :: rest =>
      if String.eqb (path action) "/latestValue" then
        if String.eqb (op action) "remove"
        then insert_datapoints ts_external_id rest live has_datapoint
        else
          match filter is_timestamp live with
          | stamp0 :: _ =>
              if negb (String.eqb (op stamp0) "remove") then
                latest_value <- get_str (value action) ;;
                timestamp_str <- get_str (value stamp0) ;;
                has_datapoint' <- check_and_insert_datapoint strptime float_of ts_external_id
                                                             latest_value timestamp_str ;;
                insert_datapoints ts_external_id rest (remove_first is_timestamp live)
                                  has_datapoint'
              else insert_datapoints ts_external_id rest live has_datapoint
          | [] => insert_datapoints ts_external_id rest live has_datapoint
          end
      else insert_datapoints ts_external_id rest live has_datapoint
  end.

(** [update_timeseries] *)
Definition update_timeseries (adt_client : ADT) (adt_id : string) (event_body : Body)
  : M World bool :=
  found <- time_series_retrieve adt_id ;;
  resolved <-
    match found with
    | Some t => ret (Some t)
    | None =>
        match get_digital_twin adt_client adt_id with
        | None => raise ResourceNotFoundError
        | Some dt =>
            match dt_externalId dt with
            | None =>
                log ERROR "Cannot perform update! CDF timeseries with external ID '%s' does not exist!" ;;;
                ret None
            | Some ext =>
                again <- time_series_retrieve ext ;;
                match again with
                | Some t => ret (Some t)
                | None =>
                    log ERROR "Cannot perform update! CDF timeseries with external ID '%s' does not exist!" ;;;
                    ret None
                end
            end
        end
    end ;;
  match resolved with
  | None => ret false
  | Some timeseries =>
      st <- fetch_changes_to_CDF_record timeseries event_body ;;
      let has_change := fst st in
      let timeseries_to_update := snd st in
      (if has_change then time_series_update timeseries_to_update else ret tt) ;;;
      patch <- item "patch" (b_patch event_body) ;;
      has_datapoint <- insert_datapoints (external_id timeseries_to_update) patch patch false ;;
      if negb has_change && negb has_datapoint then
        log WARNING "Nothing to update! Timeseries '%s' and latest value is already up to date!" ;;;
        ret true
      else ret (has_change || has_datapoint)
  end.

(** [handle_timeseries]; falling off the end returns [None], which is
    false. *)
Definition handle_timeseries (adt_client : ADT) (event_representation : EventRepresentation)
  : M World bool :=
  let event_body := body event_representation in
  let adt_id := handle_subject event_representation in
  ty <- attr (type event_representation) ;;
  if String.eqb ty "Create"
  then create_timeseries ROOT_EXTERNAL_ID strptime float_of adt_id event_body
  else if String.eqb ty "Update" then update_timeseries adt_client adt_id event_body
  else if String.eqb ty "Delete" then delete_timeseries adt_id
  else ret false.
End Handlers.

End ADT2CDF_Handlers.

(* ================================================================== *)
(** ** CDF2ADTSync/handler.py: writing to the twin graph *)
(* ================================================================== *)

Module CDF2ADT_Graph.
Import CDF2ADT.

(** The calls of [adt_client] that change the twin graph.  The relationship
    of [upsert_relationship] is the dictionary built by
    [insert_adt_relationship], with the source it is inserted under. *)
Inductive Call : Type :=
| UpsertDigitalTwin (digital_twin_id : string) (twin : DigitalTwin)
| UpsertRelationship (source_id relationship_id : string) (relationship : Relationship)
| DeleteRelationship (source_id relationship_id : string)
| DeleteDigitalTwin (digital_twin_id : string).

(** The twin side with the calls sent to the twin graph, oldest first;
    [refused] tells which calls the service answers with an exception. *)
Record World : Type := mkWorld {
  side : TwinSide;
  refused : Call -> option exn;
  sent : list Call
}.

Definition lift {A} (m : M TwinSide A) : M World A :=
  fun w =>
    let (r, t) := m (side w) in
    (r, mkWorld t (refused w) (sent w)).

Definition send (c : Call) : M World unit :=
  fun w =>
    match refused w c with
    | Some e => (Raise e, w)
    | None => (Ok tt, mkWorld (side w) (refused w) (sent w ++ [c]))
    end.

(** [insert_adt_relationship]; [rel_id] and [labels] default to [None]. *)
Definition insert_adt_relationship (sourceId targetId rel_name : string)
           (rel_id labels : option string) : M World unit :=
  if negb (existsb (String.eqb rel_name) ["parent"; "contains"; "relatesTo"])
  then raise ValueError
  else
    let rel_id := match rel_id with
                  | Some i => if truthy i then i else (sourceId ++ "->" ++ targetId)%string
                  | None => (sourceId ++ "->" ++ targetId)%string
                  end in
    let temp_rel := mkRelationship rel_id rel_name sourceId targetId
                                   (if truthy_opt labels then labels else None) in
    send (UpsertRelationship sourceId (relationshipId temp_rel) temp_rel).

(** [create_twin].  The two records logged on failure are the f-string
    naming the twin and the exception itself. *)
Definition create_twin (a : Resource) : M World unit :=
  temp_twin <- get_twin_dict a ASSET ;;
  let ext_id := convert_ext_id (external_id a) in
  try_except
    (send (UpsertDigitalTwin ext_id temp_twin) ;;;
     match parent_external_id a with
     | Some parent =>
         if truthy parent
         then insert_adt_relationship ext_id (convert_ext_id parent) "parent" None None
         else ret tt
     | None => ret tt
     end)
    (fun e => Some (lift (log ERROR "Failed: {ext_id}") ;;;
                    lift (log ERROR "{e}") ;;;
                    raise e)).

(** [insert_assets] *)
Fixpoint insert_each (asset_list : list Resource) (n : nat) : M World nat :=
  match asset_list with
  | [] => ret n
  | a :: rest => create_twin a ;;; insert_each rest (n + 1)
  end.

Definition insert_assets (asset_list : list Resource) : M World nat :=
  insert_each asset_list 0.

Section Deletion.
(** [str(pred_batch)], and
    [cdf_client.relationships.list(source_external_ids=ids,
    target_external_ids=ids, limit=-1)]. *)
Variable str_of_list : list string -> string.
Variable relationships_list : list string -> list string -> list ADT2CDF.CdfRelationship.

(** [r['R']] *)
Definition row_R {W} (r : Row) : M W Relationship :=
  match r with
  | RowR R => ret R
  | RowTs _ _ _ => raise (KeyError "R")
  end.

(** The loop of [delete_asset_to_asset_relationships]. *)
Fixpoint delete_stale (rel_ext_ids : list string) (rel_list_adt : list Row) (n : nat)
  : M World nat :=
  match rel_list_adt with
  | [] => ret n
  | r :: rest =>
      R <- row_R r ;;
      if negb (existsb (String.eqb (relationshipId R)) rel_ext_ids)
      then send (DeleteRelationship (sourceId R) (relationshipId R)) ;;;
           delete_stale rel_ext_ids rest (n + 1)
      else delete_stale rel_ext_ids rest n
  end.

(** [delete_asset_to_asset_relationships] *)
Definition delete_asset_to_asset_relationships (asset_list : list Resource) : M World nat :=
  let asset_ext_ids := map external_id asset_list in
  let rel_list_cdf := relationships_list asset_ext_ids asset_ext_ids in
  let rel_ext_ids := map ADT2CDF.rel_external_id rel_list_cdf in
  let sql_query :=
    ("SELECT R FROM DIGITALTWINS T JOIN CT RELATED T.relatesTo R WHERE T.$dtId in "
       ++ SQL_PLACEHOLDER)%string in
  rel_list_adt <- lift (query_adt_batches str_of_list sql_query
                                          (map convert_ext_id asset_ext_ids)) ;;
  delete_stale rel_ext_ids rel_list_adt 0.
End Deletion.

End CDF2ADT_Graph.

(* ================================================================== *)
(** ** Auxiliary definitions for the statements *)
(* ================================================================== *)

Open Scope nat_scope.

(** The loop of [set_last_exec_TS], element by element. *)
Definition stamp (ext_id : string) (ts : Q) (x : CDF2ADT.Execution) : CDF2ADT.Execution :=
  if String.eqb (CDF2ADT.root_asset_ext_id x) ext_id
  then CDF2ADT.mkExecution (CDF2ADT.root_asset_ext_id x) ts
  else x.

Definition is_for (ext_id : string) (x : CDF2ADT.Execution) : bool :=
  String.eqb (CDF2ADT.root_asset_ext_id x) ext_id.

(** The document [set_last_exec_TS] uploads. *)
Definition updated_runs (ext_id : string) (ts : Q) (func_runs : CDF2ADT.FuncRuns)
  : CDF2ADT.FuncRuns :=
  if existsb (is_for ext_id) func_runs
  then map (stamp ext_id ts) func_runs
  else func_runs ++ [CDF2ADT.mkExecution ext_id ts].

Definition stored_runs (w : CDF2ADT.World) : CDF2ADT.FuncRuns :=
  match CDF2ADT.blob w with
  | Some func_runs => func_runs
  | None => []
  end.



(** No id occurs in two different chunks. *)
Fixpoint chunks_disjoint (bs : list (list string)) : Prop :=
  match bs with
  | [] => True
  | b :: rest =>
      (forall x b', In x b -> In b' rest -> ~ In x b') /\ chunks_disjoint rest
  end.

(** Python's [str] of a list of strings, for strings made of printable
    characters other than quotes and backslashes. *)
Definition plain_str_of_list (l : list string) : string :=
  ("[" ++ String.concat ", " (map (fun s => "'" ++ s ++ "'") l) ++ "]")%string.



Definition idle_twin_side (a : ADT) : CDF2ADT.TwinSide :=
  CDF2ADT.mkTwinSide a [] 0%Q [].

(** Whether [handle] gets past its two early returns: the root asset
    exists, and it is not the case that a checkpoint is stored while the
    root twin is missing. *)
Definition pass_starts (cdf_client : CDF2ADT.CDF) (root_ext_id : string)
           (w : CDF2ADT.World) : bool :=
  match CDF2ADT.assets_retrieve cdf_client root_ext_id with
  | None => false
  | Some _ =>
      negb (CDF2ADT.has_sync_ts (CDF2ADT.find_exec_TS root_ext_id (stored_runs w))
            && match get_digital_twin (CDF2ADT.adt (CDF2ADT.twin w))
                                      (CDF2ADT.convert_ext_id root_ext_id) with
               | Some _ => false
               | None => true
               end)
  end.

(** A pass over a root without checkpoint whose first phase takes five
    seconds of wall-clock time. *)
Definition sample_root : Resource :=
  mkResource "root" (Some 1%Z) (Some "Root") None (Some []) None None false 0%Z.

Definition sample_cdf : CDF2ADT.CDF :=
  CDF2ADT.mkCDF (fun ext => if String.eqb ext "root" then Some sample_root else None)
                (fun _ => [sample_root]).

Definition slow_insert_assets (asset_list : list Resource) : M CDF2ADT.TwinSide nat :=
  fun t => (Ok (List.length asset_list),
            CDF2ADT.mkTwinSide (CDF2ADT.adt t) (CDF2ADT.issued t)
                               (CDF2ADT.now t + 5)%Q (CDF2ADT.logs t)).

Definition sample_pass_world : CDF2ADT.World :=
  CDF2ADT.mkWorld
    (CDF2ADT.mkTwinSide (mkADT (fun _ => None) (fun _ => [])) [] 10%Q [])
    None [].

Definition sample_pass : result unit * CDF2ADT.World :=
  CDF2ADT.handle slow_insert_assets (fun _ _ => ret 0) (fun _ _ => ret 0)
                 (fun _ => ret 0) (fun _ _ _ => ret 0) (fun _ _ _ => ret 0)
                 (fun _ _ => ret 0) (fun _ _ => ret 0) (fun _ _ => ret 0)
                 sample_cdf "root" sample_pass_world.

(** Computations that leave the checkpoint store alone. *)
Definition keeps_store {A} (m : M CDF2ADT.World A) : Prop :=
  forall w r w', m w = (r, w') ->
                 CDF2ADT.blob w' = CDF2ADT.blob w /\ CDF2ADT.uploads w' = CDF2ADT.uploads w.

(** An asset without metadata entries, a store that holds it, an empty
    store, and an update whose patch adds ['/externalId']. *)
Definition pump : Resource :=
  mkResource "A1" (Some 7%Z) (Some "Pump1") None (Some []) (Some "root") None false 0%Z.

Definition empty_store : ADT2CDF.Store := ADT2CDF.mkStore [] [] [] [] [].

Definition store_with (a : Resource) : ADT2CDF.Store := ADT2CDF.mkStore [a] [] [] [] [].

Definition world_of (s : ADT2CDF.Store) : ADT2CDF.World := ADT2CDF.mkWorld s [] [].

Definition no_body : ADT2CDF.Body :=
  ADT2CDF.mkBody None None None None None None None None None None None None None None None.

Definition update_body (patch : list Patch) : ADT2CDF.Body :=
  ADT2CDF.mkBody None None None None None None None None None (Some patch)
                 None None None None None.

Definition add_external_id (ext : string) : Patch :=
  mkPatch "add" "/externalId" (Some (VStr ext)).

(** A ['parent'] relationship create event for the twin ["A1"], and a twin
    graph in which ["A1"] already has another parent edge. *)
Definition parent_body (rel_id source target : string) : ADT2CDF.Body :=
  ADT2CDF.mkBody None None None None None None None None None None
                 (Some rel_id) (Some "parent") (Some source) (Some target) None.

Definition other_parent_adt : ADT :=
  mkADT (fun _ => None)
        (fun _ => [RowR (mkRelationship "A1->P1" "parent" "A1" "P1" None)]).

(** The world after one more log record. *)
Definition add_log (w : ADT2CDF.World) (rec : LogRecord) : ADT2CDF.World :=
  ADT2CDF.mkWorld (ADT2CDF.cdf w) (ADT2CDF.calls w) (ADT2CDF.logs w ++ [rec]).

(** A time series, and a store holding the asset [pump] and it. *)
Definition flow : Resource :=
  mkResource "T1" (Some 8%Z) (Some "Flow") None (Some []) None (Some 7%Z) false 0%Z.

Definition pump_and_flow : ADT2CDF.Store := ADT2CDF.mkStore [pump] [flow] [] [] [].

(** The number of resources of a list that carry the external id [ext]. *)
Definition count_ext (ext : string) (l : list Resource) : nat :=
  List.length (filter (ADT2CDF.has_ext ext) l).

(** Create events for the asset ["A1"] and for the time series ["T1"]; the
    latter carries a first value that is not a number. *)
Definition create_pump_body : ADT2CDF.Body :=
  ADT2CDF.mkBody (Some "A1") (Some "A1") (Some "Pump1") None
                 (Some (Some [("P", "10")])) None None
                 (Some (Some "dtmi:digitaltwins:cognite:cdf:Asset;1")) None None
                 None None None None None.

Definition create_flow_body : ADT2CDF.Body :=
  ADT2CDF.mkBody (Some "T1") (Some "T1") (Some "Flow") None
                 (Some None) (Some "open") (Some "2022-01-01T00:00:00.000Z")
                 (Some (Some "dtmi:digitaltwins:cognite:cdf:TimeSeries;1")) None None
                 None None None None None.

Definition root_only : ADT2CDF.Store :=
  ADT2CDF.mkStore
    [mkResource "root" (Some 1%Z) (Some "Root") None (Some []) None None false 0%Z]
    [] [] [] [].



(** The same Create event delivered alone. *)
Definition single_properties : list ADT2CDF.Properties :=
  [ ADT2CDF.mkProperties (Some "Microsoft.DigitalTwins.Twin.Create") (Some "A1")
                         (Some "2022-01-01T00:00:01Z") ].


Definition no_adt : ADT := mkADT (fun _ => None) (fun _ => []).

(** Handler families that are never reached in these batches. *)
Definition idle_handler (_ : ADT) (_ : ADT2CDF.EventRepresentation) : M ADT2CDF.World bool :=
  ret true.

(** What [parse_event] returns for the event at position [i] of a batch;
    the result does not depend on the world it runs in. *)
Definition parsed (event : ADT2CDF.EventHubEvent) (i : nat)
  : option ADT2CDF.EventRepresentation :=
  match ADT2CDF.PropertiesArray event with
  | Some metadata =>
      match nth_error metadata i with
      | Some props =>
          match fst (ADT2CDF.parse_event event props (world_of empty_store)) with
          | Ok r => r
          | _ => None
          end
      | None => None
      end
  | None => None
  end.

(** The loop shared by the two [convert_metadata]: the items of [m] are
    entered under their translated keys, [g] choosing what is stored. *)
Definition converted {A V} (f : string -> string) (g : string * A -> V)
           (m : dict A) (acc : dict V) : dict V :=
  fold_left (fun new_map kv => dict_set (f (fst kv)) (g kv) new_map) m acc.

(** A dictionary whose keys are distinct and stay distinct when
    translated. *)
Definition collision_free {A} (f : string -> string) (d : dict A) : Prop :=
  dict_wf d
  /\ forall r1 r2, In r1 (dict_keys d) -> In r2 (dict_keys d) -> f r1 = f r2 -> r1 = r2.

(** The bodies of the two loops of [get_update_patches] over the metadata
    keys. *)
Definition upsert_patch (values : dict string) (kv : string * string) : list Patch :=
  match dict_get (fst kv) values with
  | None => [mkPatch "add" ("/tags/values/" ++ fst kv)%string (Some (VStr (snd kv)))]
  | Some v =>
      if negb (String.eqb (snd kv) v)
      then [mkPatch "replace" ("/tags/values/" ++ fst kv)%string (Some (VStr (snd kv)))]
      else []
  end.

Definition remove_patch (meta : dict string) (kv : string * string) : list Patch :=
  if negb (dict_mem (fst kv) meta)
  then [mkPatch "remove" ("/tags/values/" ++ fst kv)%string None]
  else [].

(** What the metadata of the record looks like, through the key
    translation, while the patch is applied: the keys in [done] hold what
    [meta] holds, the keys in [removed] are gone, the others hold what
    [values] holds; and every key of [mA] whose translation was not removed
    is still there. *)
Definition applied (mA meta values : dict string) (done removed : list string)
           (md : dict string) : Prop :=
  collision_free CDF2ADT.convert_key md
  /\ (forall r, In r (dict_keys mA) -> ~ In (CDF2ADT.convert_key r) removed ->
                In r (dict_keys md))
  /\ (forall k,
        (In k done ->
         dict_get k (CDF2ADT.convert_items md) = dict_get k meta)
        /\ (~ In k done -> In k removed ->
            dict_get k (CDF2ADT.convert_items md) = None)
        /\ (~ In k done -> ~ In k removed ->
            dict_get k (CDF2ADT.convert_items md) = dict_get k values)).

(** The round trip of the claim: the twin-side state of [A] is the payload
    [get_twin_dict] builds from it, the patch is what [get_update_patches]
    computes towards [B], and it is applied to [A] by
    [fetch_changes_to_CDF_record]. *)
Definition diff_then_apply (model : ADT_MODEL_IDS) (A B : Resource)
           (tw : CDF2ADT.TwinSide) (w : ADT2CDF.World) : result (bool * Resource) :=
  match CDF2ADT.get_twin_dict A model tw with
  | (Ok twin, _) =>
      match CDF2ADT.get_update_patches B twin tw with
      | (Ok patches, _) =>
          fst (ADT2CDF.fetch_changes_to_CDF_record A (update_body patches) w)
      | (Raise e, _) => Raise e
      | (Diverge, _) => Diverge
      end
  | (Raise e, _) => Raise e
  | (Diverge, _) => Diverge
  end.

(** Descriptions are the same when they are equal or both empty ([None] or
    ['']). *)
Definition same_description (a b : option string) : Prop :=
  a = b \/ (truthy_opt a = false /\ truthy_opt b = false).

(** Two states of one asset for the round trip: [tagged] has two metadata
    keys that the key translation maps to the same key, [untagged] has no
    metadata entry. *)
Definition tagged : Resource :=
  mkResource "A1" (Some 7%Z) (Some "Pump1") None (Some [("a b", "1"); ("a_b", "2")])
             (Some "root") None false 0%Z.

Definition untagged : Resource :=
  mkResource "A1" (Some 7%Z) (Some "Pump1") None (Some []) (Some "root") None false 0%Z.

(** Two further states of it, with distinct translated keys. *)
Definition before : Resource :=
  mkResource "A1" (Some 7%Z) (Some "Pump1") (Some "old")
             (Some [("max flow", "10"); ("site", "north")]) (Some "root") None false 0%Z.

Definition after : Resource :=
  mkResource "A1" (Some 7%Z) (Some "Pump 1") None
             (Some [("max.flow", "12"); ("max flow", "11")]) (Some "root") None false 0%Z.

(** The attributes [fetch_changes_to_CDF_record] has no case for. *)
Definition same_identity (r r' : Resource) : Prop :=
  external_id r' = external_id r
  /\ id r' = id r
  /\ parent_external_id r' = parent_external_id r
  /\ asset_id r' = asset_id r
  /\ is_string r' = is_string r
  /\ last_updated_time r' = last_updated_time r.

(** The asset graph and the calls made on it are those of [w]. *)
Definition same_graph (w w' : ADT2CDF.World) : Prop :=
  ADT2CDF.cdf w' = ADT2CDF.cdf w /\ ADT2CDF.calls w' = ADT2CDF.calls w.

(** What one step of the loop of [fetch_changes_to_CDF_record] keeps: the
    record is the same unless the flag is raised, and the attributes without
    a case are the same anyway. *)
Definition step_kept (st : bool * Resource) (res : result (bool * Resource)) : Prop :=
  match res with
  | Ok st' => (fst st' = true \/ st' = st) /\ same_identity (snd st) (snd st')
  | _ => True
  end.

(** What [datapoints.retrieve_latest] finds for a time series in a store,
    and the test [not(datapoint) or (datapoint.timestamp/1000 < timestamp)]
    of [check_and_insert_datapoint]. *)
Definition latest_of (ext : string) (s : ADT2CDF.Store) : option ADT2CDF.Datapoint :=
  fold_left ADT2CDF.later
            (filter (fun d => String.eqb (ADT2CDF.dp_external_id d) ext) (ADT2CDF.datapoints s))
            None.

Definition is_newer (timestamp : Q) (datapoint : option ADT2CDF.Datapoint) : bool :=
  match datapoint with
  | None => true
  | Some d => negb (Qle_bool timestamp (ADT2CDF.dp_timestamp d / 1000))
  end.



(** A ['contains'] and a ['relatesTo'] relationship create event. *)
Definition contains_body (rel_id source target : string) : ADT2CDF.Body :=
  ADT2CDF.mkBody None None None None None None None None None None
                 (Some rel_id) (Some "contains") (Some source) (Some target) None.

Definition relates_body (rel_id source target : string) (labels : option string)
  : ADT2CDF.Body :=
  ADT2CDF.mkBody None None None None None None None None None None
                 (Some rel_id) (Some "relatesTo") (Some source) (Some target) labels.

(** The resource [parse_event] assigns for the model of a twin, [None]
    where it leaves the attribute unset. *)
Definition resource_of_model (model : string) : option string :=
  if String.eqb model (model_value ASSET) then Some "asset"
  else if String.eqb model (model_value TIMESERIES) then Some "timeseries"
  else None.

(** A twin Create event of the batch of one event, for a twin of the model
    [model]. *)
Definition twin_create_body (model : string) : ADT2CDF.Body :=
  ADT2CDF.mkBody (Some "X1") None None None (Some None) None None
                 (Some (Some model)) None None None None None None None.

Definition twin_create_batch (model : string) : list ADT2CDF.EventHubEvent :=
  [ ADT2CDF.mkEvent (Some (twin_create_body model))
      (Some [ADT2CDF.mkProperties (Some "Microsoft.DigitalTwins.Twin.Create") (Some "X1")
                                  (Some "2022-01-01T00:00:01Z")]) ].

(** The world of the bulk pass after one more log record. *)
Definition pass_log (w : CDF2ADT.World) (rec : LogRecord) : CDF2ADT.World :=
  CDF2ADT.mkWorld
    (CDF2ADT.mkTwinSide (CDF2ADT.adt (CDF2ADT.twin w)) (CDF2ADT.issued (CDF2ADT.twin w))
                        (CDF2ADT.now (CDF2ADT.twin w))
                        (CDF2ADT.logs (CDF2ADT.twin w) ++ [rec]))
    (CDF2ADT.blob w) (CDF2ADT.uploads w).

(** A phase that fails, and worlds of the bulk pass with and without a
    checkpoint for the root. *)
Definition failing_phase {A} : M CDF2ADT.TwinSide A := raise TypeError.

Definition synced_pass_world : CDF2ADT.World :=
  CDF2ADT.mkWorld
    (CDF2ADT.mkTwinSide (mkADT (fun _ => None) (fun _ => [])) [] 10%Q [])
    (Some [CDF2ADT.mkExecution "root" 3%Q]) [].

(** Computations that leave the assets, the relationships and the label
    definitions of the store alone. *)
Definition keeps_assets {A} (m : M ADT2CDF.World A) : Prop :=
  forall w r w',
    m w = (r, w') ->
    ADT2CDF.assets (ADT2CDF.cdf w') = ADT2CDF.assets (ADT2CDF.cdf w)
    /\ ADT2CDF.relationships (ADT2CDF.cdf w') = ADT2CDF.relationships (ADT2CDF.cdf w)
    /\ ADT2CDF.label_definitions (ADT2CDF.cdf w')
       = ADT2CDF.label_definitions (ADT2CDF.cdf w).

(** An Update event of a time series that carries a new value with its
    timestamp. *)
Definition value_update_body : ADT2CDF.Body :=
  update_body [mkPatch "replace" "/latestValue" (Some (VStr "2"));
               mkPatch "replace" "/timestamp" (Some (VStr "1970-01-01T00:00:06.000Z"))].

(** The twin [get_twin_dict] builds for an asset with the metadata [m], and
    the calls [create_twin] sends for it: the twin, then its parent edge
    when the asset has a parent. *)
Definition asset_twin (a : Resource) (m : dict string) : DigitalTwin :=
  mkTwin (name a) (Some (external_id a)) (Some (str_of_id (id a)))
         (Some (model_value ASSET)) (Some (Some (CDF2ADT.convert_items m)))
         (if truthy_opt (description a) then description a else None).

Definition parent_edge (a : Resource) : list CDF2ADT_Graph.Call :=
  match parent_external_id a with
  | Some parent =>
      if truthy parent
      then
        let child := CDF2ADT.convert_ext_id (external_id a) in
        let target := CDF2ADT.convert_ext_id parent in
        [CDF2ADT_Graph.UpsertRelationship
           child (child ++ "->" ++ target)
           (mkRelationship (child ++ "->" ++ target) "parent" child target None)]
      else []
  | None => []
  end.

Definition twin_calls (a : Resource) : list CDF2ADT_Graph.Call :=
  match metadata a with
  | Some m =>
      CDF2ADT_Graph.UpsertDigitalTwin (CDF2ADT.convert_ext_id (external_id a)) (asset_twin a m)
      :: parent_edge a
  | None => []
  end.

(** The deletions [delete_asset_to_asset_relationships] sends for the rows
    of the twin graph, given the ids of the relationships CDF lists. *)
Definition stale_deletions (rel_ext_ids : list string) (rows : list Row)
  : list CDF2ADT_Graph.Call :=
  flat_map (fun r =>
              match r with
              | RowR R =>
                  if negb (existsb (String.eqb (relationshipId R)) rel_ext_ids)
                  then [CDF2ADT_Graph.DeleteRelationship (sourceId R) (relationshipId R)]
                  else []
              | RowTs _ _ _ => []
              end) rows.

Definition is_RowR (r : Row) : bool :=
  match r with
  | RowR _ => true
  | RowTs _ _ _ => false
  end.

(** A twin graph that accepts every call, and two assets of a hierarchy,
    the second without metadata. *)
Definition open_graph (a : ADT) : CDF2ADT_Graph.World :=
  CDF2ADT_Graph.mkWorld (idle_twin_side a) (fun _ => None) [].

Definition bare_child : Resource :=
  mkResource "A2" (Some 9%Z) (Some "Valve") None None (Some "root") None false 0%Z.

(* ================================================================== *)
(** ** Properties *)
(* ================================================================== *)

(** *** Replacing one character *)

Section ReplaceChar.
Variables (c : ascii) (new : string).

Lemma replace_char_step x s :
  str_replace (String x s) (String c "") new =
  if Ascii.eqb c x then (new ++ str_replace s (String c "") new)%string
  else String x (str_replace s (String c "") new).
Proof.
  unfold str_replace; simpl.
  destruct (ascii_dec c x) as [->|n].
  - rewrite Ascii.eqb_refl. destruct s; reflexivity.
  - apply Ascii.eqb_neq in n. rewrite n. reflexivity.
Qed.

Lemma occurs_append d a b :
  occurs d (a ++ b)%string = occurs d a || occurs d b.
Proof.
  induction a as [|x a IH]; simpl; [reflexivity|].
  rewrite IH, orb_assoc. reflexivity.
Qed.

Lemma replace_char_absent s :
  occurs c s = false -> str_replace s (String c "") new = s.
Proof.
  induction s as [|x s IH]; intros H; [reflexivity|].
  simpl in H. apply orb_false_iff in H. destruct H as [Hx Hs].
  rewrite replace_char_step. rewrite Ascii.eqb_sym, Hx.
  f_equal. auto.
Qed.

Lemma occurs_replace_char d s :
  occurs d new = false ->
  (d = c \/ occurs d s = false) ->
  occurs d (str_replace s (String c "") new) = false.
Proof.
  intros Hn. induction s as [|x s IH]; intros H; [reflexivity|].
  rewrite replace_char_step.
  destruct (Ascii.eqb c x) eqn:E.
  - rewrite occurs_append, Hn. simpl. apply IH.
    destruct H as [H|H]; [left; exact H|].
    simpl in H. apply orb_false_iff in H. right; apply H.
  - simpl. destruct H as [->|H].
    + rewrite Ascii.eqb_sym, E. simpl. apply IH. left; reflexivity.
    + simpl in H. apply orb_false_iff in H. destruct H as [H1 H2].
      rewrite H1. simpl. apply IH. right; exact H2.
Qed.
End ReplaceChar.

(** Three single-character replacements in a row whose replacement texts
    contain none of the three characters leave none of them behind, so a
    second round changes nothing. *)
Lemma three_replacements_fixed (c1 c2 c3 : ascii) (n1 n2 n3 s : string) :
  (forall d, In d [c1; c2; c3] ->
             occurs d n1 = false /\ occurs d n2 = false /\ occurs d n3 = false) ->
  let r := str_replace (str_replace (str_replace s (String c1 "") n1) (String c2 "") n2)
                       (String c3 "") n3 in
  str_replace (str_replace (str_replace r (String c1 "") n1) (String c2 "") n2)
              (String c3 "") n3 = r.
Proof.
  intros H r.
  assert (H1 : occurs c1 r = false).
  { destruct (H c1) as (A & B & C); [simpl; auto|].
    unfold r. apply occurs_replace_char; [exact C|right].
    apply occurs_replace_char; [exact B|right].
    apply occurs_replace_char; [exact A|left; reflexivity]. }
  assert (H2 : occurs c2 r = false).
  { destruct (H c2) as (A & B & C); [simpl; auto|].
    unfold r. apply occurs_replace_char; [exact C|right].
    apply occurs_replace_char; [exact B|left; reflexivity]. }
  assert (H3 : occurs c3 r = false).
  { destruct (H c3) as (A & B & C); [simpl; auto|].
    unfold r. apply occurs_replace_char; [exact C|left; reflexivity]. }
  rewrite (replace_char_absent c1 n1 r H1).
  rewrite (replace_char_absent c2 n2 r H2).
  apply (replace_char_absent c3 n3 r H3).
Qed.

Lemma convert_key_idempotent (k : string) :
  CDF2ADT.convert_key (CDF2ADT.convert_key k) = CDF2ADT.convert_key k.
Proof.
  unfold CDF2ADT.convert_key.
  apply (three_replacements_fixed " " "." "$" "_" "^" "#" k).
  intros d Hd. simpl in Hd.
  destruct Hd as [<-|[<-|[<-|[]]]]; repeat split; reflexivity.
Qed.

Lemma convert_ext_id_idempotent (s : string) :
  CDF2ADT.convert_ext_id (CDF2ADT.convert_ext_id s) = CDF2ADT.convert_ext_id s.
Proof.
  unfold CDF2ADT.convert_ext_id at 2 3.
  destruct (truthy s) eqn:Hs.
  - unfold CDF2ADT.convert_ext_id.
    match goal with |- (if truthy ?r then _ else _) = _ => destruct (truthy r) end;
      [|reflexivity].
    apply (three_replacements_fixed ":" " " "&" "*" "_" "AND" s).
    intros d Hd. simpl in Hd.
    destruct Hd as [<-|[<-|[<-|[]]]]; repeat split; reflexivity.
  - unfold CDF2ADT.convert_ext_id. rewrite Hs. reflexivity.
Qed.

(** C8.  The identifier translation [convert_ext_id] and the metadata-key
    translation of [convert_metadata], in both handlers, are idempotent:
    translating an already translated string returns it unchanged. *)
Theorem alphabet_translation_idempotent :
  (forall s, CDF2ADT.convert_ext_id (CDF2ADT.convert_ext_id s) = CDF2ADT.convert_ext_id s)
  /\ (forall k, CDF2ADT.convert_key (CDF2ADT.convert_key k) = CDF2ADT.convert_key k)
  /\ (forall k, ADT2CDF.convert_key (ADT2CDF.convert_key k) = ADT2CDF.convert_key k).
Proof.
  split; [exact convert_ext_id_idempotent|].
  split; exact convert_key_idempotent.
Qed.

(** *** The checkpoint store *)

Lemma mark_exec_TS_spec ext_id ts func_runs found :
  CDF2ADT.mark_exec_TS ext_id ts func_runs found =
  (map (stamp ext_id ts) func_runs, found || existsb (is_for ext_id) func_runs).
Proof.
  revert found.
  induction func_runs as [|x rest IH]; intros found; simpl.
  - rewrite orb_false_r. reflexivity.
  - unfold stamp at 1, is_for at 1.
    destruct (String.eqb (CDF2ADT.root_asset_ext_id x) ext_id); rewrite IH; simpl.
    + rewrite orb_true_r. reflexivity.
    + reflexivity.
Qed.

Lemma stamp_root ext_id ts x :
  CDF2ADT.root_asset_ext_id (stamp ext_id ts x) = CDF2ADT.root_asset_ext_id x.
Proof.
  unfold stamp. destruct (String.eqb _ _); reflexivity.
Qed.

Lemma stamp_others ext_id ts func_runs :
  filter (fun x => negb (is_for ext_id x)) (map (stamp ext_id ts) func_runs)
  = filter (fun x => negb (is_for ext_id x)) func_runs.
Proof.
  unfold is_for.
  induction func_runs as [|x rest IH]; simpl; [reflexivity|].
  rewrite stamp_root.
  destruct (String.eqb (CDF2ADT.root_asset_ext_id x) ext_id) eqn:E; simpl.
  - exact IH.
  - rewrite IH. unfold stamp. rewrite E. reflexivity.
Qed.

Lemma set_last_exec_TS_run ext_id ts w :
  CDF2ADT.set_last_exec_TS ext_id ts w =
  (Ok tt, CDF2ADT.mkWorld (CDF2ADT.twin w)
                          (Some (updated_runs ext_id ts (stored_runs w)))
                          (CDF2ADT.uploads w ++ [updated_runs ext_id ts (stored_runs w)])).
Proof.
  unfold CDF2ADT.set_last_exec_TS, CDF2ADT.get_last_exec_file, bind, gets.
  fold (stored_runs w).
  rewrite mark_exec_TS_spec. simpl.
  unfold updated_runs, CDF2ADT.upload_blob, modify.
  destruct (existsb (is_for ext_id) (stored_runs w)) eqn:E; simpl.
  - reflexivity.
  - assert (H : map (stamp ext_id ts) (stored_runs w) = stored_runs w).
    { rewrite <- (map_id (stored_runs w)) at 2. apply map_ext_in.
      intros x Hx. unfold stamp.
      destruct (String.eqb (CDF2ADT.root_asset_ext_id x) ext_id) eqn:Ex; [|reflexivity].
      exfalso. assert (existsb (is_for ext_id) (stored_runs w) = true).
      { apply existsb_exists. exists x. split; assumption. }
      congruence. }
    rewrite H. reflexivity.
Qed.

(** C9.  [set_last_exec_TS(rootId, ts)] always completes with one upload.
    In the uploaded document the entries of other roots are those of the
    stored document, unchanged and in the same order; every entry of
    [rootId] carries [ts]; if the stored document had an entry of [rootId]
    the document keeps its roots position by position, otherwise it is the
    stored document with the one entry [(rootId, ts)] appended. *)
Theorem set_last_exec_TS_frame (rootId : string) (ts : Q) (w : CDF2ADT.World) :
  exists doc,
    CDF2ADT.set_last_exec_TS rootId ts w
    = (Ok tt, CDF2ADT.mkWorld (CDF2ADT.twin w) (Some doc) (CDF2ADT.uploads w ++ [doc]))
    /\ filter (fun x => negb (String.eqb (CDF2ADT.root_asset_ext_id x) rootId)) doc
       = filter (fun x => negb (String.eqb (CDF2ADT.root_asset_ext_id x) rootId))
                (stored_runs w)
    /\ (forall x, In x doc -> CDF2ADT.root_asset_ext_id x = rootId ->
                  CDF2ADT.timestamp_UTC x = ts)
    /\ (if existsb (fun x => String.eqb (CDF2ADT.root_asset_ext_id x) rootId) (stored_runs w)
        then map CDF2ADT.root_asset_ext_id doc
             = map CDF2ADT.root_asset_ext_id (stored_runs w)
        else doc = stored_runs w ++ [CDF2ADT.mkExecution rootId ts]).
Proof.
  exists (updated_runs rootId ts (stored_runs w)).
  split; [apply set_last_exec_TS_run|].
  unfold updated_runs. fold (is_for rootId).
  destruct (existsb (is_for rootId) (stored_runs w)) eqn:E.
  - split; [apply stamp_others|]. split.
    + intros x Hx Hr. apply in_map_iff in Hx. destruct Hx as (y & <- & Hy).
      rewrite stamp_root in Hr. unfold stamp.
      apply String.eqb_eq in Hr. rewrite Hr. reflexivity.
    + rewrite map_map. apply map_ext. intros a. apply stamp_root.
  - split.
    + unfold is_for. rewrite filter_app. simpl.
      rewrite String.eqb_refl. simpl. apply app_nil_r.
    + split; [|reflexivity].
      intros x Hx Hr. apply in_app_or in Hx. destruct Hx as [Hx|[<-|[]]].
      * exfalso. assert (existsb (is_for rootId) (stored_runs w) = true).
        { apply existsb_exists. exists x. split; [exact Hx|].
          unfold is_for. apply String.eqb_eq. exact Hr. }
        congruence.
      * reflexivity.
Qed.

(** *** Batched queries *)

Lemma range_from_shift fuel start stop step d :
  CDF2ADT.range_from fuel (start + d) (stop + d) step
  = map (fun i => i + d) (CDF2ADT.range_from fuel start stop step).
Proof.
  revert start.
  induction fuel as [|fuel IH]; intros start; simpl; [reflexivity|].
  destruct (Nat.ltb start stop) eqn:E.
  - assert (E' : Nat.ltb (start + d) (stop + d) = true)
      by (apply Nat.ltb_lt; apply Nat.ltb_lt in E; lia).
    rewrite E'. simpl. f_equal.
    replace (start + d + step) with (start + step + d) by lia. apply IH.
  - assert (E' : Nat.ltb (start + d) (stop + d) = false)
      by (apply Nat.ltb_ge; apply Nat.ltb_ge in E; lia).
    rewrite E'. reflexivity.
Qed.

Lemma range_from_fuel step fuel1 :
  0 < step ->
  forall fuel2 start stop,
    stop - start <= fuel1 -> stop - start <= fuel2 ->
    CDF2ADT.range_from fuel1 start stop step = CDF2ADT.range_from fuel2 start stop step.
Proof.
  intros Hstep.
  induction fuel1 as [|fuel1 IH]; intros fuel2 start stop H1 H2.
  - destruct fuel2; simpl; [reflexivity|].
    assert (E : Nat.ltb start stop = false) by (apply Nat.ltb_ge; lia).
    rewrite E. reflexivity.
  - simpl. destruct (Nat.ltb start stop) eqn:E.
    + apply Nat.ltb_lt in E. destruct fuel2 as [|fuel2]; [lia|].
      simpl. assert (E' : Nat.ltb start stop = true) by (apply Nat.ltb_lt; lia).
      rewrite E'. f_equal. apply IH; lia.
    + destruct fuel2; simpl; [reflexivity|]. rewrite E. reflexivity.
Qed.

Lemma py_range_step n k :
  CDF2ADT.py_range 0 n (S k) =
  match n with
  | O => []
  | S _ => 0 :: map (fun i => i + S k) (CDF2ADT.py_range 0 (n - S k) (S k))
  end.
Proof.
  unfold CDF2ADT.py_range. destruct n as [|n]; [reflexivity|].
  simpl CDF2ADT.range_from at 1. f_equal.
  destruct (Nat.le_gt_cases (S n) (S k)) as [Hle|Hgt].
  - replace (S n - S k) with 0 by lia. simpl.
    destruct n; simpl; [reflexivity|].
    assert (E : Nat.ltb (S k) (S (S n)) = false) by (apply Nat.ltb_ge; lia).
    rewrite E. reflexivity.
  - rewrite <- range_from_shift.
    replace (S n - S k + S k) with (S n) by lia.
    apply range_from_fuel; lia.
Qed.

(** The list of batches, chunk by chunk. *)
Lemma batches_step k (l : list string) :
  CDF2ADT.batches (S k) l =
  match l with
  | [] => []
  | _ :: _ => firstn (S k) l :: CDF2ADT.batches (S k) (skipn (S k) l)
  end.
Proof.
  unfold CDF2ADT.batches. rewrite py_range_step.
  destruct l as [|x l]; [reflexivity|].
  cbv zeta. set (n := List.length (x :: l)).
  change (List.length (x :: l)) with n.
  assert (Hn : n = S (List.length l)) by reflexivity.
  rewrite Hn at 1. rewrite map_cons. f_equal.
  rewrite map_map. rewrite length_skipn. fold n.
  apply map_ext. intros i.
  f_equal. rewrite skipn_skipn. reflexivity.
Qed.

(** Induction along the chunks. *)
Lemma batches_ind k (P : list string -> Prop) :
  P [] ->
  (forall l, l <> [] -> P (skipn (S k) l) -> P l) ->
  forall l, P l.
Proof.
  intros H0 Hs l.
  remember (List.length l) as n eqn:Hn. revert l Hn.
  induction n as [n IH] using lt_wf_ind. intros l Hn.
  destruct l as [|x l]; [exact H0|].
  apply Hs; [discriminate|].
  apply (IH (List.length (skipn (S k) (x :: l)))); [|reflexivity].
  rewrite length_skipn. subst n. simpl. lia.
Qed.




Lemma batches_bounded k (l b : list string) :
  In b (CDF2ADT.batches (S k) l) ->
  b <> [] /\ List.length b <= S k /\ incl b l.
Proof.
  induction l as [|l Hl IH] using (batches_ind k); intros Hb.
  - rewrite batches_step in Hb. destruct Hb.
  - rewrite batches_step in Hb. destruct l as [|x l]; [congruence|].
    destruct Hb as [<-|Hb].
    + split; [discriminate|]. split; [apply firstn_le_length|].
      intros y Hy. rewrite <- (firstn_skipn (S k) (x :: l)).
      apply in_or_app. left. exact Hy.
    + destruct (IH Hb) as (A & B & C). split; [exact A|]. split; [exact B|].
      intros y Hy. rewrite <- (firstn_skipn (S k) (x :: l)).
      apply in_or_app. right. apply C. exact Hy.
Qed.

Lemma batches_disjoint k (l : list string) :
  NoDup l -> chunks_disjoint (CDF2ADT.batches (S k) l).
Proof.
  induction l as [|l Hl IH] using (batches_ind k); intros Hnd.
  - rewrite batches_step. exact I.
  - rewrite batches_step. destruct l as [|x l]; [congruence|].
    rewrite <- (firstn_skipn (S k) (x :: l)) in Hnd.
    split.
    + intros y b' Hy Hb' Hyb'.
      apply batches_bounded in Hb'. destruct Hb' as (_ & _ & Hincl).
      apply NoDup_app_remove_l in Hnd as Hnd2.
      assert (Hin2 : In y (skipn (S k) (x :: l))) by (apply Hincl; exact Hyb').
      clear - Hnd Hy Hin2.
      revert Hnd Hy. generalize (firstn (S k) (x :: l)) as a.
      induction a as [|z a IHa]; intros Hnd Hy; [destruct Hy|].
      simpl in Hnd. inversion Hnd as [|? ? Hz Hnd']; subst.
      destruct Hy as [->|Hy].
      * apply Hz. apply in_or_app. right. exact Hin2.
      * apply IHa; assumption.
    + apply IH. apply NoDup_app_remove_l in Hnd. exact Hnd.
Qed.

Section QueryRuns.
Variable str_of_list : list string -> string.

Lemma query_each_run tmpl bs res (w : CDF2ADT.TwinSide) :
  CDF2ADT.query_each str_of_list tmpl bs res w =
  (Ok (res ++ List.concat (map (fun b => query_twins (CDF2ADT.adt w)
                                                (CDF2ADT.batch_query str_of_list tmpl b)) bs)),
   CDF2ADT.mkTwinSide (CDF2ADT.adt w)
                      (CDF2ADT.issued w ++ map (CDF2ADT.batch_query str_of_list tmpl) bs)
                      (CDF2ADT.now w) (CDF2ADT.logs w)).
Proof.
  revert res w.
  induction bs as [|b bs IH]; intros res w; simpl.
  - unfold ret. rewrite !app_nil_r. destruct w; reflexivity.
  - unfold bind, CDF2ADT.run_query. rewrite IH. simpl.
    rewrite <- !app_assoc. reflexivity.
Qed.
End QueryRuns.






(** *** The bulk pass and its checkpoint *)

Lemma keeps_store_lift {A} (m : M CDF2ADT.TwinSide A) : keeps_store (CDF2ADT.lift m).
Proof.
  intros w r w' H. unfold CDF2ADT.lift in H.
  destruct (m (CDF2ADT.twin w)) as [r0 t]. inversion H; subst. split; reflexivity.
Qed.

Lemma keeps_store_bind {A B} (m : M CDF2ADT.World A) (k : A -> M CDF2ADT.World B) :
  keeps_store m -> (forall a, keeps_store (k a)) -> keeps_store (bind m k).
Proof.
  intros Hm Hk w r w' H. unfold bind in H.
  destruct (m w) as [[a|e|] w1] eqn:E.
  - destruct (Hm _ _ _ E) as [B1 U1]. destruct (Hk a _ _ _ H) as [B2 U2].
    split; congruence.
  - inversion H; subst. exact (Hm _ _ _ E).
  - inversion H; subst. exact (Hm _ _ _ E).
Qed.

Lemma keeps_store_ret {A} (a : A) : keeps_store (ret a).
Proof.
  intros w r w' H. inversion H; subst. split; reflexivity.
Qed.

Lemma lift_log_run l msg (w : CDF2ADT.World) :
  CDF2ADT.lift (CDF2ADT.log l msg) w
  = (Ok tt, CDF2ADT.mkWorld
              (CDF2ADT.mkTwinSide (CDF2ADT.adt (CDF2ADT.twin w)) (CDF2ADT.issued (CDF2ADT.twin w))
                                  (CDF2ADT.now (CDF2ADT.twin w))
                                  (CDF2ADT.logs (CDF2ADT.twin w) ++ [(l, msg)]))
              (CDF2ADT.blob w) (CDF2ADT.uploads w)).
Proof. reflexivity. Qed.

Lemma checkpoint_after (phases : M CDF2ADT.World unit) (root_ext_id : string) (ts : Q)
      (l : level) (msg : string) (w1 w' : CDF2ADT.World) (r : result unit) :
  keeps_store phases ->
  bind phases (fun _ => bind (CDF2ADT.set_last_exec_TS root_ext_id ts)
                             (fun _ => CDF2ADT.lift (CDF2ADT.log l msg))) w1 = (r, w') ->
  match r with
  | Ok _ =>
      CDF2ADT.uploads w' = CDF2ADT.uploads w1 ++ [updated_runs root_ext_id ts (stored_runs w1)]
      /\ CDF2ADT.blob w' = Some (updated_runs root_ext_id ts (stored_runs w1))
  | _ => CDF2ADT.uploads w' = CDF2ADT.uploads w1 /\ CDF2ADT.blob w' = CDF2ADT.blob w1
  end.
Proof.
  intros Hk H. unfold bind at 1 in H.
  destruct (phases w1) as [[[]|e|] w2] eqn:E; destruct (Hk _ _ _ E) as [B U].
  - unfold bind in H. rewrite set_last_exec_TS_run in H. rewrite lift_log_run in H.
    inversion H; subst. cbn [CDF2ADT.uploads CDF2ADT.blob].
    unfold stored_runs. rewrite B, U. split; reflexivity.
  - inversion H; subst. split; [exact U|exact B].
  - inversion H; subst. split; [exact U|exact B].
Qed.

Section PassProperties.
Variable insert_assets : list Resource -> M CDF2ADT.TwinSide nat.
Variable insert_asset_to_asset_relationships :
  CDF2ADT.CDF -> list Resource -> M CDF2ADT.TwinSide nat.
Variable insert_timeseries : CDF2ADT.CDF -> list Resource -> M CDF2ADT.TwinSide nat.
Variable update_assets : list Resource -> M CDF2ADT.TwinSide nat.
Variable update_asset_to_asset_relationships :
  CDF2ADT.CDF -> list Resource -> Q -> M CDF2ADT.TwinSide nat.
Variable update_timeseries : CDF2ADT.CDF -> list Resource -> Q -> M CDF2ADT.TwinSide nat.
Variable delete_assets : list Resource -> string -> M CDF2ADT.TwinSide nat.
Variable delete_asset_to_asset_relationships :
  CDF2ADT.CDF -> list Resource -> M CDF2ADT.TwinSide nat.
Variable delete_timeseries : CDF2ADT.CDF -> list Resource -> M CDF2ADT.TwinSide nat.

Let handle :=
  CDF2ADT.handle insert_assets insert_asset_to_asset_relationships insert_timeseries
                 update_assets update_asset_to_asset_relationships update_timeseries
                 delete_assets delete_asset_to_asset_relationships delete_timeseries.

(** C7.  Whatever the phases do on the twin side: when [handle] gets past
    its early returns and completes, the checkpoint document has been
    uploaded exactly once, and the entry of the root carries the clock
    reading of the world the pass started in, not of the world it ends in.
    When a phase does not return, or [handle] returns early, nothing is
    uploaded: the one upload comes after the last phase. *)
Theorem bulk_pass_checkpoint (cdf_client : CDF2ADT.CDF) (root_ext_id : string)
        (w w' : CDF2ADT.World) (r : result unit) :
  handle cdf_client root_ext_id w = (r, w') ->
  match r with
  | Ok _ =>
      if pass_starts cdf_client root_ext_id w
      then let doc := updated_runs root_ext_id (CDF2ADT.now (CDF2ADT.twin w)) (stored_runs w) in
           CDF2ADT.uploads w' = CDF2ADT.uploads w ++ [doc]
           /\ CDF2ADT.blob w' = Some doc
      else CDF2ADT.uploads w' = CDF2ADT.uploads w /\ CDF2ADT.blob w' = CDF2ADT.blob w
  | _ => CDF2ADT.uploads w' = CDF2ADT.uploads w /\ CDF2ADT.blob w' = CDF2ADT.blob w
  end.
Proof.
  unfold handle, CDF2ADT.handle, pass_starts.
  destruct (CDF2ADT.assets_retrieve cdf_client root_ext_id) as [root_asset|].
  - unfold CDF2ADT.get_last_exec_TS, CDF2ADT.get_last_exec_file.
    unfold bind at 1. unfold bind at 1. unfold gets at 1. unfold ret at 1.
    fold (stored_runs w).
    set (sync_ts := CDF2ADT.find_exec_TS root_ext_id (stored_runs w)).
    unfold bind at 1. unfold CDF2ADT.lift at 1, gets at 1.
    cbn [CDF2ADT.twin CDF2ADT.blob CDF2ADT.uploads].
    assert (Hph : forall b (p q : M CDF2ADT.World unit),
               keeps_store p -> keeps_store q -> keeps_store (if b : bool then p else q))
      by (intros [] p q Hp Hq; assumption).
    destruct (get_digital_twin (CDF2ADT.adt (CDF2ADT.twin w))
                               (CDF2ADT.convert_ext_id root_ext_id)) as [dt|];
      destruct (CDF2ADT.has_sync_ts sync_ts) eqn:Hts; cbn [andb negb].
    3: { rewrite lift_log_run. intros H. inversion H; subst. split; reflexivity. }
    all: unfold bind at 1;
      first [ rewrite lift_log_run | unfold ret at 1 ];
      unfold bind at 1; unfold CDF2ADT.lift at 1, gets at 1;
      cbn [CDF2ADT.twin CDF2ADT.blob CDF2ADT.uploads CDF2ADT.now];
      destruct w as [tw bl up]; cbn [CDF2ADT.twin CDF2ADT.blob CDF2ADT.uploads];
      intros H; apply checkpoint_after in H;
      [ exact H
      | repeat first [ apply keeps_store_bind
                     | match goal with |- forall _, _ => intro end
                     | apply keeps_store_lift ] ].
  - unfold CDF2ADT.lift, CDF2ADT.log, modify. simpl.
    intros H. inversion H; subst. simpl. split; reflexivity.
Qed.
End PassProperties.


(** The statement on a pass whose first phase advances the clock from 10 to
    15: the checkpoint written is 10. *)
Lemma bulk_pass_checkpoint_witness :
  fst sample_pass = Ok tt
  /\ CDF2ADT.uploads (snd sample_pass) = [[CDF2ADT.mkExecution "root" 10%Q]]
  /\ CDF2ADT.blob (snd sample_pass) = Some [CDF2ADT.mkExecution "root" 10%Q]
  /\ CDF2ADT.now (CDF2ADT.twin (snd sample_pass)) = (10 + 5)%Q.
Proof.
  split; [reflexivity|].
  pose proof (bulk_pass_checkpoint
                slow_insert_assets (fun _ _ => ret 0) (fun _ _ => ret 0)
                (fun _ => ret 0) (fun _ _ _ => ret 0) (fun _ _ _ => ret 0)
                (fun _ _ => ret 0) (fun _ _ => ret 0) (fun _ _ => ret 0)
                sample_cdf "root" sample_pass_world (snd sample_pass) (Ok tt) eq_refl) as H.
  cbv beta iota in H.
  change (pass_starts sample_cdf "root" sample_pass_world) with true in H.
  cbv beta iota zeta in H. destruct H as [U B].
  split; [exact U|]. split; [exact B|]. reflexivity.
Defined.

(** *** The immutable paths of the apply engine *)

(** An operation on ['/externalId'] or ['/id'] changes neither the record,
    nor the change flag, nor the asset graph; it can only add log records,
    and the loop goes on with the next operation. *)
Lemma apply_action_immutable cm (st : bool * Resource) (a : Patch) (w : ADT2CDF.World) :
  path a = "/externalId" \/ path a = "/id" ->
  (path a = "/externalId" -> op a = "add" -> exists s, value a = Some (VStr s)) ->
  exists lg,
    ADT2CDF.apply_action cm st a w
    = (Ok st, ADT2CDF.mkWorld (ADT2CDF.cdf w) (ADT2CDF.calls w) (ADT2CDF.logs w ++ lg)).
Proof.
  intros Hp Hv. destruct st as [has_change record]. destruct w as [s c l].
  unfold ADT2CDF.apply_action.
  destruct Hp as [Hp|Hp]; rewrite Hp in *; cbn [String.eqb Ascii.eqb Bool.eqb].
  - destruct (String.eqb (op a) "add") eqn:Eop.
    + apply String.eqb_eq in Eop. destruct (Hv eq_refl Eop) as [x Hx]. rewrite Hx.
      unfold bind, ADT2CDF.item, ADT2CDF.as_str, ret,
        ADT2CDF.has_asset_in_CDF_by_external_id, ADT2CDF.assets_retrieve, gets, bind.
      cbn [ADT2CDF.cdf].
      destruct (find (ADT2CDF.has_ext x) (ADT2CDF.assets s)); cbn [negb].
      * exists []. rewrite app_nil_r. reflexivity.
      * eexists. reflexivity.
    + eexists. reflexivity.
  - destruct (String.eqb (op a) "add"); cbn [negb].
    + exists []. rewrite app_nil_r. reflexivity.
    + eexists. reflexivity.
Qed.

(** C6, the code at the failing input.  A patch that adds ['/externalId']
    with the id of an asset the store already holds is taken without a
    word, and the same patch with an id the store does not hold logs the
    error saying that the id already exists: the test guarding the error
    is the negation of the one its message describes.  The record and the
    change flag stay as they were in both cases. *)
Theorem add_external_id_check_inverted :
  ADT2CDF.fetch_changes_to_CDF_record pump (update_body [add_external_id "A1"])
                                      (world_of (store_with pump))
  = (Ok (false, pump), world_of (store_with pump))
  /\ ADT2CDF.fetch_changes_to_CDF_record pump (update_body [add_external_id "A1"])
                                         (world_of empty_store)
     = (Ok (false, pump),
        ADT2CDF.mkWorld empty_store []
          [(ERROR, "Inconsistent hierarchy warning. The external ID '%s' already exists in CDF!")]).
Proof.
  split; reflexivity.
Qed.

(** *** The single-parent guard *)

(** C3.  A ['parent'] relationship create event for which the query for
    the other parent edges of the same source (leaving out the event's own
    relationship id) returns a row makes [create_relationship] log the
    error and return [False]; no call that changes the asset graph is made
    and the graph, with the stored parent of every asset, is as before. *)
Theorem second_parent_rejected (adt_client : ADT) (event_body : ADT2CDF.Body)
        (rel_source rel_target : Resource) (source_id relationship_id : string)
        (w : ADT2CDF.World) :
  ADT2CDF.b_relationshipName event_body = Some "parent" ->
  ADT2CDF.b_sourceId event_body = Some source_id ->
  ADT2CDF.b_relationshipId event_body = Some relationship_id ->
  query_twins adt_client (ADT2CDF.other_parents_query source_id relationship_id) <> [] ->
  ADT2CDF.create_relationship adt_client event_body rel_source rel_target w
  = (Ok false,
     ADT2CDF.mkWorld (ADT2CDF.cdf w) (ADT2CDF.calls w)
       (ADT2CDF.logs w ++
        [(ERROR, "An asset in CDF can have a single parent, but another parent was added to asset '%s'. Aborting synchronization! Please delete the relationship with ID: '%s' from ADT!")])).
Proof.
  intros Hn Hs Hr Hq.
  unfold ADT2CDF.create_relationship. rewrite Hn, Hs, Hr.
  unfold ADT2CDF.item. unfold bind at 1. unfold ret at 1.
  cbn [String.eqb Ascii.eqb Bool.eqb].
  unfold bind at 1. unfold ret at 1. unfold bind at 1. unfold ret at 1.
  destruct (query_twins adt_client (ADT2CDF.other_parents_query source_id relationship_id))
    as [|row rows]; [congruence|].
  reflexivity.
Qed.

(** The statement on an asset ["A1"] whose twin already has the parent
    edge ["A1->P1"] when the create event of ["A1->P2"] arrives. *)
Lemma second_parent_rejected_witness :
  ADT2CDF.create_relationship other_parent_adt (parent_body "A1->P2" "A1" "P2")
                              pump pump (world_of (store_with pump))
  = (Ok false,
     ADT2CDF.mkWorld (store_with pump) []
       [(ERROR, "An asset in CDF can have a single parent, but another parent was added to asset '%s'. Aborting synchronization! Please delete the relationship with ID: '%s' from ADT!")]).
Proof.
  apply (second_parent_rejected other_parent_adt (parent_body "A1->P2" "A1" "P2")
                                pump pump "A1" "A1->P2" (world_of (store_with pump)));
    [reflexivity|reflexivity|reflexivity|discriminate].
Defined.

(** *** Outcomes of redelivered events *)

Section Redelivery.
Variable ROOT_EXTERNAL_ID : string.
Variables strptime float_of : string -> option Q.

Lemma create_asset_existing adt_id event_body (w : ADT2CDF.World) :
  find (ADT2CDF.has_ext adt_id) (ADT2CDF.assets (ADT2CDF.cdf w)) <> None ->
  ADT2CDF.create_asset ROOT_EXTERNAL_ID adt_id event_body w
  = (Ok false, add_log w (WARNING, "CDF asset with external ID '%s' already exists!")).
Proof.
  intros H. unfold ADT2CDF.create_asset, ADT2CDF.has_asset_in_CDF_by_external_id,
              ADT2CDF.assets_retrieve, bind, gets, ret.
  destruct (find (ADT2CDF.has_ext adt_id) (ADT2CDF.assets (ADT2CDF.cdf w)));
    [reflexivity|congruence].
Qed.

Lemma create_timeseries_existing adt_id event_body (w : ADT2CDF.World) :
  find (ADT2CDF.has_ext adt_id) (ADT2CDF.time_series (ADT2CDF.cdf w)) <> None ->
  ADT2CDF.create_timeseries ROOT_EXTERNAL_ID strptime float_of adt_id event_body w
  = (Ok false, add_log w (WARNING, "CDF timeseries '%s' already exists!")).
Proof.
  intros H. unfold ADT2CDF.create_timeseries, ADT2CDF.has_timeseries_in_CDF_by_external_id,
              ADT2CDF.time_series_retrieve.
  unfold bind at 1. unfold bind at 1. unfold gets at 1. unfold ret at 1.
  destruct (find (ADT2CDF.has_ext adt_id) (ADT2CDF.time_series (ADT2CDF.cdf w)));
    [reflexivity|congruence].
Qed.

Lemma delete_asset_absent adt_id (w : ADT2CDF.World) :
  find (ADT2CDF.has_ext adt_id) (ADT2CDF.assets (ADT2CDF.cdf w)) = None ->
  ADT2CDF.delete_asset adt_id w
  = (Ok true, add_log w (WARNING, "CDF asset with external ID '%s' was not found!")).
Proof.
  intros H. unfold ADT2CDF.delete_asset, ADT2CDF.has_asset_in_CDF_by_external_id,
              ADT2CDF.assets_retrieve, bind, gets, ret.
  rewrite H. reflexivity.
Qed.

Lemma delete_timeseries_absent adt_id (w : ADT2CDF.World) :
  find (ADT2CDF.has_ext adt_id) (ADT2CDF.time_series (ADT2CDF.cdf w)) = None ->
  ADT2CDF.delete_timeseries adt_id w
  = (Ok true, add_log w (WARNING, "Timeseries '%s' was not found in CDF!")).
Proof.
  intros H. unfold ADT2CDF.delete_timeseries, ADT2CDF.has_timeseries_in_CDF_by_external_id,
              ADT2CDF.time_series_retrieve, bind, gets, ret.
  rewrite H. reflexivity.
Qed.

End Redelivery.


(** *** Redelivery of Create and Delete events *)

Lemma count_ext_app ext l1 l2 :
  count_ext ext (l1 ++ l2) = count_ext ext l1 + count_ext ext l2.
Proof.
  unfold count_ext. rewrite filter_app, length_app. reflexivity.
Qed.

Lemma find_none_count ext l :
  find (ADT2CDF.has_ext ext) l = None -> count_ext ext l = 0.
Proof.
  unfold count_ext. induction l as [|a l IH]; simpl; [reflexivity|].
  destruct (ADT2CDF.has_ext ext a); [discriminate|exact IH].
Qed.

Lemma find_some_count ext l a :
  find (ADT2CDF.has_ext ext) l = Some a -> 1 <= count_ext ext l /\ external_id a = ext.
Proof.
  unfold count_ext. induction l as [|b l IH]; simpl; [discriminate|].
  destruct (ADT2CDF.has_ext ext b) eqn:E.
  - intros H. inversion H; subst. split; [simpl; lia|].
    unfold ADT2CDF.has_ext in E. apply String.eqb_eq. exact E.
  - exact IH.
Qed.

Lemma count_find ext l :
  1 <= count_ext ext l -> find (ADT2CDF.has_ext ext) l <> None.
Proof.
  intros H E. apply find_none_count in E. lia.
Qed.

Lemma count_ext_removed ext l :
  count_ext ext (filter (fun a => negb (ADT2CDF.has_ext ext a)) l) = 0.
Proof.
  unfold count_ext. induction l as [|a l IH]; simpl; [reflexivity|].
  destruct (ADT2CDF.has_ext ext a) eqn:E; simpl; [exact IH|].
  rewrite E. exact IH.
Qed.

Lemma find_removed ext l :
  find (ADT2CDF.has_ext ext) (filter (fun a => negb (ADT2CDF.has_ext ext a)) l) = None.
Proof.
  induction l as [|a l IH]; simpl; [reflexivity|].
  destruct (ADT2CDF.has_ext ext a) eqn:E; simpl; [exact IH|].
  rewrite E. exact IH.
Qed.

(** [fill_from_body] returns when the body has its ['tags'] block, and
    keeps the external id. *)
Lemma fill_from_body_ok event_body r (w : ADT2CDF.World) res w' :
  ADT2CDF.fill_from_body event_body r w = (Ok res, w') ->
  w' = w /\ external_id res = external_id r.
Proof.
  unfold ADT2CDF.fill_from_body, ADT2CDF.item, bind, ret, raise.
  destruct (ADT2CDF.b_tags event_body) as [[values|]|];
    destruct (ADT2CDF.b_displayName event_body);
    destruct (ADT2CDF.b_description event_body);
    intros H; inversion H; subst; split; reflexivity.
Qed.

Lemma fill_from_body_total event_body r (w : ADT2CDF.World) :
  ADT2CDF.b_tags event_body <> None ->
  exists res, ADT2CDF.fill_from_body event_body r w = (Ok res, w).
Proof.
  intros Ht. unfold ADT2CDF.fill_from_body, ADT2CDF.item, bind, ret, raise.
  destruct (ADT2CDF.b_tags event_body) as [[values|]|]; [| |congruence];
    eexists; reflexivity.
Qed.

Section Replay.
Variable ROOT_EXTERNAL_ID : string.
Variables strptime float_of : string -> option Q.

Lemma create_asset_replay adt_id event_body (w w1 : ADT2CDF.World) r1 :
  count_ext adt_id (ADT2CDF.assets (ADT2CDF.cdf w)) <= 1 ->
  ADT2CDF.create_asset ROOT_EXTERNAL_ID adt_id event_body w = (Ok r1, w1) ->
  ADT2CDF.create_asset ROOT_EXTERNAL_ID adt_id event_body w1
  = (Ok false, add_log w1 (WARNING, "CDF asset with external ID '%s' already exists!"))
  /\ count_ext adt_id (ADT2CDF.assets (ADT2CDF.cdf w1)) = 1.
Proof.
  intros Hc H.
  destruct (find (ADT2CDF.has_ext adt_id) (ADT2CDF.assets (ADT2CDF.cdf w))) as [a|] eqn:E.
  - rewrite create_asset_existing in H by congruence.
    inversion H; subst. cbn [add_log ADT2CDF.cdf].
    apply find_some_count in E as E'.
    split; [|lia].
    apply create_asset_existing. cbn [add_log ADT2CDF.cdf]. congruence.
  - unfold ADT2CDF.create_asset, ADT2CDF.has_asset_in_CDF_by_external_id,
      ADT2CDF.assets_retrieve in H.
    unfold bind at 1 in H. unfold bind at 1 in H. unfold gets at 1 in H.
    rewrite E in H. unfold ret at 1 in H. cbn [negb] in H.
    unfold bind at 1 in H.
    destruct (ADT2CDF.fill_from_body event_body _ w) as [[new_asset|e|] w0] eqn:F;
      [|discriminate|discriminate].
    apply fill_from_body_ok in F. destruct F as [-> Hext].
    cbn [ADT2CDF.new_resource external_id] in Hext.
    unfold bind, ADT2CDF.assets_create, ADT2CDF.mutate, modify, ret in H.
    inversion H; subst. cbn [ADT2CDF.cdf ADT2CDF.assets].
    assert (Hc1 : count_ext (external_id new_asset)
                            (ADT2CDF.assets (ADT2CDF.cdf w)
                             ++ [set_id (Some (ADT2CDF.next_id (ADT2CDF.cdf w))) new_asset]) = 1).
    { rewrite count_ext_app, (find_none_count _ _ E).
      unfold count_ext. simpl. unfold ADT2CDF.has_ext. simpl.
      rewrite String.eqb_refl. reflexivity. }
    split; [|exact Hc1].
    apply create_asset_existing. cbn [ADT2CDF.cdf ADT2CDF.assets].
    apply count_find. lia.
Qed.

Lemma create_asset_total adt_id event_body (w : ADT2CDF.World) :
  ADT2CDF.b_tags event_body <> None ->
  exists r1 w1, ADT2CDF.create_asset ROOT_EXTERNAL_ID adt_id event_body w = (Ok r1, w1).
Proof.
  intros Ht.
  destruct (find (ADT2CDF.has_ext adt_id) (ADT2CDF.assets (ADT2CDF.cdf w))) as [a|] eqn:E.
  - rewrite create_asset_existing by congruence. eexists. eexists. reflexivity.
  - unfold ADT2CDF.create_asset, ADT2CDF.has_asset_in_CDF_by_external_id,
      ADT2CDF.assets_retrieve.
    unfold bind at 1. unfold bind at 1. unfold gets at 1.
    rewrite E. unfold ret at 1. cbn [negb]. unfold bind at 1.
    destruct (fill_from_body_total event_body
                (ADT2CDF.new_resource adt_id (Some ROOT_EXTERNAL_ID) None None) w Ht)
      as [res Hres].
    rewrite Hres. eexists. eexists. reflexivity.
Qed.

Lemma delete_asset_replay adt_id (w w1 : ADT2CDF.World) r1 :
  ADT2CDF.delete_asset adt_id w = (r1, w1) ->
  r1 = Ok true
  /\ ADT2CDF.delete_asset adt_id w1
     = (Ok true, add_log w1 (WARNING, "CDF asset with external ID '%s' was not found!")).
Proof.
  intros H.
  destruct (find (ADT2CDF.has_ext adt_id) (ADT2CDF.assets (ADT2CDF.cdf w))) as [a|] eqn:E.
  - unfold ADT2CDF.delete_asset, ADT2CDF.has_asset_in_CDF_by_external_id,
      ADT2CDF.assets_retrieve, bind, gets, ret in H.
    rewrite E in H. unfold ADT2CDF.assets_delete, ADT2CDF.mutate, modify in H.
    inversion H; subst. split; [reflexivity|].
    apply delete_asset_absent. cbn [ADT2CDF.cdf ADT2CDF.assets]. apply find_removed.
  - rewrite delete_asset_absent in H by exact E. inversion H; subst.
    split; [reflexivity|]. apply delete_asset_absent. exact E.
Qed.

Lemma delete_timeseries_replay adt_id (w w1 : ADT2CDF.World) r1 :
  ADT2CDF.delete_timeseries adt_id w = (r1, w1) ->
  r1 = Ok true
  /\ ADT2CDF.delete_timeseries adt_id w1
     = (Ok true, add_log w1 (WARNING, "Timeseries '%s' was not found in CDF!")).
Proof.
  intros H.
  destruct (find (ADT2CDF.has_ext adt_id) (ADT2CDF.time_series (ADT2CDF.cdf w))) as [a|] eqn:E.
  - unfold ADT2CDF.delete_timeseries, ADT2CDF.has_timeseries_in_CDF_by_external_id,
      ADT2CDF.time_series_retrieve, bind, gets, ret in H.
    rewrite E in H. unfold ADT2CDF.time_series_delete, ADT2CDF.mutate, modify in H.
    inversion H; subst. split; [reflexivity|].
    apply delete_timeseries_absent. cbn [ADT2CDF.cdf ADT2CDF.time_series].
    apply find_removed.
  - rewrite delete_timeseries_absent in H by exact E. inversion H; subst.
    split; [reflexivity|]. apply delete_timeseries_absent. exact E.
Qed.
End Replay.

Section ReplayTimeSeries.
Variable ROOT_EXTERNAL_ID : string.
Variables strptime float_of : string -> option Q.

(** Inserting the first datapoint keeps one time series of the id: the
    recreation deletes it and creates it again. *)
Lemma check_and_insert_datapoint_count adt_id latest_value timestamp_str
      (w w' : ADT2CDF.World) b :
  count_ext adt_id (ADT2CDF.time_series (ADT2CDF.cdf w)) = 1 ->
  ADT2CDF.check_and_insert_datapoint strptime float_of adt_id latest_value timestamp_str w
  = (Ok b, w') ->
  count_ext adt_id (ADT2CDF.time_series (ADT2CDF.cdf w')) = 1.
Proof.
  intros Hc H. unfold ADT2CDF.check_and_insert_datapoint in H.
  destruct (strptime timestamp_str) as [timestamp|]; [|discriminate].
  unfold ADT2CDF.datapoints_retrieve_latest, ADT2CDF.time_series_retrieve in H.
  unfold bind at 1 in H. unfold gets at 1 in H.
  unfold bind at 1 in H. unfold gets at 1 in H.
  set (datapoint := fold_left ADT2CDF.later _ None) in H.
  destruct (find (ADT2CDF.has_ext adt_id) (ADT2CDF.time_series (ADT2CDF.cdf w)))
    as [ts|] eqn:E.
  2: { apply find_none_count in E. lia. }
  apply find_some_count in E as [_ Hext].
  match type of H with (if ?c then _ else _) _ = _ => destruct c eqn:Hnew end.
  2: { inversion H; subst. exact Hc. }
  unfold bind at 1 in H.
  destruct (float_of latest_value) as [x|].
  - unfold ADT2CDF.attr, bind, ret in H. destruct (is_string ts).
    + inversion H; subst. exact Hc.
    + inversion H; subst. exact Hc.
  - unfold ADT2CDF.attr in H. unfold bind at 1 in H. unfold ret at 1 in H.
    destruct datapoint as [d|].
    + destruct (is_string ts); inversion H; subst; exact Hc.
    + unfold bind, ADT2CDF.log, ADT2CDF.time_series_delete, ADT2CDF.mutate, modify,
        ADT2CDF.time_series_retrieve, gets, ADT2CDF.time_series_create, ret,
        ADT2CDF.datapoints_insert in H.
      cbn [ADT2CDF.cdf ADT2CDF.time_series external_id set_id set_is_string] in H.
      rewrite Hext in H. rewrite find_removed in H.
      inversion H; subst. cbn [ADT2CDF.cdf ADT2CDF.time_series].
      rewrite count_ext_app, count_ext_removed.
      unfold count_ext. simpl. unfold ADT2CDF.has_ext. simpl.
      rewrite String.eqb_refl. reflexivity.
Qed.

Lemma create_timeseries_replay adt_id event_body (w w1 : ADT2CDF.World) r1 :
  count_ext adt_id (ADT2CDF.time_series (ADT2CDF.cdf w)) <= 1 ->
  ADT2CDF.create_timeseries ROOT_EXTERNAL_ID strptime float_of adt_id event_body w
  = (Ok r1, w1) ->
  ADT2CDF.create_timeseries ROOT_EXTERNAL_ID strptime float_of adt_id event_body w1
  = (Ok false, add_log w1 (WARNING, "CDF timeseries '%s' already exists!"))
  /\ count_ext adt_id (ADT2CDF.time_series (ADT2CDF.cdf w1)) = 1.
Proof.
  intros Hc H.
  assert (Hgoal : count_ext adt_id (ADT2CDF.time_series (ADT2CDF.cdf w1)) = 1).
  { destruct (find (ADT2CDF.has_ext adt_id) (ADT2CDF.time_series (ADT2CDF.cdf w)))
      as [a|] eqn:E.
    - rewrite create_timeseries_existing in H by congruence.
      inversion H; subst. cbn [add_log ADT2CDF.cdf].
      apply find_some_count in E. lia.
    - unfold ADT2CDF.create_timeseries, ADT2CDF.has_timeseries_in_CDF_by_external_id,
        ADT2CDF.time_series_retrieve in H.
      unfold bind at 1 in H. unfold bind at 1 in H. unfold gets at 1 in H.
      rewrite E in H. unfold ret at 1 in H. cbn [negb] in H.
      unfold ADT2CDF.assets_retrieve in H.
      unfold bind at 1 in H. unfold gets at 1 in H.
      unfold ADT2CDF.attr in H.
      destruct (find (ADT2CDF.has_ext ROOT_EXTERNAL_ID) (ADT2CDF.assets (ADT2CDF.cdf w)))
        as [rootAsset|]; [|discriminate].
      unfold bind at 1 in H. unfold ret at 1 in H. unfold bind at 1 in H.
      destruct (ADT2CDF.fill_from_body event_body _ w) as [[new_data|e|] w0] eqn:F;
        [|discriminate|discriminate].
      apply fill_from_body_ok in F. destruct F as [-> Hext].
      cbn [ADT2CDF.new_resource external_id] in Hext.
      unfold bind at 1 in H.
      unfold ADT2CDF.time_series_create at 1, ADT2CDF.mutate, modify in H.
      unfold bind at 1 in H. unfold ADT2CDF.log at 1, modify in H.
      cbn [ADT2CDF.cdf ADT2CDF.calls ADT2CDF.logs] in H.
      match type of H with
      | _ ?w2 = _ =>
          assert (Hc2 : count_ext adt_id (ADT2CDF.time_series (ADT2CDF.cdf w2)) = 1)
      end.
      { cbn [ADT2CDF.cdf ADT2CDF.time_series].
        rewrite count_ext_app, (find_none_count _ _ E).
        unfold count_ext. simpl. unfold ADT2CDF.has_ext. simpl.
        rewrite Hext, String.eqb_refl. reflexivity. }
      destruct (ADT2CDF.b_latestValue event_body) as [lv|];
        [destruct (ADT2CDF.b_timestamp event_body) as [tsv|]|].
      + destruct (truthy lv && truthy tsv).
        * unfold bind in H.
          match type of H with
          | match ?c with _ => _ end = _ => destruct c as [[b|e|] w3] eqn:D
          end; [|discriminate|discriminate].
          apply check_and_insert_datapoint_count in D; [|exact Hc2].
          unfold ret in H. inversion H; subst. exact D.
        * unfold ret in H. inversion H; subst. exact Hc2.
      + unfold ret in H. inversion H; subst. exact Hc2.
      + unfold ret in H. inversion H; subst. exact Hc2. }
  split; [|exact Hgoal].
  apply create_timeseries_existing. apply count_find. lia.
Qed.
End ReplayTimeSeries.

(** C5.  Replaying a Create event: when the first delivery of an asset or
    time-series Create event returns, on an asset graph holding at most one
    node per external id, the second delivery makes no call that changes
    the graph (it logs the warning and returns [False]) and the graph holds
    exactly one node with that external id; the first delivery of an asset
    Create event does return when the body has its ['tags'] block.
    Replaying a Delete event: the first delivery always returns, and the
    second one changes nothing (it logs the warning and returns [True]). *)
Theorem replay_idempotent (ROOT_EXTERNAL_ID : string) (strptime float_of : string -> option Q)
        (adt_id : string) (event_body : ADT2CDF.Body) (w : ADT2CDF.World) :
  (count_ext adt_id (ADT2CDF.assets (ADT2CDF.cdf w)) <= 1 ->
   forall r1 w1,
     ADT2CDF.create_asset ROOT_EXTERNAL_ID adt_id event_body w = (Ok r1, w1) ->
     ADT2CDF.create_asset ROOT_EXTERNAL_ID adt_id event_body w1
     = (Ok false, add_log w1 (WARNING, "CDF asset with external ID '%s' already exists!"))
     /\ count_ext adt_id (ADT2CDF.assets (ADT2CDF.cdf w1)) = 1)
  /\ (ADT2CDF.b_tags event_body <> None ->
      exists r1 w1, ADT2CDF.create_asset ROOT_EXTERNAL_ID adt_id event_body w = (Ok r1, w1))
  /\ (count_ext adt_id (ADT2CDF.time_series (ADT2CDF.cdf w)) <= 1 ->
      forall r1 w1,
        ADT2CDF.create_timeseries ROOT_EXTERNAL_ID strptime float_of adt_id event_body w
        = (Ok r1, w1) ->
        ADT2CDF.create_timeseries ROOT_EXTERNAL_ID strptime float_of adt_id event_body w1
        = (Ok false, add_log w1 (WARNING, "CDF timeseries '%s' already exists!"))
        /\ count_ext adt_id (ADT2CDF.time_series (ADT2CDF.cdf w1)) = 1)
  /\ (forall r1 w1,
        ADT2CDF.delete_asset adt_id w = (r1, w1) ->
        r1 = Ok true
        /\ ADT2CDF.delete_asset adt_id w1
           = (Ok true, add_log w1 (WARNING, "CDF asset with external ID '%s' was not found!")))
  /\ (forall r1 w1,
        ADT2CDF.delete_timeseries adt_id w = (r1, w1) ->
        r1 = Ok true
        /\ ADT2CDF.delete_timeseries adt_id w1
           = (Ok true, add_log w1 (WARNING, "Timeseries '%s' was not found in CDF!"))).
Proof.
  split; [intros Hc r1 w1; apply create_asset_replay; exact Hc|].
  split; [apply create_asset_total|].
  split; [intros Hc r1 w1; apply create_timeseries_replay; exact Hc|].
  split; [intros r1 w1; apply delete_asset_replay|].
  intros r1 w1; apply delete_timeseries_replay.
Qed.

(** The statement on a store holding only the root: the asset ["A1"] is
    created once, and the time series ["T1"], recreated as a string series
    for its first value, is there once as well. *)
Lemma replay_idempotent_witness :
  let w := world_of root_only in
  let first_asset := ADT2CDF.create_asset "root" "A1" create_pump_body w in
  let first_ts := ADT2CDF.create_timeseries "root" (fun _ => Some 1%Q) (fun _ => None)
                                            "T1" create_flow_body w in
  fst first_asset = Ok true
  /\ fst (ADT2CDF.create_asset "root" "A1" create_pump_body (snd first_asset)) = Ok false
  /\ count_ext "A1" (ADT2CDF.assets (ADT2CDF.cdf (snd first_asset))) = 1
  /\ fst first_ts = Ok true
  /\ fst (ADT2CDF.create_timeseries "root" (fun _ => Some 1%Q) (fun _ => None)
                                    "T1" create_flow_body (snd first_ts)) = Ok false
  /\ count_ext "T1" (ADT2CDF.time_series (ADT2CDF.cdf (snd first_ts))) = 1.
Proof.
  intros w first_asset first_ts.
  destruct (replay_idempotent "root" (fun _ => Some 1%Q) (fun _ => None)
                              "A1" create_pump_body w) as (HA & _ & _ & _ & _).
  destruct (replay_idempotent "root" (fun _ => Some 1%Q) (fun _ => None)
                              "T1" create_flow_body w) as (_ & _ & HT & _ & _).
  destruct (HA ltac:(cbv; lia) true (snd first_asset) eq_refl) as [A1 A2].
  destruct (HT ltac:(cbv; lia) true (snd first_ts) eq_refl) as [T1 T2].
  split; [reflexivity|].
  split; [rewrite A1; reflexivity|].
  split; [exact A2|].
  split; [reflexivity|].
  split; [rewrite T1; reflexivity|exact T2].
Defined.

(** *** Parsing and dispatch of a batch *)




Lemma bind_ok {W A B} (m : M W A) (k : A -> M W B) w b w' :
  bind m k w = (Ok b, w') ->
  exists a w1, m w = (Ok a, w1) /\ k a w1 = (Ok b, w').
Proof.
  unfold bind. destruct (m w) as [[a|e|] w1]; intros H; try discriminate.
  exists a, w1. split; [reflexivity|exact H].
Qed.

Section Batch.
Variable ROOT_EXTERNAL_ID : string.
Variables handle_relationship handle_timeseries :
  ADT -> ADT2CDF.EventRepresentation -> M ADT2CDF.World bool.


End Batch.


(** *** Dictionaries *)

Section DictFacts.
Context {V : Type}.
Implicit Types (d : dict V) (k : string) (v : V).

Lemma dict_get_set k k' v d :
  dict_get k (dict_set k' v d) = if String.eqb k' k then Some v else dict_get k d.
Proof.
  induction d as [|[k0 v0] d IH]; simpl.
  - destruct (String.eqb k' k); reflexivity.
  - destruct (String.eqb k0 k') eqn:E0; simpl.
    + apply String.eqb_eq in E0. subst k0.
      destruct (String.eqb k' k); reflexivity.
    + rewrite IH. destruct (String.eqb k0 k) eqn:E1; [|reflexivity].
      apply String.eqb_eq in E1. subst k0. rewrite String.eqb_sym, E0. reflexivity.
Qed.

Lemma dict_get_del k k' d :
  dict_get k (dict_del k' d) = if String.eqb k' k then None else dict_get k d.
Proof.
  unfold dict_del. induction d as [|[k0 v0] d IH]; simpl.
  - destruct (String.eqb k' k); reflexivity.
  - destruct (String.eqb k0 k') eqn:E0; simpl.
    + apply String.eqb_eq in E0. subst k0. rewrite IH.
      destruct (String.eqb k' k); reflexivity.
    + rewrite IH. destruct (String.eqb k0 k) eqn:E1; [|reflexivity].
      apply String.eqb_eq in E1. subst k0. rewrite String.eqb_sym, E0. reflexivity.
Qed.

Lemma dict_get_keys k d : dict_get k d <> None <-> In k (dict_keys d).
Proof.
  unfold dict_keys. induction d as [|[k0 v0] d IH]; simpl.
  - split; [congruence|tauto].
  - destruct (String.eqb k0 k) eqn:E.
    + apply String.eqb_eq in E. split; [auto|discriminate].
    + rewrite IH. apply String.eqb_neq in E. split; [auto|intros [H|H]; [congruence|exact H]].
Qed.

Lemma dict_get_none_keys k d : dict_get k d = None <-> ~ In k (dict_keys d).
Proof.
  rewrite <- dict_get_keys. destruct (dict_get k d); split; intros H.
  - discriminate.
  - exfalso. apply H. discriminate.
  - intros H'. apply H'. reflexivity.
  - reflexivity.
Qed.

Lemma dict_mem_keys k d : dict_mem k d = true <-> In k (dict_keys d).
Proof.
  rewrite <- dict_get_keys. unfold dict_mem.
  destruct (dict_get k d); split; congruence.
Qed.

Lemma dict_keys_set k v d :
  dict_keys (dict_set k v d) = if dict_mem k d then dict_keys d else dict_keys d ++ [k].
Proof.
  unfold dict_mem, dict_keys. induction d as [|[k0 v0] d IH]; simpl; [reflexivity|].
  destruct (String.eqb k0 k) eqn:E; simpl; [reflexivity|].
  rewrite IH. destruct (dict_get k d); reflexivity.
Qed.

Lemma dict_wf_set k v d : dict_wf d -> dict_wf (dict_set k v d).
Proof.
  unfold dict_wf. intros H. rewrite dict_keys_set.
  destruct (dict_mem k d) eqn:E; [exact H|].
  assert (Hn : ~ In k (dict_keys d)).
  { intros Hin. apply dict_mem_keys in Hin. congruence. }
  clear E. induction (dict_keys d) as [|x l IH]; simpl.
  - constructor; [tauto|constructor].
  - inversion H; subst. constructor.
    + intros Hin. apply in_app_or in Hin. destruct Hin as [Hin|[->|[]]]; [tauto|].
      apply Hn. left. reflexivity.
    + apply IH; [assumption|]. intros Hin. apply Hn. right. exact Hin.
Qed.

Lemma dict_keys_del k k' d :
  In k (dict_keys (dict_del k' d)) <-> In k (dict_keys d) /\ k <> k'.
Proof.
  rewrite <- !dict_get_keys, dict_get_del.
  destruct (String.eqb k' k) eqn:E.
  - apply String.eqb_eq in E. subst. split; [congruence|tauto].
  - apply String.eqb_neq in E. split; [intros H; split; congruence|tauto].
Qed.

Lemma dict_wf_del k d : dict_wf d -> dict_wf (dict_del k d).
Proof.
  unfold dict_wf, dict_del, dict_keys. induction d as [|[k0 v0] d IH]; simpl; intros H.
  - constructor.
  - inversion H; subst. destruct (String.eqb k0 k); simpl; [auto|].
    constructor; [|auto]. intros Hin. apply H2.
    apply in_map_iff in Hin. destruct Hin as (x & Hx & Hin).
    apply filter_In in Hin. apply in_map_iff. exists x. tauto.
Qed.

Lemma dict_get_In k v d : dict_wf d -> (dict_get k d = Some v <-> In (k, v) d).
Proof.
  unfold dict_wf, dict_keys. induction d as [|[k0 v0] d IH]; simpl; intros H.
  - split; [discriminate|tauto].
  - inversion H; subst. destruct (String.eqb k0 k) eqn:E.
    + apply String.eqb_eq in E. subst k0. split.
      * intros E. inversion E. left. reflexivity.
      * intros [E|Hin]; [congruence|]. exfalso. apply H2.
        apply in_map_iff. exists (k, v). split; [reflexivity|exact Hin].
    + apply String.eqb_neq in E. rewrite (IH H3). split; [auto|].
      intros [E'|Hin]; [congruence|exact Hin].
Qed.

(** Two options with the same [Some] inhabitants are equal. *)
Lemma option_ext (o1 o2 : option V) :
  (forall v, o1 = Some v <-> o2 = Some v) -> o1 = o2.
Proof.
  intros H. destruct o1 as [a|], o2 as [b|]; try reflexivity.
  - apply H. reflexivity.
  - destruct (H a) as [H1 _]. specialize (H1 eq_refl). discriminate.
  - destruct (H b) as [_ H2]. specialize (H2 eq_refl). discriminate.
Qed.
End DictFacts.

(** [dict_eqb] decides equality of the mappings. *)
Lemma dict_eqb_sound (d1 d2 : dict string) :
  dict_wf d1 -> dict_wf d2 -> dict_eqb String.eqb d1 d2 = true ->
  forall k, dict_get k d1 = dict_get k d2.
Proof.
  intros W1 W2 H. unfold dict_eqb in H. apply andb_true_iff in H. destruct H as [Hlen Hall].
  apply Nat.eqb_eq in Hlen. rewrite forallb_forall in Hall.
  assert (Hsub : forall k v, dict_get k d1 = Some v -> dict_get k d2 = Some v).
  { intros k v Hk. apply (dict_get_In k v d1 W1) in Hk. specialize (Hall _ Hk).
    cbn [fst snd] in Hall. destruct (dict_get k d2) as [v2|]; [|discriminate].
    apply String.eqb_eq in Hall. congruence. }
  assert (Hincl : incl (dict_keys d2) (dict_keys d1)).
  { apply NoDup_length_incl; [exact W1| |].
    - unfold dict_keys. rewrite !length_map. lia.
    - intros k Hk. apply dict_get_keys in Hk. apply dict_get_keys.
      destruct (dict_get k d1) as [v|] eqn:E; [|congruence].
      rewrite (Hsub k v E). discriminate. }
  intros k. destruct (dict_get k d1) as [v|] eqn:E.
  - symmetry. apply Hsub. exact E.
  - symmetry. apply dict_get_none_keys. intros Hk. apply Hincl in Hk.
    apply dict_get_keys in Hk. congruence.
Qed.

(** *** Translating the keys of a dictionary *)

Section Conversion.
Variable f : string -> string.
Context {A V : Type}.
Variable g : string * A -> V.

Lemma converted_untouched k (m : dict A) (acc : dict V) :
  (forall r, In r (dict_keys m) -> f r <> k) ->
  dict_get k (converted f g m acc) = dict_get k acc.
Proof.
  revert acc. induction m as [|[r a] m IH]; intros acc H; simpl; [reflexivity|].
  unfold converted in *. simpl. rewrite IH.
  - rewrite dict_get_set.
    destruct (String.eqb (f r) k) eqn:E; [|reflexivity].
    apply String.eqb_eq in E. exfalso. apply (H r); [left; reflexivity|exact E].
  - intros r' Hr'. apply H. right. exact Hr'.
Qed.

Lemma converted_sound k x (m : dict A) (acc : dict V) :
  dict_get k (converted f g m acc) = Some x ->
  (exists r a, In (r, a) m /\ f r = k /\ g (r, a) = x) \/ dict_get k acc = Some x.
Proof.
  revert acc. induction m as [|[r a] m IH]; intros acc H.
  - right. exact H.
  - unfold converted in *. simpl in H. apply IH in H.
    destruct H as [(r' & a' & Hin & Hf & Hg)|H].
    + left. exists r', a'. split; [right; exact Hin|split; assumption].
    + rewrite dict_get_set in H. destruct (String.eqb (f r) k) eqn:E.
      * apply String.eqb_eq in E. inversion H; subst.
        left. exists r, a. split; [left; reflexivity|split; reflexivity].
      * right. exact H.
Qed.

Lemma converted_complete r a (m : dict A) (acc : dict V) :
  collision_free f m -> In (r, a) m ->
  dict_get (f r) (converted f g m acc) = Some (g (r, a)).
Proof.
  revert acc. induction m as [|[r1 a1] m IH]; intros acc [Hwf Hinj] Hin; [destruct Hin|].
  unfold dict_wf, dict_keys in Hwf. simpl in Hwf. inversion Hwf as [|? ? Hnot Hwf']; subst.
  unfold converted in *. simpl.
  destruct Hin as [E|Hin].
  - inversion E; subst r1 a1.
    fold (converted f g m (dict_set (f r) (g (r, a)) acc)).
    rewrite converted_untouched.
    + rewrite dict_get_set, String.eqb_refl. reflexivity.
    + intros r' Hr' Ef. apply Hnot.
      assert (r' = r).
      { apply Hinj; [right; exact Hr'|left; reflexivity|exact Ef]. }
      subst r'. exact Hr'.
  - apply IH; [|exact Hin]. split; [exact Hwf'|].
    intros x y Hx Hy. apply Hinj; right; assumption.
Qed.

Lemma converted_wf (m : dict A) (acc : dict V) :
  dict_wf acc -> dict_wf (converted f g m acc).
Proof.
  revert acc. induction m as [|[r a] m IH]; intros acc H; [exact H|].
  unfold converted in *. simpl. apply IH. apply dict_wf_set. exact H.
Qed.

Lemma converted_keys k (m : dict A) (acc : dict V) :
  In k (dict_keys (converted f g m acc)) <->
  (exists r, In r (dict_keys m) /\ f r = k) \/ In k (dict_keys acc).
Proof.
  revert acc. induction m as [|[r a] m IH]; intros acc.
  - simpl. split; [auto|]. intros [(r & [] & _)|H]; exact H.
  - unfold converted in *. simpl. rewrite IH.
    rewrite <- (dict_get_keys k (dict_set _ _ _)), dict_get_set, <- (dict_get_keys k acc).
    split.
    + intros [(r' & Hr' & E)|H].
      * left. exists r'. split; [right; exact Hr'|exact E].
      * destruct (String.eqb (f r) k) eqn:E.
        -- apply String.eqb_eq in E. left. exists r. split; [left; reflexivity|exact E].
        -- right. exact H.
    + intros [(r' & [Hr'|Hr'] & E)|H].
      * subst r'. right. apply String.eqb_eq in E. rewrite E. discriminate.
      * left. exists r'. split; assumption.
      * right. destruct (String.eqb (f r) k); [discriminate|exact H].
Qed.
End Conversion.

(** Under distinct translated keys, the translated dictionary holds at a
    translated key what the original holds at the key it comes from. *)
Lemma converted_view (f : string -> string) (md : dict string) k v :
  collision_free f md ->
  (dict_get k (converted f snd md []) = Some v
   <-> exists r, dict_get r md = Some v /\ f r = k).
Proof.
  intros Hn. pose proof Hn as [Hwf _]. split.
  - intros H. apply converted_sound in H. destruct H as [(r & a & Hin & Hf & Hg)|H].
    + simpl in Hg. subst a. exists r. split; [|exact Hf].
      apply dict_get_In; assumption.
    + discriminate.
  - intros (r & Hr & Hf). subst k.
    apply (dict_get_In r v md Hwf) in Hr.
    apply (converted_complete f snd r v md [] Hn Hr).
Qed.

Section ViewUpdates.
Variable f : string -> string.
Implicit Types (md : dict string) (r k v : string).

Lemma view_some_key md r :
  collision_free f md -> In r (dict_keys md) ->
  dict_get (f r) (converted f snd md []) <> None.
Proof.
  intros Hn Hr. apply dict_get_keys in Hr.
  destruct (dict_get r md) as [v|] eqn:E; [|congruence].
  assert (H : dict_get (f r) (converted f snd md []) = Some v).
  { apply converted_view; [exact Hn|]. exists r. split; [exact E|reflexivity]. }
  congruence.
Qed.

Lemma collision_free_set md r v :
  collision_free f md ->
  In r (dict_keys md) \/ dict_get (f r) (converted f snd md []) = None ->
  collision_free f (dict_set r v md).
Proof.
  intros Hn Hr. pose proof Hn as [Hwf Hinj]. split; [apply dict_wf_set; exact Hwf|].
  intros r1 r2. rewrite dict_keys_set.
  destruct (dict_mem r md) eqn:Em; [apply Hinj|].
  destruct Hr as [Hr|Hr].
  { apply dict_mem_keys in Hr. congruence. }
  intros H1 H2 E. apply in_app_or in H1. apply in_app_or in H2.
  destruct H1 as [H1|[<-|[]]]; destruct H2 as [H2|[<-|[]]].
  - apply Hinj; assumption.
  - exfalso. apply (view_some_key md r1 Hn H1). rewrite E. exact Hr.
  - exfalso. apply (view_some_key md r2 Hn H2). rewrite <- E. exact Hr.
  - reflexivity.
Qed.

Lemma view_set md r v k :
  collision_free f md ->
  In r (dict_keys md) \/ dict_get (f r) (converted f snd md []) = None ->
  dict_get k (converted f snd (dict_set r v md) [])
  = if String.eqb (f r) k then Some v else dict_get k (converted f snd md []).
Proof.
  intros Hn Hr. pose proof (collision_free_set md r v Hn Hr) as Hn'.
  apply option_ext. intros x.
  rewrite (converted_view f (dict_set r v md) k x Hn').
  destruct (String.eqb (f r) k) eqn:E.
  - apply String.eqb_eq in E. split.
    + intros (r' & Hg & Hf). rewrite dict_get_set in Hg.
      destruct (String.eqb r r') eqn:Er; [exact Hg|].
      exfalso. apply String.eqb_neq in Er.
      assert (Hr' : In r' (dict_keys md)) by (apply dict_get_keys; congruence).
      destruct Hr as [Hr|Hr].
      * apply Er. destruct Hn as [_ Hinj]. apply Hinj; [assumption|assumption|congruence].
      * apply (view_some_key md r' Hn Hr'). rewrite Hf, <- E. exact Hr.
    + intros Hx. inversion Hx; subst x. exists r. split; [|exact E].
      rewrite dict_get_set, String.eqb_refl. reflexivity.
  - apply String.eqb_neq in E.
    rewrite (converted_view f md k x Hn). split.
    + intros (r' & Hg & Hf). exists r'. split; [|exact Hf].
      rewrite dict_get_set in Hg. destruct (String.eqb r r') eqn:Er; [|exact Hg].
      apply String.eqb_eq in Er. subst r'. congruence.
    + intros (r' & Hg & Hf). exists r'. split; [|exact Hf].
      rewrite dict_get_set. destruct (String.eqb r r') eqn:Er; [|exact Hg].
      apply String.eqb_eq in Er. subst r'. congruence.
Qed.

Lemma collision_free_del md r :
  collision_free f md -> collision_free f (dict_del r md).
Proof.
  intros [Hwf Hinj]. split; [apply dict_wf_del; exact Hwf|].
  intros r1 r2 H1 H2. apply dict_keys_del in H1. apply dict_keys_del in H2.
  apply Hinj; tauto.
Qed.

Lemma view_del md r k :
  collision_free f md -> In r (dict_keys md) ->
  dict_get k (converted f snd (dict_del r md) [])
  = if String.eqb (f r) k then None else dict_get k (converted f snd md []).
Proof.
  intros Hn Hr. pose proof (collision_free_del md r Hn) as Hn'.
  apply option_ext. intros x.
  rewrite (converted_view f (dict_del r md) k x Hn').
  destruct (String.eqb (f r) k) eqn:E.
  - apply String.eqb_eq in E. split; [|discriminate].
    intros (r' & Hg & Hf). exfalso. rewrite dict_get_del in Hg.
    destruct (String.eqb r r') eqn:Er; [discriminate|].
    apply String.eqb_neq in Er. apply Er.
    destruct Hn as [_ Hinj]. apply Hinj; [exact Hr| |congruence].
    apply dict_get_keys. congruence.
  - apply String.eqb_neq in E.
    rewrite (converted_view f md k x Hn). split.
    + intros (r' & Hg & Hf). exists r'. split; [|exact Hf].
      rewrite dict_get_del in Hg. destruct (String.eqb r r'); [discriminate|exact Hg].
    + intros (r' & Hg & Hf). exists r'. split; [|exact Hf].
      rewrite dict_get_del. destruct (String.eqb r r') eqn:Er; [|exact Hg].
      apply String.eqb_eq in Er. subst r'. congruence.
Qed.
End ViewUpdates.

(** *** Patch operations on one metadata key *)

Lemma replace_absent (old new s : string) :
  contains old s = false -> str_replace s old new = s.
Proof.
  unfold str_replace. induction s as [|c s IH]; intros H; [reflexivity|].
  cbn [contains] in H. apply orb_false_iff in H. destruct H as [Hp Hc].
  cbn [replace_from]. rewrite Hp. f_equal. apply IH. exact Hc.
Qed.

Lemma prefix_empty (s : string) : String.prefix "" s = true.
Proof. destruct s; reflexivity. Qed.

Lemma tags_path_prefix (k : string) :
  startswith ("/tags/values/" ++ k)%string "/tags/values/" = true.
Proof. unfold startswith. simpl. apply prefix_empty. Qed.

Lemma tags_path_key (k : string) :
  contains "/tags/values/" k = false ->
  str_replace ("/tags/values/" ++ k)%string "/tags/values/" "" = k.
Proof.
  intros H. unfold str_replace. simpl.
  rewrite prefix_empty. apply (replace_absent "/tags/values/" "" k H).
Qed.

Lemma bind_ret_r {W A} (m : M W A) (w : W) : bind m (fun a => ret a) w = m w.
Proof.
  unfold bind, ret. destruct (m w) as [[a|e|] w']; reflexivity.
Qed.

Section MetadataOps.
Variable cm : dict ADT2CDF.MetadataConversion.
Variables (has_change : bool) (record : Resource) (k : string) (w : ADT2CDF.World).
Hypothesis plain : contains "/tags/values/" k = false.

(** The path of a metadata key is none of the paths tested before. *)
Ltac metadata_path :=
  unfold ADT2CDF.apply_action; cbn [path op value];
  change (String.eqb ("/tags/values/" ++ k) "/displayName") with false;
  change (String.eqb ("/tags/values/" ++ k) "/description") with false;
  change (String.eqb ("/tags/values/" ++ k) "/externalId") with false;
  change (String.eqb ("/tags/values/" ++ k) "/id") with false;
  change (String.eqb ("/tags/values/" ++ k) "/tags/values") with false;
  rewrite (tags_path_prefix k), (tags_path_key k plain);
  cbv iota.

Lemma apply_add v :
  ADT2CDF.apply_action cm (has_change, record)
    (mkPatch "add" ("/tags/values/" ++ k)%string (Some (VStr v))) w
  = ADT2CDF.check_value_change_and_update_record has_change record cm k (VStr v) w.
Proof.
  metadata_path.
  change (String.eqb "add" "replace") with false.
  change (String.eqb "add" "add") with true.
  change (String.eqb "add" "remove") with false. cbv iota.
  unfold ADT2CDF.item. unfold bind at 1. unfold ret at 1.
  unfold bind at 1. unfold bind at 1. unfold ret at 1. cbn [fst snd].
  destruct (ADT2CDF.check_value_change_and_update_record has_change record cm k (VStr v) w)
    as [[a|e|] w']; reflexivity.
Qed.

Lemma apply_replace v :
  ADT2CDF.apply_action cm (has_change, record)
    (mkPatch "replace" ("/tags/values/" ++ k)%string (Some (VStr v))) w
  = ADT2CDF.check_value_change_and_update_record has_change record cm k (VStr v) w.
Proof.
  metadata_path.
  change (String.eqb "replace" "replace") with true.
  change (String.eqb "replace" "add") with false.
  change (String.eqb "replace" "remove") with false. cbv iota.
  unfold ADT2CDF.item. unfold bind at 1. unfold bind at 1. unfold bind at 1.
  unfold ret at 1.
  destruct (ADT2CDF.check_value_change_and_update_record has_change record cm k (VStr v) w)
    as [[a|e|] w']; reflexivity.
Qed.

Lemma apply_remove :
  ADT2CDF.apply_action cm (has_change, record)
    (mkPatch "remove" ("/tags/values/" ++ k)%string None) w
  = match dict_get k cm with
    | Some c =>
        bind (ADT2CDF.metadata_delitem (ADT2CDF.mc_key c) record)
             (fun r => ret (true, r)) w
    | None => (Ok (has_change, record), w)
    end.
Proof.
  metadata_path.
  change (String.eqb "remove" "replace") with false.
  change (String.eqb "remove" "add") with false.
  change (String.eqb "remove" "remove") with true. cbv iota.
  unfold bind at 1. unfold ret at 1. unfold bind at 1. unfold ret at 1. cbn [snd].
  destruct (dict_get k cm); reflexivity.
Qed.
End MetadataOps.

Lemma apply_actions_app cm st (p1 p2 : list Patch) (w : ADT2CDF.World) :
  ADT2CDF.apply_actions cm st (p1 ++ p2) w
  = bind (ADT2CDF.apply_actions cm st p1) (fun st' => ADT2CDF.apply_actions cm st' p2) w.
Proof.
  revert st w. induction p1 as [|a p1 IH]; intros st w; simpl.
  - reflexivity.
  - unfold bind.
    destruct (ADT2CDF.apply_action cm st a w) as [[st'|e|] w'];
      [|reflexivity|reflexivity].
    rewrite IH. unfold bind. reflexivity.
Qed.

(** *** The metadata part of the round trip *)

Section MetadataRoundTrip.
Variables mA mB : dict string.
Hypothesis free_A : collision_free CDF2ADT.convert_key mA.

Let f := CDF2ADT.convert_key.
Let values := CDF2ADT.convert_items mA.
Let meta := CDF2ADT.convert_items mB.
Let cm := ADT2CDF.convert_items mA.

Lemma cm_some k c :
  dict_get k cm = Some c ->
  f (ADT2CDF.mc_key c) = k /\ In (ADT2CDF.mc_key c) (dict_keys mA)
  /\ dict_get k values = Some (ADT2CDF.mc_value c).
Proof.
  intros H.
  apply (converted_sound ADT2CDF.convert_key
           (fun kv => ADT2CDF.mkMetadataConversion (snd kv) (fst kv))) in H.
  destruct H as [(r & a & Hin & Hf & Hg)|H]; [|discriminate].
  subst c. cbn [ADT2CDF.mc_key ADT2CDF.mc_value fst snd].
  split; [exact Hf|]. split.
  - apply in_map_iff. exists (r, a). split; [reflexivity|exact Hin].
  - subst k. apply (converted_complete CDF2ADT.convert_key snd r a mA [] free_A Hin).
Qed.

Lemma cm_none k : dict_get k cm = None <-> dict_get k values = None.
Proof.
  rewrite !dict_get_none_keys. unfold cm, values, ADT2CDF.convert_items, CDF2ADT.convert_items.
  pose proof (converted_keys ADT2CDF.convert_key
                (fun kv : string * string => ADT2CDF.mkMetadataConversion (snd kv) (fst kv))
                k mA []) as H1.
  pose proof (converted_keys CDF2ADT.convert_key (@snd string string) k mA []) as H2.
  unfold converted in H1, H2.
  split; intros H Hin; apply H.
  - apply H1. apply H2. exact Hin.
  - apply H2. apply H1. exact Hin.
Qed.

Lemma applied_done_step done removed md md' k :
  applied mA meta values done removed md ->
  collision_free CDF2ADT.convert_key md' ->
  (forall r, In r (dict_keys md) -> In r (dict_keys md')) ->
  (forall k', dict_get k' (CDF2ADT.convert_items md')
              = if String.eqb k k' then dict_get k meta
                else dict_get k' (CDF2ADT.convert_items md)) ->
  applied mA meta values (k :: done) removed md'.
Proof.
  intros (Hfree & Hkeep & Hview) Hfree' Hkeys Hnew.
  split; [exact Hfree'|]. split.
  - intros r Hr Hrem. apply Hkeys. apply Hkeep; assumption.
  - intros k'. rewrite Hnew. destruct (Hview k') as (V1 & V2 & V3).
    destruct (String.eqb k k') eqn:E.
    + apply String.eqb_eq in E. subst k'.
      split; [reflexivity|]. split; intros Hn; exfalso; apply Hn; left; reflexivity.
    + apply String.eqb_neq in E. split; [|split].
      * intros [Hk|Hk]; [congruence|]. apply V1. exact Hk.
      * intros Hn Hr. apply V2; [|exact Hr]. intros Hk. apply Hn. right. exact Hk.
      * intros Hn Hr. apply V3; [|exact Hr]. intros Hk. apply Hn. right. exact Hk.
Qed.

Lemma applied_removed_step done removed md md' k :
  applied mA meta values done removed md ->
  collision_free CDF2ADT.convert_key md' ->
  ~ In k done ->
  (forall r, In r (dict_keys mA) -> ~ In (f r) (k :: removed) -> In r (dict_keys md')) ->
  (forall k', dict_get k' (CDF2ADT.convert_items md')
              = if String.eqb k k' then None
                else dict_get k' (CDF2ADT.convert_items md)) ->
  applied mA meta values done (k :: removed) md'.
Proof.
  intros (Hfree & Hkeep & Hview) Hfree' Hnd Hkeys Hnew.
  split; [exact Hfree'|]. split; [exact Hkeys|].
  intros k'. rewrite Hnew. destruct (Hview k') as (V1 & V2 & V3).
  destruct (String.eqb k k') eqn:E.
  - apply String.eqb_eq in E. subst k'.
    split; [intros Hk; contradiction|].
    split; [reflexivity|]. intros _ Hn. exfalso. apply Hn. left. reflexivity.
  - apply String.eqb_neq in E. split; [exact V1|]. split.
    + intros Hn [Hk|Hk]; [congruence|]. apply V2; assumption.
    + intros Hn Hr. apply V3; [exact Hn|]. intros Hk. apply Hr. right. exact Hk.
Qed.

Lemma keys_set_incl (md : dict string) r0 v r :
  In r (dict_keys md) -> In r (dict_keys (dict_set r0 v md)).
Proof.
  intros H. rewrite dict_keys_set. destruct (dict_mem r0 md); [exact H|].
  apply in_or_app. left. exact H.
Qed.

(** One item of [meta]: the operation [get_update_patches] emits for it, if
    any, is applied without error and brings the key to the value of
    [meta]. *)
Lemma upsert_step k v done md has_change record (w : ADT2CDF.World) :
  applied mA meta values done [] md ->
  metadata record = Some md ->
  dict_get k meta = Some v -> f k = k -> contains "/tags/values/" k = false ->
  ~ In k done ->
  exists has_change' record' md',
    ADT2CDF.apply_actions cm (has_change, record) (upsert_patch values (k, v)) w
    = (Ok (has_change', record'), w)
    /\ name record' = name record /\ description record' = description record
    /\ metadata record' = Some md'
    /\ applied mA meta values (k :: done) [] md'.
Proof.
  intros Happ Hmd Hmeta Hfk Hplain Hnd.
  pose proof Happ as (Hfree & Hkeep & Hview).
  destruct (Hview k) as (_ & _ & Vk). specialize (Vk Hnd (fun x => x)).
  unfold upsert_patch. cbn [fst snd].
  destruct (dict_get k values) as [v0|] eqn:Ev.
  - destruct (String.eqb v v0) eqn:Evv; cbn [negb].
    + apply String.eqb_eq in Evv. subst v0.
      exists has_change, record, md. split; [reflexivity|].
      split; [reflexivity|]. split; [reflexivity|]. split; [exact Hmd|].
      apply (applied_done_step done [] md md k Happ Hfree (fun r H => H)).
      intros k'. destruct (String.eqb k k') eqn:E; [|reflexivity].
      apply String.eqb_eq in E. subst k'. rewrite Vk, Hmeta. reflexivity.
    + cbn [ADT2CDF.apply_actions]. rewrite bind_ret_r.
      rewrite (apply_replace cm has_change record k w Hplain v).
      unfold ADT2CDF.check_value_change_and_update_record.
      destruct (dict_get k cm) as [c|] eqn:Ec.
      2: { apply cm_none in Ec. fold values in Ec. congruence. }
      apply cm_some in Ec. destruct Ec as (Hfc & Hin & Hval).
      fold values in Hval. rewrite Ev in Hval. inversion Hval as [Hv0].
      cbn [ADT2CDF.differs]. rewrite <- Hv0. rewrite String.eqb_sym, Evv. cbn [negb].
      unfold ADT2CDF.as_str, ADT2CDF.metadata_setitem. rewrite Hmd.
      unfold bind, ret.
      assert (Hr0 : In (ADT2CDF.mc_key c) (dict_keys md)).
      { apply Hkeep; [exact Hin|]. intros []. }
      eexists. eexists. exists (dict_set (ADT2CDF.mc_key c) v md).
      split; [reflexivity|]. split; [reflexivity|]. split; [reflexivity|].
      split; [reflexivity|].
      apply (applied_done_step done [] md _ k Happ).
      * apply collision_free_set; [exact Hfree|left; exact Hr0].
      * intros r Hr. apply keys_set_incl. exact Hr.
      * intros k'. unfold CDF2ADT.convert_items.
        change (fold_left _ (dict_set (ADT2CDF.mc_key c) v md) [])
          with (converted CDF2ADT.convert_key snd (dict_set (ADT2CDF.mc_key c) v md) []).
        rewrite (view_set CDF2ADT.convert_key md _ v k' Hfree (or_introl Hr0)).
        fold f. rewrite Hfc, Hmeta. reflexivity.
  - cbn [ADT2CDF.apply_actions]. rewrite bind_ret_r.
    rewrite (apply_add cm has_change record k w Hplain v).
    unfold ADT2CDF.check_value_change_and_update_record.
    assert (Ec : dict_get k cm = None) by (apply cm_none; exact Ev).
    rewrite Ec.
    unfold ADT2CDF.as_str, ADT2CDF.metadata_setitem. rewrite Hmd.
    unfold bind, ret.
    assert (Hnone : dict_get (CDF2ADT.convert_key k)
                             (converted CDF2ADT.convert_key snd md []) = None).
    { fold f. rewrite Hfk. exact Vk. }
    eexists. eexists. exists (dict_set k v md).
    split; [reflexivity|]. split; [reflexivity|]. split; [reflexivity|].
    split; [reflexivity|].
    apply (applied_done_step done [] md _ k Happ).
    + apply collision_free_set; [exact Hfree|right; exact Hnone].
    + intros r Hr. apply keys_set_incl. exact Hr.
    + intros k'. unfold CDF2ADT.convert_items.
      change (fold_left _ (dict_set k v md) [])
        with (converted CDF2ADT.convert_key snd (dict_set k v md) []).
      rewrite (view_set CDF2ADT.convert_key md k v k' Hfree (or_intror Hnone)).
      fold f. rewrite Hfk, Hmeta. reflexivity.
Qed.

(** One item of [values]: a key that [meta] does not have is removed from
    the record without error. *)
Lemma remove_step k v0 done removed md has_change record (w : ADT2CDF.World) :
  applied mA meta values done removed md ->
  metadata record = Some md ->
  In k (dict_keys values) -> contains "/tags/values/" k = false ->
  ~ In k removed ->
  (forall k', In k' done -> In k' (dict_keys meta)) ->
  exists has_change' record' md',
    ADT2CDF.apply_actions cm (has_change, record) (remove_patch meta (k, v0)) w
    = (Ok (has_change', record'), w)
    /\ name record' = name record /\ description record' = description record
    /\ metadata record' = Some md'
    /\ applied mA meta values done
               (if dict_mem k meta then removed else k :: removed) md'.
Proof.
  intros Happ Hmd Hk Hplain Hnr Hdone.
  pose proof Happ as (Hfree & Hkeep & Hview).
  unfold remove_patch. cbn [fst].
  destruct (dict_mem k meta) eqn:Em; cbn [negb].
  - exists has_change, record, md. split; [reflexivity|].
    split; [reflexivity|]. split; [reflexivity|]. split; [exact Hmd|exact Happ].
  - cbn [ADT2CDF.apply_actions]. rewrite bind_ret_r.
    rewrite (apply_remove cm has_change record k w Hplain).
    destruct (dict_get k cm) as [c|] eqn:Ec.
    2: { apply cm_none in Ec. apply dict_get_none_keys in Ec. contradiction. }
    apply cm_some in Ec. destruct Ec as (Hfc & Hin & Hval).
    assert (Hr0 : In (ADT2CDF.mc_key c) (dict_keys md)).
    { apply Hkeep; [exact Hin|]. fold f. rewrite Hfc. exact Hnr. }
    unfold ADT2CDF.metadata_delitem. rewrite Hmd.
    apply dict_mem_keys in Hr0 as Hr0'. rewrite Hr0'.
    unfold bind, ret.
    eexists. eexists. exists (dict_del (ADT2CDF.mc_key c) md).
    split; [reflexivity|]. split; [reflexivity|]. split; [reflexivity|].
    split; [reflexivity|].
    apply (applied_removed_step done removed md _ k Happ).
    + apply collision_free_del. exact Hfree.
    + intros Hd. apply Hdone in Hd. apply dict_mem_keys in Hd. congruence.
    + intros r Hr Hn. apply dict_keys_del. split.
      * apply Hkeep; [exact Hr|]. intros Hx. apply Hn. right. exact Hx.
      * intros E. apply Hn. left. subst r. symmetry. exact Hfc.
    + intros k'. unfold CDF2ADT.convert_items.
      change (fold_left _ (dict_del (ADT2CDF.mc_key c) md) [])
        with (converted CDF2ADT.convert_key snd (dict_del (ADT2CDF.mc_key c) md) []).
      rewrite (view_del CDF2ADT.convert_key md _ k' Hfree Hr0).
      fold f. rewrite Hfc. reflexivity.
Qed.

(** The first loop: the added and changed keys. *)
Lemma upsert_loop items :
  forall done md has_change record (w : ADT2CDF.World),
    applied mA meta values done [] md ->
    metadata record = Some md ->
    (forall kv, In kv items ->
                dict_get (fst kv) meta = Some (snd kv) /\ f (fst kv) = fst kv
                /\ contains "/tags/values/" (fst kv) = false) ->
    NoDup (map fst items) ->
    (forall kv, In kv items -> ~ In (fst kv) done) ->
    exists has_change' record' md' done',
      ADT2CDF.apply_actions cm (has_change, record) (flat_map (upsert_patch values) items) w
      = (Ok (has_change', record'), w)
      /\ name record' = name record /\ description record' = description record
      /\ metadata record' = Some md'
      /\ applied mA meta values done' [] md'
      /\ (forall k, In k done' <-> In k (map fst items) \/ In k done).
Proof.
  induction items as [|[k v] items IH]; intros done md has_change record w Happ Hmd Hit Hnd Hfresh.
  - exists has_change, record, md, done. split; [reflexivity|].
    split; [reflexivity|]. split; [reflexivity|]. split; [exact Hmd|].
    split; [exact Happ|]. intros k. simpl. tauto.
  - cbn [flat_map]. rewrite apply_actions_app.
    destruct (Hit (k, v) (or_introl eq_refl)) as (Hmeta & Hfk & Hplain).
    cbn [fst snd] in Hmeta, Hfk, Hplain.
    destruct (upsert_step k v done md has_change record w Happ Hmd Hmeta Hfk Hplain
                          (Hfresh (k, v) (or_introl eq_refl)))
      as (hc1 & rec1 & md1 & Hrun & Hn1 & Hd1 & Hmd1 & Happ1).
    unfold bind. rewrite Hrun.
    cbn [map] in Hnd. inversion Hnd as [|? ? Hk Hnd']; subst.
    destruct (IH (k :: done) md1 hc1 rec1 w Happ1 Hmd1) as
        (hc2 & rec2 & md2 & done2 & Hrun2 & Hn2 & Hd2 & Hmd2 & Happ2 & Hdone2).
    + intros kv Hkv. apply Hit. right. exact Hkv.
    + exact Hnd'.
    + intros kv Hkv [E|Hin].
      * apply Hk. rewrite E. apply in_map. exact Hkv.
      * apply (Hfresh kv); [right; exact Hkv|exact Hin].
    + exists hc2, rec2, md2, done2. split; [exact Hrun2|].
      split; [congruence|]. split; [congruence|]. split; [exact Hmd2|].
      split; [exact Happ2|]. intros k'. rewrite Hdone2. simpl. tauto.
Qed.

(** The second loop: the removed keys. *)
Lemma remove_loop items :
  forall done removed md has_change record (w : ADT2CDF.World),
    applied mA meta values done removed md ->
    metadata record = Some md ->
    (forall kv, In kv items ->
                In (fst kv) (dict_keys values)
                /\ contains "/tags/values/" (fst kv) = false) ->
    NoDup (map fst items) ->
    (forall kv, In kv items -> ~ In (fst kv) removed) ->
    (forall k', In k' done -> In k' (dict_keys meta)) ->
    exists has_change' record' md' removed',
      ADT2CDF.apply_actions cm (has_change, record) (flat_map (remove_patch meta) items) w
      = (Ok (has_change', record'), w)
      /\ name record' = name record /\ description record' = description record
      /\ metadata record' = Some md'
      /\ applied mA meta values done removed' md'
      /\ (forall k, In k removed' <->
                    (In k (map fst items) /\ ~ In k (dict_keys meta)) \/ In k removed).
Proof.
  induction items as [|[k v] items IH];
    intros done removed md has_change record w Happ Hmd Hit Hnd Hfresh Hdone.
  - exists has_change, record, md, removed. split; [reflexivity|].
    split; [reflexivity|]. split; [reflexivity|]. split; [exact Hmd|].
    split; [exact Happ|]. intros k. simpl. tauto.
  - cbn [flat_map]. rewrite apply_actions_app.
    destruct (Hit (k, v) (or_introl eq_refl)) as (Hkv & Hplain).
    cbn [fst] in Hkv, Hplain.
    destruct (remove_step k v done removed md has_change record w Happ Hmd Hkv Hplain
                          (Hfresh (k, v) (or_introl eq_refl)) Hdone)
      as (hc1 & rec1 & md1 & Hrun & Hn1 & Hd1 & Hmd1 & Happ1).
    unfold bind. rewrite Hrun.
    cbn [map] in Hnd. inversion Hnd as [|? ? Hk Hnd']; subst.
    destruct (IH done _ md1 hc1 rec1 w Happ1 Hmd1) as
        (hc2 & rec2 & md2 & rem2 & Hrun2 & Hn2 & Hd2 & Hmd2 & Happ2 & Hrem2).
    + intros kv Hin. apply Hit. right. exact Hin.
    + exact Hnd'.
    + intros kv Hin Hr. destruct (dict_mem k meta).
      * apply (Hfresh kv); [right; exact Hin|exact Hr].
      * destruct Hr as [E|Hr].
        -- apply Hk. rewrite E. apply in_map. exact Hin.
        -- apply (Hfresh kv); [right; exact Hin|exact Hr].
    + exact Hdone.
    + exists hc2, rec2, md2, rem2. split; [exact Hrun2|].
      split; [congruence|]. split; [congruence|]. split; [exact Hmd2|].
      split; [exact Happ2|]. intros k'. rewrite Hrem2. cbn [map In].
      destruct (dict_mem k meta) eqn:Em.
      * apply dict_mem_keys in Em. split; [tauto|].
        intros [[[E|H1] H2]|H]; [subst k'; contradiction|tauto|tauto].
      * assert (Hnk : ~ In k (dict_keys meta)).
        { intros H. apply dict_mem_keys in H. congruence. }
        simpl. split.
        -- intros [[H1 H2]|[E|H]]; [tauto|subst k'; tauto|tauto].
        -- intros [[[E|H1] H2]|H]; [subst k'; tauto|tauto|tauto].
Qed.

Hypothesis wf_B : dict_wf mB.
Hypothesis plain_A :
  forall r, In r (dict_keys mA) -> contains "/tags/values/" (f r) = false.
Hypothesis plain_B :
  forall r, In r (dict_keys mB) -> contains "/tags/values/" (f r) = false.

Lemma values_wf : dict_wf values.
Proof. apply (converted_wf CDF2ADT.convert_key snd mA []). constructor. Qed.

Lemma meta_wf : dict_wf meta.
Proof. apply (converted_wf CDF2ADT.convert_key snd mB []). constructor. Qed.

Lemma meta_key k :
  In k (dict_keys meta) -> f k = k /\ contains "/tags/values/" k = false.
Proof.
  intros H. apply (converted_keys CDF2ADT.convert_key snd k mB []) in H.
  destruct H as [(r & Hr & E)|[]]. subst k. split.
  - apply convert_key_idempotent.
  - apply plain_B. exact Hr.
Qed.

Lemma values_key k :
  In k (dict_keys values) -> contains "/tags/values/" k = false.
Proof.
  intros H. apply (converted_keys CDF2ADT.convert_key snd k mA []) in H.
  destruct H as [(r & Hr & E)|[]]. subst k. apply plain_A. exact Hr.
Qed.

(** The operations emitted for the metadata are applied without error and
    leave a record whose metadata, through the key translation, is [meta]. *)
Lemma metadata_patches_applied has_change record (w : ADT2CDF.World) :
  metadata record = Some mA ->
  exists has_change' record' md',
    ADT2CDF.apply_actions cm (has_change, record) (CDF2ADT.metadata_patches meta values) w
    = (Ok (has_change', record'), w)
    /\ name record' = name record /\ description record' = description record
    /\ metadata record' = Some md'
    /\ forall k, dict_get k (CDF2ADT.convert_items md') = dict_get k meta.
Proof.
  intros Hmd. unfold CDF2ADT.metadata_patches.
  destruct (dict_eqb String.eqb meta values) eqn:Eq; cbn [negb].
  - exists has_change, record, mA. split; [reflexivity|].
    split; [reflexivity|]. split; [reflexivity|]. split; [exact Hmd|].
    intros k. symmetry. apply (dict_eqb_sound meta values meta_wf values_wf Eq).
  - change (flat_map _ meta) with (flat_map (upsert_patch values) meta).
    change (flat_map _ values) with (flat_map (remove_patch meta) values).
    rewrite apply_actions_app.
    assert (H0 : applied mA meta values [] [] mA).
    { split; [exact free_A|]. split; [intros r Hr _; exact Hr|].
      intros k. split; [intros []|]. split; [intros _ []|]. intros _ _. reflexivity. }
    destruct (upsert_loop meta [] mA has_change record w H0 Hmd)
      as (hc1 & rec1 & md1 & done1 & Hrun1 & Hn1 & Hd1 & Hmd1 & Happ1 & Hdone1).
    { intros [k v] Hin. cbn [fst snd].
      assert (Hk : In k (dict_keys meta)).
      { apply in_map_iff. exists (k, v). split; [reflexivity|exact Hin]. }
      split; [apply dict_get_In; [exact meta_wf|exact Hin]|].
      apply meta_key. exact Hk. }
    { exact meta_wf. }
    { intros kv _ []. }
    unfold bind. rewrite Hrun1.
    destruct (remove_loop values done1 [] md1 hc1 rec1 w Happ1 Hmd1)
      as (hc2 & rec2 & md2 & rem2 & Hrun2 & Hn2 & Hd2 & Hmd2 & Happ2 & Hrem2).
    { intros [k v] Hin. cbn [fst].
      assert (Hk : In k (dict_keys values)).
      { apply in_map_iff. exists (k, v). split; [reflexivity|exact Hin]. }
      split; [exact Hk|apply values_key; exact Hk]. }
    { exact values_wf. }
    { intros kv _ []. }
    { intros k' Hk'. apply Hdone1 in Hk'. destruct Hk' as [Hk'|[]]. exact Hk'. }
    exists hc2, rec2, md2. split; [exact Hrun2|].
    split; [congruence|]. split; [congruence|]. split; [exact Hmd2|].
    intros k. destruct Happ2 as (_ & _ & Hview). destruct (Hview k) as (V1 & V2 & V3).
    destruct (dict_get k meta) as [v|] eqn:Em.
    + apply V1. apply Hdone1. left.
      apply dict_get_keys. congruence.
    + assert (Hnd : ~ In k done1).
      { intros H. apply Hdone1 in H. destruct H as [H|[]].
        apply dict_get_keys in H. congruence. }
      assert (Hnm : ~ In k (dict_keys meta)).
      { intros H. apply dict_get_keys in H. congruence. }
      destruct (dict_get k values) as [v0|] eqn:Ev.
      * apply V2; [exact Hnd|]. apply Hrem2. left. split; [|exact Hnm].
        apply dict_get_keys. fold (dict_keys values). congruence.
      * apply V3; [exact Hnd|]. intros H. apply Hrem2 in H.
        destruct H as [[H _]|[]]. apply dict_get_keys in H. congruence.
Qed.
End MetadataRoundTrip.

(** *** The scalar fields of the round trip *)

Lemma immutable_patches_some path warning current v (tw : CDF2ADT.TwinSide) :
  exists p tw',
    CDF2ADT.immutable_patches path warning current (Some v) tw = (Ok p, tw')
    /\ (p = [] \/ p = [mkPatch "replace" path (Some (VStr current))]).
Proof.
  unfold CDF2ADT.immutable_patches.
  destruct (String.eqb v ""); [eexists; eexists; split; [reflexivity|right; reflexivity]|].
  destruct (negb (String.eqb current v));
    eexists; eexists; (split; [reflexivity|left; reflexivity]).
Qed.

Lemma immutable_applied cm st p pth current (w : ADT2CDF.World) :
  pth = "/externalId" \/ pth = "/id" ->
  p = [] \/ p = [mkPatch "replace" pth (Some (VStr current))] ->
  exists w', ADT2CDF.apply_actions cm st p w = (Ok st, w').
Proof.
  intros Hp [->| ->].
  - exists w. reflexivity.
  - cbn [ADT2CDF.apply_actions]. rewrite bind_ret_r.
    destruct (apply_action_immutable cm st (mkPatch "replace" pth (Some (VStr current))) w)
      as [lg H].
    + exact Hp.
    + cbn [op]. intros _ E. discriminate.
    + eexists. exact H.
Qed.

Lemma name_patches_applied cm has_change record B twin (w : ADT2CDF.World) :
  dt_displayName twin = name record ->
  exists has_change' record',
    ADT2CDF.apply_actions cm (has_change, record) (CDF2ADT.name_patches B twin) w
    = (Ok (has_change', record'), w)
    /\ name record' = name B /\ description record' = description record
    /\ metadata record' = metadata record.
Proof.
  intros Hn. unfold CDF2ADT.name_patches. rewrite Hn.
  destruct (name record) as [a|] eqn:Ea.
  - destruct (opt_str_eqb (name B) (Some a)) eqn:E; cbn [negb].
    + exists has_change, record. split; [reflexivity|].
      destruct (name B) as [n|]; [|discriminate]. cbn [opt_str_eqb] in E.
      apply String.eqb_eq in E. subst n. auto.
    + cbn [ADT2CDF.apply_actions]. rewrite bind_ret_r.
      unfold ADT2CDF.apply_action. cbn [path op value].
      change (String.eqb "/displayName" "/displayName") with true.
      change (String.eqb "replace" "remove") with false. cbv iota.
      unfold ADT2CDF.item, bind, ret. rewrite Ea.
      destruct (name B) as [n|]; cbn [value_of ADT2CDF.differs ADT2CDF.as_scalar].
      * cbn [opt_str_eqb] in E. rewrite String.eqb_sym, E. cbn [negb].
        eexists. eexists. split; [reflexivity|]. auto.
      * eexists. eexists. split; [reflexivity|]. auto.
  - cbn [ADT2CDF.apply_actions]. rewrite bind_ret_r.
    unfold ADT2CDF.apply_action. cbn [path op value].
    change (String.eqb "/displayName" "/displayName") with true.
    change (String.eqb "add" "remove") with false. cbv iota.
    unfold ADT2CDF.item, bind, ret. rewrite Ea.
    destruct (name B) as [n|]; cbn [value_of ADT2CDF.differs ADT2CDF.as_scalar].
    + eexists. eexists. split; [reflexivity|]. auto.
    + exists has_change, record. split; [reflexivity|]. auto.
Qed.

Lemma description_patches_applied cm has_change record B twin (w : ADT2CDF.World) :
  dt_description twin
  = (if truthy_opt (description record) then description record else None) ->
  exists has_change' record',
    ADT2CDF.apply_actions cm (has_change, record) (CDF2ADT.description_patches B twin) w
    = (Ok (has_change', record'), w)
    /\ name record' = name record
    /\ same_description (description record') (description B)
    /\ metadata record' = metadata record.
Proof.
  intros Hd. unfold CDF2ADT.description_patches.
  assert (Hremove :
            dt_description twin <> None ->
            truthy_opt (description B) = false ->
            exists has_change' record',
              ADT2CDF.apply_actions cm (has_change, record)
                                    [mkPatch "remove" "/description" None] w
              = (Ok (has_change', record'), w)
              /\ name record' = name record
              /\ same_description (description record') (description B)
              /\ metadata record' = metadata record).
  { intros Hsome HB. cbn [ADT2CDF.apply_actions]. rewrite bind_ret_r.
    unfold ADT2CDF.apply_action. cbn [path op value].
    change (String.eqb "/description" "/displayName") with false.
    change (String.eqb "/description" "/description") with true.
    change (String.eqb "remove" "remove") with true. cbv iota.
    destruct (truthy_opt (description record)) eqn:Et; [|congruence].
    eexists. eexists. split; [reflexivity|]. split; [reflexivity|].
    split; [|reflexivity]. right. split; [reflexivity|exact HB]. }
  assert (Hnone :
            dt_description twin = None ->
            truthy_opt (description B) = false ->
            exists has_change' record',
              ADT2CDF.apply_actions cm (has_change, record) [] w
              = (Ok (has_change', record'), w)
              /\ name record' = name record
              /\ same_description (description record') (description B)
              /\ metadata record' = metadata record).
  { intros Hn HB. exists has_change, record. split; [reflexivity|].
    split; [reflexivity|]. split; [|reflexivity]. right. split; [|exact HB].
    destruct (truthy_opt (description record)) eqn:Et; [|reflexivity].
    rewrite Hn in Hd. rewrite <- Hd in Et. discriminate. }
  destruct (description B) as [d|] eqn:EB.
  - destruct (truthy d) eqn:Etd.
    + destruct (dt_description twin) as [v|] eqn:Etw.
      * assert (Hrec : description record = Some v).
        { destruct (truthy_opt (description record)); congruence. }
        destruct (String.eqb d v) eqn:Edv; cbn [negb].
        -- apply String.eqb_eq in Edv. subst v.
           exists has_change, record. split; [reflexivity|].
           split; [reflexivity|]. split; [left; congruence|reflexivity].
        -- cbn [ADT2CDF.apply_actions]. rewrite bind_ret_r.
           unfold ADT2CDF.apply_action. cbn [path op value].
           change (String.eqb "/description" "/displayName") with false.
           change (String.eqb "/description" "/description") with true.
           change (String.eqb "replace" "remove") with false. cbv iota.
           unfold ADT2CDF.item, bind, ret. rewrite Hrec.
           cbn [ADT2CDF.differs ADT2CDF.as_scalar]. rewrite String.eqb_sym, Edv. cbn [negb].
           eexists. eexists. split; [reflexivity|]. split; [reflexivity|].
           split; [left; reflexivity|reflexivity].
      * cbn [ADT2CDF.apply_actions]. rewrite bind_ret_r.
        unfold ADT2CDF.apply_action. cbn [path op value].
        change (String.eqb "/description" "/displayName") with false.
        change (String.eqb "/description" "/description") with true.
        change (String.eqb "add" "remove") with false. cbv iota.
        unfold ADT2CDF.item, bind, ret.
        destruct (description record) as [x|] eqn:Er;
          cbn [ADT2CDF.differs ADT2CDF.as_scalar].
        -- destruct (String.eqb x d) eqn:Exd; cbn [negb].
           ++ apply String.eqb_eq in Exd. subst x.
              exists has_change, record. split; [reflexivity|].
              split; [reflexivity|]. split; [left; exact Er|reflexivity].
           ++ eexists. eexists. split; [reflexivity|]. split; [reflexivity|].
              split; [left; reflexivity|reflexivity].
        -- eexists. eexists. split; [reflexivity|]. split; [reflexivity|].
           split; [left; reflexivity|reflexivity].
    + destruct (dt_description twin) as [v|] eqn:Etw.
      * apply Hremove; [discriminate|exact Etd].
      * apply Hnone; [reflexivity|exact Etd].
  - destruct (dt_description twin) as [v|] eqn:Etw.
    + apply Hremove; [discriminate|reflexivity].
    + apply Hnone; reflexivity.
Qed.

(** *** The round trip *)

(** C1 (amended).  Let [A] and [B] be two states of a node whose metadata
    are present, such that the key translation maps no two metadata keys of
    [A] to the same key and no translated key of [A] or [B] contains the
    text ['/tags/values/'].  Applying to [A] the patch computed from the
    twin-side state of [A] towards [B] succeeds and gives a node with the
    name of [B], the description of [B] up to the identification of [None]
    and [''], and metadata equal to those of [B] through the key
    translation. *)
Theorem diff_apply_round_trip (model : ADT_MODEL_IDS) (A B : Resource)
        (mA mB : dict string) (tw : CDF2ADT.TwinSide) (w : ADT2CDF.World) :
  metadata A = Some mA ->
  metadata B = Some mB ->
  collision_free CDF2ADT.convert_key mA ->
  dict_wf mB ->
  (forall r, In r (dict_keys mA ++ dict_keys mB) ->
             contains "/tags/values/" (CDF2ADT.convert_key r) = false) ->
  exists changed R mR,
    diff_then_apply model A B tw w = Ok (changed, R)
    /\ name R = name B
    /\ same_description (description R) (description B)
    /\ metadata R = Some mR
    /\ forall k, dict_get k (CDF2ADT.convert_items mR)
                 = dict_get k (CDF2ADT.convert_items mB).
Proof.
  intros HA HB Hfree Hwf Hplain.
  unfold diff_then_apply, CDF2ADT.get_twin_dict.
  rewrite HA. unfold CDF2ADT.convert_metadata. unfold bind at 1. unfold ret at 1.
  set (twin0 := mkTwin (name A) (Some (external_id A)) (Some (str_of_id (id A)))
                       (Some (model_value model))
                       (Some (Some (CDF2ADT.convert_items mA))) None).
  set (twin := if truthy_opt (description A)
               then mkTwin (dt_displayName twin0) (dt_externalId twin0) (dt_id twin0)
                           (dt_model twin0) (dt_tags twin0) (description A)
               else twin0).
  assert (Htwin : (if truthy_opt (description A)
                   then ret (mkTwin (dt_displayName twin0) (dt_externalId twin0) (dt_id twin0)
                                    (dt_model twin0) (dt_tags twin0) (description A))
                   else ret twin0) tw = (Ok twin, tw)).
  { unfold twin. destruct (truthy_opt (description A)); reflexivity. }
  rewrite Htwin. clear Htwin.
  assert (T1 : dt_displayName twin = name A)
    by (unfold twin; destruct (truthy_opt (description A)); reflexivity).
  assert (T2 : dt_externalId twin = Some (external_id A))
    by (unfold twin; destruct (truthy_opt (description A)); reflexivity).
  assert (T3 : dt_id twin = Some (str_of_id (id A)))
    by (unfold twin; destruct (truthy_opt (description A)); reflexivity).
  assert (T4 : dt_tags twin = Some (Some (CDF2ADT.convert_items mA)))
    by (unfold twin; destruct (truthy_opt (description A)); reflexivity).
  assert (T5 : dt_description twin
               = if truthy_opt (description A) then description A else None)
    by (unfold twin; destruct (truthy_opt (description A)); reflexivity).
  clearbody twin. clear twin0.
  unfold CDF2ADT.get_update_patches. rewrite T2, T3, T4, HB.
  destruct (immutable_patches_some "/externalId"
              "CDF external ID '%s' should match ADT external ID property '%s'. Not updating!"
              (external_id B) (external_id A) tw) as (p1 & tw1 & E1 & Hp1).
  unfold bind at 1. rewrite E1.
  destruct (immutable_patches_some "/id"
              "CDF internal ID '%s' should match ADT 'id' property '%s'. Not updating!"
              (str_of_id (id B)) (str_of_id (id A)) tw1) as (p2 & tw2 & E2 & Hp2).
  unfold bind at 1. rewrite E2.
  unfold CDF2ADT.convert_metadata, bind, ret.
  unfold ADT2CDF.fetch_changes_to_CDF_record. rewrite HA.
  unfold ADT2CDF.convert_metadata. unfold bind at 1. unfold ret at 1.
  cbn [update_body ADT2CDF.b_patch ADT2CDF.item]. unfold bind at 1. unfold ret at 1.
  set (cm := ADT2CDF.convert_items mA).
  rewrite apply_actions_app.
  destruct (immutable_applied cm (false, A) p1 "/externalId" (external_id B) w
                              (or_introl eq_refl) Hp1) as [w1 R1].
  unfold bind at 1. rewrite R1.
  rewrite apply_actions_app.
  destruct (immutable_applied cm (false, A) p2 "/id" (str_of_id (id B)) w1
                              (or_intror eq_refl) Hp2) as [w2 R2].
  unfold bind at 1. rewrite R2.
  rewrite apply_actions_app.
  destruct (name_patches_applied cm false A B twin w2 T1)
    as (hc3 & rec3 & R3 & N3 & D3 & M3).
  unfold bind at 1. rewrite R3.
  rewrite apply_actions_app.
  destruct (description_patches_applied cm hc3 rec3 B twin w2)
    as (hc4 & rec4 & R4 & N4 & D4 & M4).
  { rewrite T5, D3. reflexivity. }
  unfold bind at 1. rewrite R4.
  destruct (metadata_patches_applied mA mB Hfree) with
      (has_change := hc4) (record := rec4) (w := w2)
    as (hc5 & rec5 & md5 & R5 & N5 & D5 & M5 & V5).
  - intros r Hr. apply Hplain. apply in_or_app. left. exact Hr.
  - intros r Hr. apply Hplain. apply in_or_app. right. exact Hr.
  - congruence.
  - fold cm in R5. rewrite R5. cbn [fst].
    exists hc5, rec5, md5. split; [reflexivity|].
    split; [congruence|]. split; [rewrite D5; exact D4|]. split; [exact M5|exact V5].
Qed.

(** The statement on a node whose name, description and metadata all
    change. *)
Lemma diff_apply_round_trip_witness :
  exists changed R mR,
    diff_then_apply ASSET before after (idle_twin_side no_adt) (world_of empty_store)
    = Ok (changed, R)
    /\ name R = Some "Pump 1"
    /\ same_description (description R) None
    /\ metadata R = Some mR
    /\ forall k, dict_get k (CDF2ADT.convert_items mR)
                 = dict_get k [("max^flow", "12"); ("max_flow", "11")].
Proof.
  apply (diff_apply_round_trip ASSET before after
           [("max flow", "10"); ("site", "north")]
           [("max.flow", "12"); ("max flow", "11")]
           (idle_twin_side no_adt) (world_of empty_store)).
  - reflexivity.
  - reflexivity.
  - split.
    + repeat constructor; simpl; intuition discriminate.
    + intros r1 r2 H1 H2. simpl in H1, H2.
      destruct H1 as [<-|[<-|[]]]; destruct H2 as [<-|[<-|[]]];
        intros E; try reflexivity; vm_compute in E; discriminate.
  - repeat constructor; simpl; intuition discriminate.
  - intros r Hr. simpl in Hr.
    destruct Hr as [<-|[<-|[<-|[<-|[]]]]]; vm_compute; reflexivity.
Defined.

(** C1 as stated fails.  When two metadata keys of [A] are translated to the
    same key, here ['a b'] and ['a_b'], the twin-side state of [A] shows one
    of them only; the patch towards a state [B] without metadata removes
    that one, and the other stays in the record: through the key translation
    the result holds ['a_b'] and [B] does not.  And where [A] has a
    description and [B] has none, the result has the description [''], not
    [None]. *)
Lemma round_trip_fails_on_colliding_keys :
  diff_then_apply ASSET tagged untagged (idle_twin_side no_adt) (world_of empty_store)
  = Ok (true, set_metadata (Some [("a b", "1")]) tagged)
  /\ dict_get "a_b" (CDF2ADT.convert_items [("a b", "1")]) = Some "1"
  /\ dict_get "a_b" (CDF2ADT.convert_items []) = None
  /\ exists R, diff_then_apply ASSET before after (idle_twin_side no_adt) (world_of empty_store)
               = Ok (true, R)
               /\ description R = Some "" /\ description after = None.
Proof.
  split; [vm_compute; reflexivity|].
  split; [vm_compute; reflexivity|].
  split; [reflexivity|].
  eexists. split; [vm_compute; reflexivity|]. split; reflexivity.
Qed.

(* ================================================================== *)
(** ** Further properties of the two handlers *)
(* ================================================================== *)

(** *** The checkpoint store, read after write *)

Lemma find_exec_TS_stamped ext_id ts other func_runs :
  CDF2ADT.find_exec_TS other (map (stamp ext_id ts) func_runs)
  = if String.eqb other ext_id
    then match CDF2ADT.find_exec_TS other func_runs with
         | Some _ => Some ts
         | None => None
         end
    else CDF2ADT.find_exec_TS other func_runs.
Proof.
  induction func_runs as [|x rest IH]; simpl.
  - destruct (String.eqb other ext_id); reflexivity.
  - rewrite stamp_root.
    destruct (String.eqb (CDF2ADT.root_asset_ext_id x) other) eqn:Ex.
    + apply String.eqb_eq in Ex. subst other. unfold stamp.
      destruct (String.eqb (CDF2ADT.root_asset_ext_id x) ext_id); reflexivity.
    + exact IH.
Qed.

Lemma find_exec_TS_exists ext_id func_runs :
  existsb (is_for ext_id) func_runs = true <->
  CDF2ADT.find_exec_TS ext_id func_runs <> None.
Proof.
  unfold is_for. induction func_runs as [|x rest IH]; simpl.
  - split; [discriminate|congruence].
  - destruct (String.eqb (CDF2ADT.root_asset_ext_id x) ext_id); simpl.
    + split; [discriminate|reflexivity].
    + exact IH.
Qed.

Lemma find_exec_TS_app ext_id l1 l2 :
  CDF2ADT.find_exec_TS ext_id (l1 ++ l2)
  = match CDF2ADT.find_exec_TS ext_id l1 with
    | Some t => Some t
    | None => CDF2ADT.find_exec_TS ext_id l2
    end.
Proof.
  induction l1 as [|x l1 IH]; simpl; [reflexivity|].
  destruct (String.eqb (CDF2ADT.root_asset_ext_id x) ext_id); [reflexivity|exact IH].
Qed.

Lemma find_exec_TS_updated ext_id ts other func_runs :
  CDF2ADT.find_exec_TS other (updated_runs ext_id ts func_runs)
  = if String.eqb other ext_id then Some ts else CDF2ADT.find_exec_TS other func_runs.
Proof.
  unfold updated_runs. destruct (existsb (is_for ext_id) func_runs) eqn:E.
  - rewrite find_exec_TS_stamped.
    destruct (String.eqb other ext_id) eqn:Eo; [|reflexivity].
    apply String.eqb_eq in Eo. subst other.
    apply find_exec_TS_exists in E.
    destruct (CDF2ADT.find_exec_TS ext_id func_runs); [reflexivity|congruence].
  - rewrite find_exec_TS_app. simpl.
    destruct (String.eqb other ext_id) eqn:Eo.
    + apply String.eqb_eq in Eo. subst other. rewrite String.eqb_refl.
      destruct (CDF2ADT.find_exec_TS ext_id func_runs) eqn:F; [|reflexivity].
      exfalso. assert (H : existsb (is_for ext_id) func_runs = true).
      { apply find_exec_TS_exists. congruence. }
      congruence.
    + rewrite String.eqb_sym, Eo.
      destruct (CDF2ADT.find_exec_TS other func_runs); reflexivity.
Qed.

(** X1.  After [set_last_exec_TS(root, ts)], [get_last_exec_TS(root)]
    returns [ts], whatever the stored document was (missing blob, no entry
    or several entries of the root), and [get_last_exec_TS] of every other
    root returns what it returned before. *)
Theorem get_after_set_last_exec_TS (root other : string) (ts : Q) (w : CDF2ADT.World) :
  let w1 := snd (CDF2ADT.set_last_exec_TS root ts w) in
  fst (CDF2ADT.get_last_exec_TS root w1) = Ok (Some ts)
  /\ (other <> root ->
      fst (CDF2ADT.get_last_exec_TS other w1) = fst (CDF2ADT.get_last_exec_TS other w)).
Proof.
  intros w1. unfold w1. rewrite set_last_exec_TS_run. cbn [snd].
  unfold CDF2ADT.get_last_exec_TS, CDF2ADT.get_last_exec_file, bind, gets, ret.
  cbn [CDF2ADT.blob fst]. fold (stored_runs w). split.
  - rewrite find_exec_TS_updated, String.eqb_refl. reflexivity.
  - intros Hne. rewrite find_exec_TS_updated.
    apply String.eqb_neq in Hne. rewrite Hne. reflexivity.
Qed.

(** The statement on a stored document in which the root has no entry and
    another root has one. *)
Lemma get_after_set_last_exec_TS_witness :
  let w := CDF2ADT.mkWorld (idle_twin_side no_adt)
                           (Some [CDF2ADT.mkExecution "other" 3%Q]) [] in
  let w1 := snd (CDF2ADT.set_last_exec_TS "root" 10%Q w) in
  fst (CDF2ADT.get_last_exec_TS "root" w1) = Ok (Some 10%Q)
  /\ fst (CDF2ADT.get_last_exec_TS "other" w1) = Ok (Some 3%Q).
Proof.
  intros w w1.
  destruct (get_after_set_last_exec_TS "root" "other" 10%Q w) as [H1 H2].
  split; [exact H1|]. fold w1 in H2. rewrite H2; [reflexivity|discriminate].
Defined.

(** *** What the translations leave behind *)

Lemma convert_key_clean (k : string) (c : ascii) :
  In c [" "%char; "."%char; "$"%char] -> occurs c (CDF2ADT.convert_key k) = false.
Proof.
  intros Hc. unfold CDF2ADT.convert_key. simpl in Hc.
  destruct Hc as [<-|[<-|[<-|[]]]].
  - apply occurs_replace_char; [reflexivity|right].
    apply occurs_replace_char; [reflexivity|right].
    apply occurs_replace_char; [reflexivity|left; reflexivity].
  - apply occurs_replace_char; [reflexivity|right].
    apply occurs_replace_char; [reflexivity|left; reflexivity].
  - apply occurs_replace_char; [reflexivity|left; reflexivity].
Qed.

Lemma convert_ext_id_clean (s : string) (c : ascii) :
  In c [":"%char; " "%char; "&"%char] -> occurs c (CDF2ADT.convert_ext_id s) = false.
Proof.
  intros Hc. unfold CDF2ADT.convert_ext_id.
  destruct (truthy s) eqn:Hs.
  - simpl in Hc. destruct Hc as [<-|[<-|[<-|[]]]].
    + apply occurs_replace_char; [reflexivity|right].
      apply occurs_replace_char; [reflexivity|right].
      apply occurs_replace_char; [reflexivity|left; reflexivity].
    + apply occurs_replace_char; [reflexivity|right].
      apply occurs_replace_char; [reflexivity|left; reflexivity].
    + apply occurs_replace_char; [reflexivity|left; reflexivity].
  - unfold truthy in Hs. apply negb_false_iff in Hs. apply String.eqb_eq in Hs.
    subst s. reflexivity.
Qed.

(** X2.  A translated identifier contains no colon, space or ampersand,
    and no key of a translated metadata dictionary, in either handler,
    contains a space, a dot or a dollar sign. *)
Theorem translations_leave_no_reserved_character :
  (forall s c, In c [":"%char; " "%char; "&"%char] ->
               occurs c (CDF2ADT.convert_ext_id s) = false)
  /\ (forall m k c, In k (dict_keys (CDF2ADT.convert_items m)) ->
                    In c [" "%char; "."%char; "$"%char] -> occurs c k = false)
  /\ (forall m k c, In k (dict_keys (ADT2CDF.convert_items m)) ->
                    In c [" "%char; "."%char; "$"%char] -> occurs c k = false).
Proof.
  split; [exact convert_ext_id_clean|]. split.
  - intros m k c Hk Hc.
    apply (converted_keys CDF2ADT.convert_key snd k m []) in Hk.
    destruct Hk as [(r & _ & <-)|[]]. apply convert_key_clean. exact Hc.
  - intros m k c Hk Hc.
    apply (converted_keys ADT2CDF.convert_key
             (fun kv => ADT2CDF.mkMetadataConversion (snd kv) (fst kv)) k m []) in Hk.
    destruct Hk as [(r & _ & <-)|[]]. apply (convert_key_clean r). exact Hc.
Qed.

Lemma translations_leave_no_reserved_character_witness :
  occurs " " (CDF2ADT.convert_ext_id "pump 1:a&b") = false
  /\ occurs "$" "max^flow_#" = false.
Proof.
  destruct translations_leave_no_reserved_character as (H1 & H2 & _). split.
  - apply H1. simpl. auto.
  - apply (H2 [("max.flow $", "1")] "max^flow_#").
    + simpl. left. reflexivity.
    + simpl. auto.
Defined.

(** *** What a translated dictionary holds *)



(** *** The patch computed for a twin *)

Lemma str_of_int_nonempty (n : Z) : str_of_int n <> "".
Proof.
  unfold str_of_int, NilZero.string_of_int.
  destruct (Z.to_int n) as [d|d]; [|discriminate].
  unfold NilZero.string_of_uint. destruct d; discriminate.
Qed.

Lemma str_of_id_nonempty (i : option Z) : str_of_id i <> "".
Proof.
  destruct i as [n|]; [apply str_of_int_nonempty|discriminate].
Qed.

Lemma dict_eqb_refl (d : dict string) : dict_wf d -> dict_eqb String.eqb d d = true.
Proof.
  intros Hwf. unfold dict_eqb. rewrite Nat.eqb_refl. simpl.
  apply forallb_forall. intros [k v] Hin. simpl.
  apply (dict_get_In k v d Hwf) in Hin. rewrite Hin. apply String.eqb_refl.
Qed.

(** The twin side after one more log record. *)
Lemma immutable_patches_run path warning current twin_value (tw : CDF2ADT.TwinSide) :
  CDF2ADT.immutable_patches path warning current twin_value tw
  = match twin_value with
    | None => (Ok [mkPatch "add" path (Some (VStr current))], tw)
    | Some v =>
        if String.eqb v ""
        then (Ok [mkPatch "replace" path (Some (VStr current))], tw)
        else if negb (String.eqb current v)
             then (Ok [], CDF2ADT.mkTwinSide (CDF2ADT.adt tw) (CDF2ADT.issued tw)
                                             (CDF2ADT.now tw)
                                             (CDF2ADT.logs tw ++ [(WARNING, warning)]))
             else (Ok [], tw)
    end.
Proof.
  unfold CDF2ADT.immutable_patches.
  destruct twin_value as [v|]; [|reflexivity].
  destruct (String.eqb v ""); [reflexivity|].
  destruct (negb (String.eqb current v)); reflexivity.
Qed.

(** X4.  A twin built by [get_twin_dict] from a resource needs no update
    against that same resource: for a resource with a metadata dictionary,
    a name and a non-empty external id, [get_update_patches] returns the
    empty patch and logs nothing. *)
Theorem fresh_twin_needs_no_patch (model : ADT_MODEL_IDS) (A : Resource)
        (mA : dict string) (n : string) (tw : CDF2ADT.TwinSide) :
  metadata A = Some mA ->
  name A = Some n ->
  external_id A <> "" ->
  exists twin,
    CDF2ADT.get_twin_dict A model tw = (Ok twin, tw)
    /\ CDF2ADT.get_update_patches A twin tw = (Ok [], tw).
Proof.
  intros Hm Hn He.
  assert (Hwf : dict_wf (CDF2ADT.convert_items mA)).
  { apply (converted_wf CDF2ADT.convert_key snd mA []). constructor. }
  assert (P1 : forall warning,
             CDF2ADT.immutable_patches "/externalId" warning (external_id A)
                                       (Some (external_id A)) tw = (Ok [], tw)).
  { intros warning. rewrite immutable_patches_run.
    apply String.eqb_neq in He. rewrite He, String.eqb_refl. reflexivity. }
  assert (P2 : forall warning,
             CDF2ADT.immutable_patches "/id" warning (str_of_id (id A))
                                       (Some (str_of_id (id A))) tw = (Ok [], tw)).
  { intros warning. rewrite immutable_patches_run.
    pose proof (str_of_id_nonempty (id A)) as Hi.
    apply String.eqb_neq in Hi. rewrite Hi, String.eqb_refl. reflexivity. }
  unfold CDF2ADT.get_twin_dict, CDF2ADT.convert_metadata. rewrite Hm.
  unfold bind at 1. unfold ret at 1.
  destruct (truthy_opt (description A)) eqn:Hd.
  - eexists. split; [reflexivity|].
    unfold CDF2ADT.get_update_patches.
    cbn [dt_displayName dt_externalId dt_id dt_model dt_tags dt_description].
    unfold bind at 1. rewrite P1. unfold bind at 1. rewrite P2.
    unfold CDF2ADT.convert_metadata. rewrite Hm. unfold bind, ret.
    unfold CDF2ADT.name_patches. cbn [dt_displayName]. rewrite Hn. simpl opt_str_eqb.
    rewrite String.eqb_refl. cbn [negb].
    unfold CDF2ADT.description_patches. cbn [dt_description].
    destruct (description A) as [d|]; [|discriminate]. simpl in Hd. rewrite Hd.
    rewrite String.eqb_refl. cbn [negb].
    unfold CDF2ADT.metadata_patches. rewrite (dict_eqb_refl _ Hwf). reflexivity.
  - eexists. split; [reflexivity|].
    unfold CDF2ADT.get_update_patches.
    cbn [dt_displayName dt_externalId dt_id dt_model dt_tags dt_description].
    unfold bind at 1. rewrite P1. unfold bind at 1. rewrite P2.
    unfold CDF2ADT.convert_metadata. rewrite Hm. unfold bind, ret.
    unfold CDF2ADT.name_patches. cbn [dt_displayName]. rewrite Hn. simpl opt_str_eqb.
    rewrite String.eqb_refl. cbn [negb].
    unfold CDF2ADT.description_patches. cbn [dt_description].
    unfold CDF2ADT.metadata_patches. rewrite (dict_eqb_refl _ Hwf).
    destruct (description A) as [d|]; [|reflexivity]. simpl in Hd. rewrite Hd.
    reflexivity.
Qed.

Lemma fresh_twin_needs_no_patch_witness :
  exists twin,
    CDF2ADT.get_twin_dict before ASSET (idle_twin_side no_adt)
    = (Ok twin, idle_twin_side no_adt)
    /\ CDF2ADT.get_update_patches before twin (idle_twin_side no_adt)
       = (Ok [], idle_twin_side no_adt).
Proof.
  apply (fresh_twin_needs_no_patch ASSET before
           [("max flow", "10"); ("site", "north")] "Pump1" (idle_twin_side no_adt)).
  - reflexivity.
  - reflexivity.
  - discriminate.
Defined.

Lemma metadata_patches_paths (meta values : dict string) (a : Patch) :
  In a (CDF2ADT.metadata_patches meta values) ->
  exists k, path a = ("/tags/values/" ++ k)%string.
Proof.
  unfold CDF2ADT.metadata_patches.
  destruct (negb (dict_eqb String.eqb meta values)); [|intros []].
  intros H. apply in_app_or in H. destruct H as [H|H];
    apply in_flat_map in H; destruct H as ([k v] & _ & H); cbn [fst snd] in H.
  - destruct (dict_get k values) as [v'|].
    + destruct (negb (String.eqb v v')); [|destruct H].
      destruct H as [<-|[]]. exists k. reflexivity.
    + destruct H as [<-|[]]. exists k. reflexivity.
  - destruct (negb (dict_mem k meta)); [|destruct H].
    destruct H as [<-|[]]. exists k. reflexivity.
Qed.

Lemma name_patches_paths resource digital_twin (a : Patch) :
  In a (CDF2ADT.name_patches resource digital_twin) -> path a = "/displayName".
Proof.
  unfold CDF2ADT.name_patches. destruct (dt_displayName digital_twin) as [v|].
  - destruct (negb (opt_str_eqb (name resource) (Some v))); [|intros []].
    intros [<-|[]]. reflexivity.
  - intros [<-|[]]. reflexivity.
Qed.

Lemma description_patches_paths resource digital_twin (a : Patch) :
  In a (CDF2ADT.description_patches resource digital_twin) -> path a = "/description".
Proof.
  unfold CDF2ADT.description_patches.
  destruct (description resource) as [d|]; [destruct (truthy d)|];
    destruct (dt_description digital_twin) as [v|];
    try (destruct (negb (String.eqb d v)));
    intros H; try destruct H as [<-|[]]; try destruct H; reflexivity.
Qed.

(** X5.  The external id and the internal id of a twin are never
    rewritten: when the twin holds non-empty values for both,
    [get_update_patches] returns a patch without any operation on
    ['/externalId'] or ['/id'], sends no query, and logs one warning for
    each of the two that differs from the resource. *)
Theorem immutable_ids_never_patched (resource : Resource) (digital_twin : DigitalTwin)
        (e i : string) (tw tw' : CDF2ADT.TwinSide) (p : list Patch) :
  dt_externalId digital_twin = Some e -> e <> "" ->
  dt_id digital_twin = Some i -> i <> "" ->
  CDF2ADT.get_update_patches resource digital_twin tw = (Ok p, tw') ->
  (forall a, In a p -> path a <> "/externalId" /\ path a <> "/id")
  /\ CDF2ADT.issued tw' = CDF2ADT.issued tw
  /\ CDF2ADT.logs tw'
     = CDF2ADT.logs tw
       ++ (if String.eqb (external_id resource) e then []
           else [(WARNING, "CDF external ID '%s' should match ADT external ID property '%s'. Not updating!")])
       ++ (if String.eqb (str_of_id (id resource)) i then []
           else [(WARNING, "CDF internal ID '%s' should match ADT 'id' property '%s'. Not updating!")]).
Proof.
  intros He He0 Hi Hi0 H.
  unfold CDF2ADT.get_update_patches in H. rewrite He, Hi in H.
  apply String.eqb_neq in He0. apply String.eqb_neq in Hi0.
  unfold bind at 1 in H. rewrite immutable_patches_run, He0 in H.
  assert (G : forall tw1 p1,
             (let (r, s) :=
                CDF2ADT.immutable_patches "/id"
                  "CDF internal ID '%s' should match ADT 'id' property '%s'. Not updating!"
                  (str_of_id (id resource)) (Some i) tw1 in
              match r with
              | Ok p2 =>
                  match dt_tags digital_twin with
                  | None => raise (KeyError "tags")
                  | Some tags =>
                      bind (CDF2ADT.convert_metadata (metadata resource))
                           (fun meta =>
                              ret (p1 ++ p2 ++ CDF2ADT.name_patches resource digital_twin
                                      ++ CDF2ADT.description_patches resource digital_twin
                                      ++ CDF2ADT.metadata_patches meta
                                           match tags with Some v => v | None => [] end))
                  end s
              | Raise ex => (Raise ex, s)
              | Diverge => (Diverge, s)
              end) = (Ok p, tw') ->
             p1 = [] ->
             (forall a, In a p -> path a <> "/externalId" /\ path a <> "/id")
             /\ CDF2ADT.issued tw' = CDF2ADT.issued tw1
             /\ CDF2ADT.logs tw'
                = CDF2ADT.logs tw1
                  ++ (if String.eqb (str_of_id (id resource)) i then []
                      else [(WARNING, "CDF internal ID '%s' should match ADT 'id' property '%s'. Not updating!")])).
  { intros tw1 p1 H1 ->. rewrite immutable_patches_run, Hi0 in H1.
    assert (K : forall tw2,
               match dt_tags digital_twin with
               | None => raise (KeyError "tags")
               | Some tags =>
                   bind (CDF2ADT.convert_metadata (metadata resource))
                        (fun meta =>
                           ret ([] ++ [] ++ CDF2ADT.name_patches resource digital_twin
                                   ++ CDF2ADT.description_patches resource digital_twin
                                   ++ CDF2ADT.metadata_patches meta
                                        match tags with Some v => v | None => [] end))
               end tw2 = (Ok p, tw') ->
               (forall a, In a p -> path a <> "/externalId" /\ path a <> "/id")
               /\ tw' = tw2).
    { intros tw2 H2. destruct (dt_tags digital_twin) as [tags|]; [|discriminate].
      unfold CDF2ADT.convert_metadata in H2.
      destruct (metadata resource) as [m|]; [|discriminate].
      unfold bind, ret in H2. inversion H2; subst. split; [|reflexivity].
      intros a Ha. simpl in Ha.
      apply in_app_or in Ha. destruct Ha as [Ha|Ha].
      { apply name_patches_paths in Ha. rewrite Ha. split; discriminate. }
      apply in_app_or in Ha. destruct Ha as [Ha|Ha].
      { apply description_patches_paths in Ha. rewrite Ha. split; discriminate. }
      apply metadata_patches_paths in Ha. destruct Ha as [k ->].
      split; discriminate. }
    destruct (String.eqb (str_of_id (id resource)) i); cbn [negb] in H1;
      apply K in H1; destruct H1 as [Hp ->]; (split; [exact Hp|]);
      cbn [CDF2ADT.issued CDF2ADT.logs]; split; try reflexivity.
    rewrite app_nil_r. reflexivity. }
  destruct (String.eqb (external_id resource) e); cbn [negb] in H.
  - apply G in H; [|reflexivity]. exact H.
  - apply G in H; [|reflexivity]. cbn [CDF2ADT.issued CDF2ADT.logs] in H.
    destruct H as (Hp & Hq & Hl). split; [exact Hp|]. split; [exact Hq|].
    rewrite Hl, <- app_assoc. reflexivity.
Qed.

Lemma immutable_ids_never_patched_witness :
  exists p tw',
    CDF2ADT.get_update_patches after (mkTwin (Some "Pump1") (Some "A9") (Some "7") None
                                             (Some None) None)
                               (idle_twin_side no_adt) = (Ok p, tw')
    /\ (forall a, In a p -> path a <> "/externalId" /\ path a <> "/id")
    /\ CDF2ADT.logs tw'
       = [(WARNING, "CDF external ID '%s' should match ADT external ID property '%s'. Not updating!")].
Proof.
  eexists. eexists. split; [reflexivity|].
  match goal with |- (forall a, In a ?p -> _) /\ CDF2ADT.logs ?t = _ =>
    destruct (immutable_ids_never_patched after
                (mkTwin (Some "Pump1") (Some "A9") (Some "7") None (Some None) None)
                "A9" "7" (idle_twin_side no_adt) t p) as (H1 & _ & H2)
  end; try reflexivity; try discriminate.
  split; [exact H1|exact H2].
Defined.

(** A twin without its ['tags'] component makes [get_update_patches]
    raise [KeyError]; a resource without a metadata dictionary makes both
    [get_twin_dict] and (for a twin that has ['tags'])
    [get_update_patches] raise [TypeError]. *)
Theorem missing_tags_and_metadata_raise (resource : Resource) (digital_twin : DigitalTwin)
        (model : ADT_MODEL_IDS) (tw : CDF2ADT.TwinSide) :
  (dt_tags digital_twin = None ->
   fst (CDF2ADT.get_update_patches resource digital_twin tw) = Raise (KeyError "tags"))
  /\ (metadata resource = None ->
      dt_tags digital_twin <> None ->
      fst (CDF2ADT.get_update_patches resource digital_twin tw) = Raise TypeError)
  /\ (metadata resource = None ->
      CDF2ADT.get_twin_dict resource model tw = (Raise TypeError, tw)).
Proof.
  assert (G : forall path warning current tv (t : CDF2ADT.TwinSide),
             exists p t', CDF2ADT.immutable_patches path warning current tv t = (Ok p, t')).
  { intros pth warning current tv t. rewrite immutable_patches_run.
    destruct tv as [v|]; [|eexists; eexists; reflexivity].
    destruct (String.eqb v ""); [eexists; eexists; reflexivity|].
    destruct (negb (String.eqb current v)); eexists; eexists; reflexivity. }
  split; [|split].
  - intros Ht. unfold CDF2ADT.get_update_patches. rewrite Ht.
    unfold bind at 1.
    match goal with |- context [CDF2ADT.immutable_patches ?a ?b ?c ?d ?t] =>
      destruct (G a b c d t) as (p1 & t1 & ->) end.
    unfold bind at 1.
    match goal with |- context [CDF2ADT.immutable_patches ?a ?b ?c ?d ?t] =>
      destruct (G a b c d t) as (p2 & t2 & ->) end.
    reflexivity.
  - intros Hm Ht. unfold CDF2ADT.get_update_patches. rewrite Hm.
    unfold bind at 1.
    match goal with |- context [CDF2ADT.immutable_patches ?a ?b ?c ?d ?t] =>
      destruct (G a b c d t) as (p1 & t1 & ->) end.
    unfold bind at 1.
    match goal with |- context [CDF2ADT.immutable_patches ?a ?b ?c ?d ?t] =>
      destruct (G a b c d t) as (p2 & t2 & ->) end.
    destruct (dt_tags digital_twin); [reflexivity|congruence].
  - intros Hm. unfold CDF2ADT.get_twin_dict. rewrite Hm. reflexivity.
Qed.

Lemma missing_tags_and_metadata_raise_witness :
  fst (CDF2ADT.get_update_patches before (mkTwin (Some "Pump1") (Some "A1") (Some "7") None
                                                 None None)
                                  (idle_twin_side no_adt)) = Raise (KeyError "tags")
  /\ CDF2ADT.get_twin_dict (set_metadata None before) ASSET (idle_twin_side no_adt)
     = (Raise TypeError, idle_twin_side no_adt).
Proof.
  split.
  - apply (missing_tags_and_metadata_raise before
             (mkTwin (Some "Pump1") (Some "A1") (Some "7") None None None)
             ASSET (idle_twin_side no_adt)).
    reflexivity.
  - apply (missing_tags_and_metadata_raise (set_metadata None before)
             (mkTwin (Some "Pump1") (Some "A1") (Some "7") None None None)
             ASSET (idle_twin_side no_adt)).
    reflexivity.
Defined.

(** *** What applying a patch can and cannot change *)

Lemma same_identity_refl r : same_identity r r.
Proof. repeat split. Qed.

Lemma same_identity_trans r1 r2 r3 :
  same_identity r1 r2 -> same_identity r2 r3 -> same_identity r1 r3.
Proof.
  unfold same_identity. intros (A1 & A2 & A3 & A4 & A5 & A6) (B1 & B2 & B3 & B4 & B5 & B6).
  repeat split; congruence.
Qed.

Lemma same_graph_refl w : same_graph w w.
Proof. split; reflexivity. Qed.

Lemma same_graph_trans w1 w2 w3 : same_graph w1 w2 -> same_graph w2 w3 -> same_graph w1 w3.
Proof. unfold same_graph. intros [A B] [C D]. split; congruence. Qed.

Lemma step_kept_then st st1 res :
  step_kept st (Ok st1) -> step_kept st1 res -> step_kept st res.
Proof.
  destruct res as [st2| |]; simpl; auto.
  intros [A B] [C D]. split.
  - destruct C as [C|C]; [left; exact C|]. subst st2. exact A.
  - eapply same_identity_trans; eassumption.
Qed.

Lemma step_kept_same st : step_kept st (Ok st).
Proof. split; [right; reflexivity|apply same_identity_refl]. Qed.

Lemma step_kept_raised (st : bool * Resource) r :
  same_identity (snd st) r -> step_kept st (Ok (true, r)).
Proof. intros H. split; [left; reflexivity|exact H]. Qed.

Lemma check_value_kept (hc : bool) (r : Resource) cm k v (w w' : ADT2CDF.World) res :
  ADT2CDF.check_value_change_and_update_record hc r cm k v w = (res, w') ->
  w' = w /\ step_kept (hc, r) res.
Proof.
  unfold ADT2CDF.check_value_change_and_update_record, ADT2CDF.as_str,
    ADT2CDF.metadata_setitem, bind, ret, raise.
  intros H.
  destruct (dict_get k cm) as [c|];
    [destruct (ADT2CDF.differs (Some (ADT2CDF.mc_value c)) v)|];
    destruct v; destruct (metadata r);
    inversion H; subst; (split; [reflexivity|]);
    try exact I; try apply step_kept_same; apply step_kept_raised; repeat split.
Qed.

Lemma apply_action_kept cm (st : bool * Resource) (a : Patch) (w w' : ADT2CDF.World) res :
  ADT2CDF.apply_action cm st a w = (res, w') ->
  same_graph w w' /\ step_kept st res.
Proof.
  destruct st as [hc r]. unfold ADT2CDF.apply_action.
  destruct (String.eqb (path a) "/displayName").
  { unfold ADT2CDF.item, ADT2CDF.as_scalar, bind, ret, raise.
    destruct (String.eqb (op a) "remove").
    - intros H; inversion H; subst. split; [apply same_graph_refl|apply step_kept_same].
    - destruct (value a) as [v|].
      + destruct (ADT2CDF.differs (name r) v); [destruct v|];
          intros H; inversion H; subst; (split; [apply same_graph_refl|]);
          try exact I; try apply step_kept_same; apply step_kept_raised; repeat split.
      + intros H; inversion H; subst. split; [apply same_graph_refl|exact I]. }
  destruct (String.eqb (path a) "/description").
  { unfold ADT2CDF.item, ADT2CDF.as_scalar, bind, ret, raise.
    destruct (String.eqb (op a) "remove").
    - destruct (truthy_opt (description r));
        intros H; inversion H; subst; (split; [apply same_graph_refl|]);
        try apply step_kept_same; apply step_kept_raised; repeat split.
    - destruct (value a) as [v|].
      + destruct (ADT2CDF.differs (description r) v); [destruct v|];
          intros H; inversion H; subst; (split; [apply same_graph_refl|]);
          try exact I; try apply step_kept_same; apply step_kept_raised; repeat split.
      + intros H; inversion H; subst. split; [apply same_graph_refl|exact I]. }
  destruct (String.eqb (path a) "/externalId").
  { unfold ADT2CDF.item, ADT2CDF.as_str, ADT2CDF.has_asset_in_CDF_by_external_id,
      ADT2CDF.assets_retrieve, ADT2CDF.log, bind, ret, raise, gets, modify.
    destruct (String.eqb (op a) "add").
    - destruct (value a) as [[|s|d]|];
        try (intros H; inversion H; subst; split; [apply same_graph_refl|exact I]).
      destruct (find (ADT2CDF.has_ext s) (ADT2CDF.assets (ADT2CDF.cdf w)));
        intros H; inversion H; subst;
        (split; [split; reflexivity|apply step_kept_same]).
    - intros H; inversion H; subst. split; [split; reflexivity|apply step_kept_same]. }
  destruct (String.eqb (path a) "/id").
  { unfold ADT2CDF.log, bind, ret, modify.
    destruct (negb (String.eqb (op a) "add"));
      intros H; inversion H; subst; (split; [split; reflexivity|apply step_kept_same]). }
  destruct (String.eqb (path a) "/tags/values").
  { unfold ADT2CDF.item, ADT2CDF.as_map, ADT2CDF.log, bind, ret, raise, modify.
    destruct (String.eqb (op a) "add"); destruct (String.eqb (op a) "remove");
      destruct cm as [|c0 cm0]; try destruct (value a) as [[|s|d]|];
      intros H; inversion H; subst; (split; [split; reflexivity|]);
      try exact I; try apply step_kept_same; apply step_kept_raised; repeat split. }
  destruct (startswith (path a) "/tags/values/").
  2: { intros H; inversion H; subst. split; [apply same_graph_refl|apply step_kept_same]. }
  set (k := str_replace (path a) "/tags/values/" "").
  intros H.
  assert (S1 : forall (c : bool) (s0 : bool * Resource) (w0 : ADT2CDF.World) res0 w1,
             (if c
              then bind (ADT2CDF.item "value" (value a))
                        (fun v => ADT2CDF.check_value_change_and_update_record
                                    (fst s0) (snd s0) cm k v)
              else ret s0) w0 = (res0, w1) ->
             w1 = w0 /\ step_kept s0 res0).
  { intros c s0 w0 res0 w1. destruct c.
    - unfold ADT2CDF.item, bind, raise. destruct (value a) as [v|].
      + unfold ret at 1. intros E. apply check_value_kept in E.
        destruct s0; exact E.
      + intros E; inversion E; subst. split; [reflexivity|exact I].
    - intros E; inversion E; subst. split; [reflexivity|apply step_kept_same]. }
  unfold bind at 1 in H.
  destruct ((if String.eqb (op a) "replace"
             then bind (ADT2CDF.item "value" (value a))
                       (fun v => ADT2CDF.check_value_change_and_update_record hc r cm k v)
             else ret (hc, r)) w) as [res1 w1] eqn:E1.
  apply (S1 _ (hc, r)) in E1. destruct E1 as [-> K1].
  destruct res1 as [st1|e|];
    try (inversion H; subst; split; [apply same_graph_refl|exact I]).
  unfold bind at 1 in H.
  destruct ((if String.eqb (op a) "add"
             then bind (ADT2CDF.item "value" (value a))
                       (fun v => ADT2CDF.check_value_change_and_update_record
                                   (fst st1) (snd st1) cm k v)
             else ret st1) w) as [res2 w2] eqn:E2.
  apply S1 in E2. destruct E2 as [-> K2].
  destruct res2 as [st2|e|];
    try (inversion H; subst; split; [apply same_graph_refl|exact I]).
  assert (K12 : step_kept (hc, r) (Ok st2)) by (eapply step_kept_then; eassumption).
  split.
  - destruct (String.eqb (op a) "remove"); [destruct (dict_get k cm) as [c|]|];
      unfold ADT2CDF.metadata_delitem, bind, ret, raise in H;
      try destruct (metadata (snd st2)) as [d|]; try destruct (dict_mem (ADT2CDF.mc_key c) d);
      inversion H; subst; apply same_graph_refl.
  - eapply step_kept_then; [exact K12|].
    destruct (String.eqb (op a) "remove"); [destruct (dict_get k cm) as [c|]|];
      unfold ADT2CDF.metadata_delitem, bind, ret, raise in H;
      try destruct (metadata (snd st2)) as [d|]; try destruct (dict_mem (ADT2CDF.mc_key c) d);
      inversion H; subst; try exact I; try apply step_kept_same;
      apply step_kept_raised; repeat split.
Qed.

Lemma apply_actions_kept cm (patch : list Patch) :
  forall (st : bool * Resource) (w w' : ADT2CDF.World) res,
    ADT2CDF.apply_actions cm st patch w = (res, w') ->
    same_graph w w' /\ step_kept st res.
Proof.
  induction patch as [|a rest IH]; intros st w w' res H.
  - inversion H; subst. split; [apply same_graph_refl|apply step_kept_same].
  - cbn [ADT2CDF.apply_actions] in H. unfold bind in H.
    destruct (ADT2CDF.apply_action cm st a w) as [r1 w1] eqn:E1.
    apply apply_action_kept in E1. destruct E1 as [G1 K1].
    destruct r1 as [st1|e|];
      try (inversion H; subst; split; [exact G1|exact I]).
    apply IH in H. destruct H as [G2 K2]. split.
    + eapply same_graph_trans; eassumption.
    + eapply step_kept_then; eassumption.
Qed.

Lemma fetch_changes_kept (record : Resource) (event_body : ADT2CDF.Body)
      (w w' : ADT2CDF.World) res :
  ADT2CDF.fetch_changes_to_CDF_record record event_body w = (res, w') ->
  same_graph w w' /\ step_kept (false, record) res.
Proof.
  unfold ADT2CDF.fetch_changes_to_CDF_record, ADT2CDF.convert_metadata, ADT2CDF.item.
  destruct (metadata record) as [m|].
  2: { intros H; inversion H; subst. split; [apply same_graph_refl|exact I]. }
  destruct (ADT2CDF.b_patch event_body) as [patch|].
  2: { intros H; inversion H; subst. split; [apply same_graph_refl|exact I]. }
  unfold bind, ret. apply apply_actions_kept.
Qed.

(** X6.  When [fetch_changes_to_CDF_record] returns the flag [False], the
    record it returns is the record it was given: skipping the update call
    on a false flag loses no change. *)
Theorem unchanged_flag_means_unchanged_record (record record' : Resource)
        (event_body : ADT2CDF.Body) (w w' : ADT2CDF.World) :
  ADT2CDF.fetch_changes_to_CDF_record record event_body w = (Ok (false, record'), w') ->
  record' = record.
Proof.
  intros H. apply fetch_changes_kept in H. destruct H as [_ [[H|H] _]].
  - discriminate.
  - inversion H. reflexivity.
Qed.

Lemma unchanged_flag_means_unchanged_record_witness :
  exists record',
    ADT2CDF.fetch_changes_to_CDF_record
      pump (update_body [mkPatch "replace" "/displayName" (Some (VStr "Pump1"));
                         mkPatch "remove" "/description" None])
      (world_of empty_store)
    = (Ok (false, record'), world_of empty_store)
    /\ record' = pump.
Proof.
  eexists. split; [reflexivity|].
  apply (unchanged_flag_means_unchanged_record
           pump _ (update_body [mkPatch "replace" "/displayName" (Some (VStr "Pump1"));
                                mkPatch "remove" "/description" None])
           (world_of empty_store) (world_of empty_store)).
  reflexivity.
Defined.

(** X7.  [fetch_changes_to_CDF_record] changes the record in memory only:
    whatever the patch and however the call ends, the asset graph is as it
    was and no call on it was made; and the record it returns has the
    external id, internal id, parent, linked asset, string flag and update
    time of the record it was given. *)
Theorem fetch_changes_frame (record : Resource) (event_body : ADT2CDF.Body)
        (w w' : ADT2CDF.World) (res : result (bool * Resource)) :
  ADT2CDF.fetch_changes_to_CDF_record record event_body w = (res, w') ->
  ADT2CDF.cdf w' = ADT2CDF.cdf w
  /\ ADT2CDF.calls w' = ADT2CDF.calls w
  /\ forall has_change record', res = Ok (has_change, record') ->
       external_id record' = external_id record
       /\ id record' = id record
       /\ parent_external_id record' = parent_external_id record
       /\ asset_id record' = asset_id record
       /\ is_string record' = is_string record
       /\ last_updated_time record' = last_updated_time record.
Proof.
  intros H. apply fetch_changes_kept in H. destruct H as [[G1 G2] K].
  split; [exact G1|]. split; [exact G2|].
  intros hc r' ->. destruct K as [_ K]. exact K.
Qed.

Lemma fetch_changes_frame_witness :
  let run := ADT2CDF.fetch_changes_to_CDF_record
               pump (update_body [mkPatch "replace" "/displayName" (Some (VStr "Pump 2"));
                                  mkPatch "add" "/tags/values/site" (Some (VStr "north"));
                                  mkPatch "replace" "/externalId" (Some (VStr "B7"))])
               (world_of (store_with pump)) in
  fst run = Ok (true, set_metadata (Some [("site", "north")]) (set_name (Some "Pump 2") pump))
  /\ ADT2CDF.cdf (snd run) = store_with pump
  /\ ADT2CDF.calls (snd run) = [].
Proof.
  intros run. split; [reflexivity|].
  destruct (fetch_changes_frame
              pump (update_body [mkPatch "replace" "/displayName" (Some (VStr "Pump 2"));
                                 mkPatch "add" "/tags/values/site" (Some (VStr "north"));
                                 mkPatch "replace" "/externalId" (Some (VStr "B7"))])
              (world_of (store_with pump)) (snd run) (fst run)) as (H1 & H2 & _).
  - reflexivity.
  - split; [exact H1|exact H2].
Defined.

(** *** Updating an asset *)

Lemma find_some_in {A} (f : A -> bool) (l : list A) (a : A) :
  find f l = Some a -> In a l.
Proof.
  intros H. apply find_some in H. apply H.
Qed.

(** The part of [update_asset] that follows the retrieval of the asset. *)
Lemma update_resolved_run (a : Resource) (event_body : ADT2CDF.Body)
      (w w' : ADT2CDF.World) (res : result bool) :
  try_except
    (bind (ADT2CDF.fetch_changes_to_CDF_record a event_body)
          (fun st =>
             bind (if fst st
                   then ADT2CDF.assets_update (snd st)
                   else ADT2CDF.log WARNING "Nothing to update! The asset '%s' is already up to date!")
                  (fun _ => ret true)))
    (fun e => match e with
              | KeyError _ =>
                  Some (bind (ADT2CDF.log ERROR "KeyError in update_asset %s !")
                             (fun _ => ret false))
              | _ => None
              end) w = (res, w') ->
  same_graph w w'
  \/ exists r',
       same_identity a r' /\ res = Ok true
       /\ ADT2CDF.calls w' = ADT2CDF.calls w ++ [ADT2CDF.AssetsUpdate r']
       /\ ADT2CDF.cdf w'
          = ADT2CDF.mkStore
              (map (fun x => if ADT2CDF.opt_Z_eqb (id x) (id a) then r' else x)
                   (ADT2CDF.assets (ADT2CDF.cdf w)))
              (ADT2CDF.time_series (ADT2CDF.cdf w)) (ADT2CDF.datapoints (ADT2CDF.cdf w))
              (ADT2CDF.relationships (ADT2CDF.cdf w))
              (ADT2CDF.label_definitions (ADT2CDF.cdf w)).
Proof.
  unfold try_except. unfold bind at 1.
  destruct (ADT2CDF.fetch_changes_to_CDF_record a event_body w) as [r1 w1] eqn:F.
  apply fetch_changes_kept in F. destruct F as [[G1 G2] K].
  destruct r1 as [[hc r']|e|].
  - destruct K as [_ K]. cbn [fst snd] in *. destruct hc.
    + unfold ADT2CDF.assets_update, ADT2CDF.mutate, bind, modify, ret.
      intros H; inversion H; subst. right. exists r'.
      split; [exact K|]. split; [reflexivity|].
      cbn [ADT2CDF.calls ADT2CDF.cdf]. rewrite G1, G2.
      destruct K as (_ & Hid & _). rewrite Hid. split; reflexivity.
    + unfold ADT2CDF.log, bind, modify, ret.
      intros H; inversion H; subst. left. split; assumption.
  - destruct e; unfold ADT2CDF.log, bind, modify, ret;
      intros H; inversion H; subst; left; split; assumption.
  - intros H; inversion H; subst. left. split; assumption.
Qed.

(** X8.  [update_asset] makes at most one write on CDF.  Either the asset
    graph is left as it was and no call was made, or the handler returned
    [True] after a single [assets.update] that replaces an asset of the
    store by a record with the same external id, internal id and
    parent. *)
Theorem update_asset_single_write (adt_client : ADT) (adt_id : string)
        (event_body : ADT2CDF.Body) (w w' : ADT2CDF.World) (res : result bool) :
  ADT2CDF.update_asset adt_client adt_id event_body w = (res, w') ->
  (ADT2CDF.cdf w' = ADT2CDF.cdf w /\ ADT2CDF.calls w' = ADT2CDF.calls w)
  \/ exists a r',
       In a (ADT2CDF.assets (ADT2CDF.cdf w))
       /\ external_id r' = external_id a /\ id r' = id a
       /\ parent_external_id r' = parent_external_id a
       /\ res = Ok true
       /\ ADT2CDF.calls w' = ADT2CDF.calls w ++ [ADT2CDF.AssetsUpdate r']
       /\ ADT2CDF.assets (ADT2CDF.cdf w')
          = map (fun x => if ADT2CDF.opt_Z_eqb (id x) (id a) then r' else x)
                (ADT2CDF.assets (ADT2CDF.cdf w))
       /\ ADT2CDF.time_series (ADT2CDF.cdf w') = ADT2CDF.time_series (ADT2CDF.cdf w).
Proof.
  assert (R : forall a w0,
             In a (ADT2CDF.assets (ADT2CDF.cdf w)) -> same_graph w w0 ->
             try_except
               (bind (ADT2CDF.fetch_changes_to_CDF_record a event_body)
                     (fun st =>
                        bind (if fst st
                              then ADT2CDF.assets_update (snd st)
                              else ADT2CDF.log WARNING "Nothing to update! The asset '%s' is already up to date!")
                             (fun _ => ret true)))
               (fun e => match e with
                         | KeyError _ =>
                             Some (bind (ADT2CDF.log ERROR "KeyError in update_asset %s !")
                                        (fun _ => ret false))
                         | _ => None
                         end) w0 = (res, w') ->
             (ADT2CDF.cdf w' = ADT2CDF.cdf w /\ ADT2CDF.calls w' = ADT2CDF.calls w)
             \/ exists a r',
                  In a (ADT2CDF.assets (ADT2CDF.cdf w))
                  /\ external_id r' = external_id a /\ id r' = id a
                  /\ parent_external_id r' = parent_external_id a
                  /\ res = Ok true
                  /\ ADT2CDF.calls w' = ADT2CDF.calls w ++ [ADT2CDF.AssetsUpdate r']
                  /\ ADT2CDF.assets (ADT2CDF.cdf w')
                     = map (fun x => if ADT2CDF.opt_Z_eqb (id x) (id a) then r' else x)
                           (ADT2CDF.assets (ADT2CDF.cdf w))
                  /\ ADT2CDF.time_series (ADT2CDF.cdf w')
                     = ADT2CDF.time_series (ADT2CDF.cdf w)).
  { intros a w0 Hin [G1 G2] H. apply update_resolved_run in H.
    destruct H as [[H1 H2]|(r' & (I1 & I2 & I3 & _) & Hres & Hc & Hs)].
    - left. split; congruence.
    - right. exists a, r'. rewrite Hs, Hc, G1, G2. cbn [ADT2CDF.assets ADT2CDF.time_series].
      repeat split; assumption. }
  unfold ADT2CDF.update_asset, ADT2CDF.assets_retrieve.
  unfold bind at 1. unfold gets at 1.
  destruct (find (ADT2CDF.has_ext adt_id) (ADT2CDF.assets (ADT2CDF.cdf w))) as [a|] eqn:E.
  - unfold bind at 1. unfold ret at 1.
    apply R; [apply (find_some_in _ _ _ E)|apply same_graph_refl].
  - destruct (get_digital_twin adt_client adt_id) as [dt|].
    2: { intros H; inversion H; subst. left. split; reflexivity. }
    destruct (dt_externalId dt) as [ext|].
    2: { unfold ADT2CDF.log, bind, modify, ret. intros H; inversion H; subst.
         left. split; reflexivity. }
    unfold bind at 1. unfold bind at 1. unfold gets at 1.
    destruct (find (ADT2CDF.has_ext ext) (ADT2CDF.assets (ADT2CDF.cdf w))) as [a|] eqn:E2.
    + unfold ret at 1. apply R; [apply (find_some_in _ _ _ E2)|apply same_graph_refl].
    + unfold ADT2CDF.log, bind, modify, ret. intros H; inversion H; subst.
      left. split; reflexivity.
Qed.

Lemma update_asset_single_write_witness :
  let run := ADT2CDF.update_asset no_adt "A1"
               (update_body [mkPatch "replace" "/displayName" (Some (VStr "Pump 2"))])
               (world_of (store_with pump)) in
  fst run = Ok true
  /\ ADT2CDF.calls (snd run) = [ADT2CDF.AssetsUpdate (set_name (Some "Pump 2") pump)]
  /\ ((ADT2CDF.cdf (snd run) = store_with pump /\ ADT2CDF.calls (snd run) = [])
      \/ exists a r',
           In a [pump] /\ external_id r' = external_id a /\ id r' = id a
           /\ parent_external_id r' = parent_external_id a
           /\ fst run = Ok true
           /\ ADT2CDF.calls (snd run) = [] ++ [ADT2CDF.AssetsUpdate r']
           /\ ADT2CDF.assets (ADT2CDF.cdf (snd run))
              = map (fun x => if ADT2CDF.opt_Z_eqb (id x) (id a) then r' else x) [pump]
           /\ ADT2CDF.time_series (ADT2CDF.cdf (snd run)) = []).
Proof.
  intros run. split; [reflexivity|]. split; [reflexivity|].
  apply (update_asset_single_write no_adt "A1"
           (update_body [mkPatch "replace" "/displayName" (Some (VStr "Pump 2"))])
           (world_of (store_with pump)) (snd run) (fst run)).
  reflexivity.
Defined.

(** X9.  When CDF has no asset with the id of an Update event,
    [update_asset] asks the twin graph for the twin: a twin that does not
    exist makes the handler raise [ResourceNotFoundError]; a twin without
    ['externalId'], or one whose ['externalId'] names no asset either, makes
    it log an error and return [False].  In the three cases nothing else
    changes. *)
Theorem update_asset_unresolved (adt_client : ADT) (adt_id : string)
        (event_body : ADT2CDF.Body) (w : ADT2CDF.World) :
  find (ADT2CDF.has_ext adt_id) (ADT2CDF.assets (ADT2CDF.cdf w)) = None ->
  match get_digital_twin adt_client adt_id with
  | None =>
      ADT2CDF.update_asset adt_client adt_id event_body w = (Raise ResourceNotFoundError, w)
  | Some dt =>
      match dt_externalId dt with
      | None =>
          ADT2CDF.update_asset adt_client adt_id event_body w
          = (Ok false,
             add_log w (ERROR, "Cannot perform update! CDF asset with external ID '%s' does not exist!"))
      | Some ext =>
          find (ADT2CDF.has_ext ext) (ADT2CDF.assets (ADT2CDF.cdf w)) = None ->
          ADT2CDF.update_asset adt_client adt_id event_body w
          = (Ok false,
             add_log w (ERROR, "Cannot perform update! CDF asset with external ID '%s' does not exist!"))
      end
  end.
Proof.
  intros E.
  assert (S : forall k : option Resource -> M ADT2CDF.World bool,
             bind (ADT2CDF.assets_retrieve adt_id) k w = k None w).
  { intros k. unfold ADT2CDF.assets_retrieve, bind, gets. rewrite E. reflexivity. }
  unfold ADT2CDF.update_asset.
  destruct (get_digital_twin adt_client adt_id) as [dt|] eqn:Edt.
  - destruct (dt_externalId dt) as [ext|] eqn:Eext.
    + intros E2. rewrite S.
      unfold ADT2CDF.assets_retrieve, bind, gets. rewrite E2. reflexivity.
    + rewrite S. reflexivity.
  - rewrite S. reflexivity.
Qed.

Lemma update_asset_unresolved_witness :
  ADT2CDF.update_asset no_adt "A1" (update_body []) (world_of empty_store)
  = (Raise ResourceNotFoundError, world_of empty_store).
Proof.
  apply (update_asset_unresolved no_adt "A1" (update_body []) (world_of empty_store)).
  reflexivity.
Defined.

(** *** Creating an asset *)

Lemma filter_absent ext (l : list Resource) :
  find (ADT2CDF.has_ext ext) l = None ->
  filter (fun a => negb (ADT2CDF.has_ext ext a)) l = l.
Proof.
  induction l as [|a l IH]; simpl; [reflexivity|].
  destruct (ADT2CDF.has_ext ext a); [discriminate|].
  intros H. simpl. rewrite IH by exact H. reflexivity.
Qed.

Lemma find_app_none {A} (f : A -> bool) (l1 l2 : list A) :
  find f l1 = None -> find f (l1 ++ l2) = find f l2.
Proof.
  induction l1 as [|a l1 IH]; simpl; [reflexivity|].
  destruct (f a); [discriminate|exact IH].
Qed.

Section CreateAsset.
Variable ROOT_EXTERNAL_ID : string.

(** X10.  For an id that CDF does not hold yet, [create_asset] creates one
    asset: its external id is the id, its parent is the root asset, its
    name is the ['displayName'] of the event body or, without one, its
    ['$dtId'], its description and metadata are those of the body.  A body
    without ['tags'] makes it raise [KeyError] before anything is
    created. *)
Theorem create_asset_effect (adt_id : string) (event_body : ADT2CDF.Body)
        (w : ADT2CDF.World) :
  find (ADT2CDF.has_ext adt_id) (ADT2CDF.assets (ADT2CDF.cdf w)) = None ->
  match ADT2CDF.b_tags event_body with
  | None =>
      ADT2CDF.create_asset ROOT_EXTERNAL_ID adt_id event_body w = (Raise (KeyError "tags"), w)
  | Some values =>
      let new_asset :=
        mkResource adt_id None
                   (match ADT2CDF.b_displayName event_body with
                    | Some n => Some n
                    | None => ADT2CDF.b_dtId event_body
                    end)
                   (ADT2CDF.b_description event_body) values
                   (Some ROOT_EXTERNAL_ID) None false 0 in
      ADT2CDF.create_asset ROOT_EXTERNAL_ID adt_id event_body w
      = (Ok true,
         ADT2CDF.mkWorld
           (ADT2CDF.mkStore
              (ADT2CDF.assets (ADT2CDF.cdf w)
               ++ [set_id (Some (ADT2CDF.next_id (ADT2CDF.cdf w))) new_asset])
              (ADT2CDF.time_series (ADT2CDF.cdf w)) (ADT2CDF.datapoints (ADT2CDF.cdf w))
              (ADT2CDF.relationships (ADT2CDF.cdf w))
              (ADT2CDF.label_definitions (ADT2CDF.cdf w)))
           (ADT2CDF.calls w ++ [ADT2CDF.AssetsCreate new_asset])
           (ADT2CDF.logs w))
  end.
Proof.
  intros E.
  assert (S : forall k : bool -> M ADT2CDF.World bool,
             bind (ADT2CDF.has_asset_in_CDF_by_external_id adt_id) k w = k false w).
  { intros k. unfold ADT2CDF.has_asset_in_CDF_by_external_id, ADT2CDF.assets_retrieve,
      bind, gets, ret. rewrite E. reflexivity. }
  unfold ADT2CDF.create_asset.
  destruct (ADT2CDF.b_tags event_body) as [[values|]|] eqn:Et; cbv zeta; rewrite S;
    cbn [negb];
    unfold ADT2CDF.fill_from_body, ADT2CDF.item, ADT2CDF.new_resource,
      ADT2CDF.assets_create, ADT2CDF.mutate, bind, ret, raise, modify;
    rewrite Et;
    destruct (ADT2CDF.b_displayName event_body);
    destruct (ADT2CDF.b_description event_body); reflexivity.
Qed.

(** X11.  Creating an asset and then deleting it restores the asset graph:
    after a [create_asset] that returned [True] for an id CDF did not hold,
    [delete_asset] of that id returns [True] and leaves the store as it was
    before the creation. *)
Theorem create_then_delete_asset (adt_id : string) (event_body : ADT2CDF.Body)
        (w w1 : ADT2CDF.World) :
  find (ADT2CDF.has_ext adt_id) (ADT2CDF.assets (ADT2CDF.cdf w)) = None ->
  ADT2CDF.create_asset ROOT_EXTERNAL_ID adt_id event_body w = (Ok true, w1) ->
  exists w2,
    ADT2CDF.delete_asset adt_id w1 = (Ok true, w2)
    /\ ADT2CDF.cdf w2 = ADT2CDF.cdf w
    /\ ADT2CDF.logs w2 = ADT2CDF.logs w.
Proof.
  intros E H. pose proof (create_asset_effect adt_id event_body w E) as C.
  destruct (ADT2CDF.b_tags event_body) as [values|]; [|rewrite C in H; discriminate].
  cbv zeta in C. rewrite C in H. inversion H; subst w1; clear H C.
  unfold ADT2CDF.delete_asset, ADT2CDF.has_asset_in_CDF_by_external_id,
    ADT2CDF.assets_retrieve, bind, gets, ret.
  cbn [ADT2CDF.cdf ADT2CDF.assets].
  rewrite (find_app_none _ _ _ E). cbn [find].
  unfold ADT2CDF.has_ext at 1. cbn [set_id external_id]. rewrite String.eqb_refl.
  unfold ADT2CDF.assets_delete, ADT2CDF.mutate, modify.
  eexists. split; [reflexivity|].
  cbn [ADT2CDF.cdf ADT2CDF.logs ADT2CDF.assets ADT2CDF.time_series ADT2CDF.datapoints
       ADT2CDF.relationships ADT2CDF.label_definitions].
  split; [|reflexivity].
  rewrite filter_app, (filter_absent _ _ E). cbn [filter].
  unfold ADT2CDF.has_ext at 1. cbn [set_id external_id]. rewrite String.eqb_refl.
  cbn [negb]. rewrite app_nil_r. destruct (ADT2CDF.cdf w); reflexivity.
Qed.
End CreateAsset.

Lemma create_asset_effect_witness :
  ADT2CDF.create_asset "root" "A1" no_body (world_of root_only)
  = (Raise (KeyError "tags"), world_of root_only).
Proof.
  apply (create_asset_effect "root" "A1" no_body (world_of root_only)). reflexivity.
Defined.

Lemma create_then_delete_asset_witness :
  exists w1 w2,
    ADT2CDF.create_asset "root" "A1" create_pump_body (world_of root_only) = (Ok true, w1)
    /\ ADT2CDF.delete_asset "A1" w1 = (Ok true, w2)
    /\ ADT2CDF.cdf w2 = root_only.
Proof.
  eexists.
  destruct (create_then_delete_asset "root" "A1" create_pump_body (world_of root_only)
              (snd (ADT2CDF.create_asset "root" "A1" create_pump_body (world_of root_only))))
    as (w2 & H1 & H2 & _).
  - reflexivity.
  - reflexivity.
  - exists w2. split; [reflexivity|]. split; [exact H1|exact H2].
Defined.

(** *** Inserting a datapoint *)





Section Datapoints.
Variables strptime float_of : string -> option Q.

Let check := ADT2CDF.check_and_insert_datapoint strptime float_of.

(** The retrievals [check_and_insert_datapoint] starts with. *)
Lemma check_reads adt_id latest_value timestamp_str timestamp datapoint timeseries
      (w : ADT2CDF.World) :
  strptime timestamp_str = Some timestamp ->
  latest_of adt_id (ADT2CDF.cdf w) = datapoint ->
  find (ADT2CDF.has_ext adt_id) (ADT2CDF.time_series (ADT2CDF.cdf w)) = timeseries ->
  is_newer timestamp datapoint = false ->
  check adt_id latest_value timestamp_str w = (Ok false, w).
Proof.
  intros Ht Hd Hs Hn. unfold check, ADT2CDF.check_and_insert_datapoint. rewrite Ht.
  unfold ADT2CDF.datapoints_retrieve_latest, ADT2CDF.time_series_retrieve.
  unfold bind at 1. unfold gets at 1. fold (latest_of adt_id (ADT2CDF.cdf w)). rewrite Hd.
  unfold bind at 1. unfold gets at 1.
  fold (is_newer timestamp datapoint). rewrite Hn. reflexivity.
Qed.

(** X12.  [check_and_insert_datapoint] inserts nothing, and returns
    [False], in three cases: the latest datapoint of the series is not
    older than the new one (nothing is logged); the value reads as a number
    and the series is a string series; the value does not read as a number,
    the series has datapoints and is numeric.  The last two log an error;
    none makes a CDF call. *)
Theorem datapoint_rejected (adt_id latest_value timestamp_str : string) (timestamp : Q)
        (w : ADT2CDF.World) :
  strptime timestamp_str = Some timestamp ->
  (is_newer timestamp (latest_of adt_id (ADT2CDF.cdf w)) = false ->
   check adt_id latest_value timestamp_str w = (Ok false, w))
  /\ (forall x ts,
        is_newer timestamp (latest_of adt_id (ADT2CDF.cdf w)) = true ->
        float_of latest_value = Some x ->
        find (ADT2CDF.has_ext adt_id) (ADT2CDF.time_series (ADT2CDF.cdf w)) = Some ts ->
        is_string ts = true ->
        check adt_id latest_value timestamp_str w
        = (Ok false,
           add_log w (ERROR, "Cannot insert number '%s' into string timeseries '%s'!")))
  /\ (forall d ts,
        latest_of adt_id (ADT2CDF.cdf w) = Some d ->
        is_newer timestamp (Some d) = true ->
        float_of latest_value = None ->
        find (ADT2CDF.has_ext adt_id) (ADT2CDF.time_series (ADT2CDF.cdf w)) = Some ts ->
        is_string ts = false ->
        check adt_id latest_value timestamp_str w
        = (Ok false,
           add_log w (ERROR, "Cannot insert string '%s' into numeric timeseries '%s'!"))).
Proof.
  intros Ht. split; [|split].
  - intros Hn. eapply check_reads; try eassumption; reflexivity.
  - intros x ts Hn Hf Hs Hstr.
    unfold check, ADT2CDF.check_and_insert_datapoint. rewrite Ht, Hf.
    unfold ADT2CDF.datapoints_retrieve_latest, ADT2CDF.time_series_retrieve.
    unfold bind at 1. unfold gets at 1. fold (latest_of adt_id (ADT2CDF.cdf w)).
    unfold bind at 1. unfold gets at 1. rewrite Hs.
    fold (is_newer timestamp (latest_of adt_id (ADT2CDF.cdf w))). rewrite Hn.
    unfold ADT2CDF.attr, ADT2CDF.log, bind, ret, modify. rewrite Hstr. reflexivity.
  - intros d ts Hd Hn Hf Hs Hstr.
    unfold check, ADT2CDF.check_and_insert_datapoint. rewrite Ht, Hf.
    unfold ADT2CDF.datapoints_retrieve_latest, ADT2CDF.time_series_retrieve.
    unfold bind at 1. unfold gets at 1. fold (latest_of adt_id (ADT2CDF.cdf w)).
    rewrite Hd.
    unfold bind at 1. unfold gets at 1. rewrite Hs.
    fold (is_newer timestamp (Some d)). rewrite Hn.
    unfold ADT2CDF.attr, ADT2CDF.log, bind, ret, modify. rewrite Hstr. reflexivity.
Qed.

(** A timestamp that does not parse makes
    [check_and_insert_datapoint] raise [ValueError]; a new datapoint for a
    time series that CDF does not hold makes it raise [AttributeError].
    Neither changes anything. *)
Theorem datapoint_errors (adt_id latest_value timestamp_str : string) (w : ADT2CDF.World) :
  (strptime timestamp_str = None ->
   check adt_id latest_value timestamp_str w = (Raise ValueError, w))
  /\ (forall timestamp,
        strptime timestamp_str = Some timestamp ->
        is_newer timestamp (latest_of adt_id (ADT2CDF.cdf w)) = true ->
        find (ADT2CDF.has_ext adt_id) (ADT2CDF.time_series (ADT2CDF.cdf w)) = None ->
        check adt_id latest_value timestamp_str w = (Raise AttributeError, w)).
Proof.
  split.
  - intros Ht. unfold check, ADT2CDF.check_and_insert_datapoint. rewrite Ht. reflexivity.
  - intros timestamp Ht Hn Hs.
    unfold check, ADT2CDF.check_and_insert_datapoint. rewrite Ht.
    unfold ADT2CDF.datapoints_retrieve_latest, ADT2CDF.time_series_retrieve.
    unfold bind at 1. unfold gets at 1. fold (latest_of adt_id (ADT2CDF.cdf w)).
    unfold bind at 1. unfold gets at 1. rewrite Hs.
    fold (is_newer timestamp (latest_of adt_id (ADT2CDF.cdf w))). rewrite Hn.
    destruct (float_of latest_value); reflexivity.
Qed.


End Datapoints.

Lemma datapoint_rejected_witness :
  let s := ADT2CDF.mkStore [pump] [flow] [ADT2CDF.mkDatapoint "T1" 5000%Q (ADT2CDF.DNum 1%Q)]
                           [] [] in
  ADT2CDF.check_and_insert_datapoint (fun _ => Some 5%Q) (fun _ => Some 2%Q)
                                     "T1" "2" "1970-01-01T00:00:05.000Z" (world_of s)
  = (Ok false, world_of s).
Proof.
  intros s.
  apply (datapoint_rejected (fun _ => Some 5%Q) (fun _ => Some 2%Q)
           "T1" "2" "1970-01-01T00:00:05.000Z" 5%Q (world_of s)); reflexivity.
Defined.

Lemma datapoint_errors_witness :
  ADT2CDF.check_and_insert_datapoint (fun _ => None) (fun _ => Some 2%Q)
                                     "T1" "2" "yesterday" (world_of pump_and_flow)
  = (Raise ValueError, world_of pump_and_flow)
  /\ ADT2CDF.check_and_insert_datapoint (fun _ => Some 5%Q) (fun _ => Some 2%Q)
                                        "T9" "2" "1970-01-01T00:00:05.000Z"
                                        (world_of pump_and_flow)
     = (Raise AttributeError, world_of pump_and_flow).
Proof.
  split.
  - apply (datapoint_errors (fun _ => None) (fun _ => Some 2%Q)
             "T1" "2" "yesterday" (world_of pump_and_flow)). reflexivity.
  - apply (datapoint_errors (fun _ => Some 5%Q) (fun _ => Some 2%Q)
             "T9" "2" "1970-01-01T00:00:05.000Z" (world_of pump_and_flow) ) with (timestamp := 5%Q);
      reflexivity.
Defined.



(** *** Creating a relationship *)

(** X15.  A ['parent'] relationship create event without another parent
    edge in the twin graph sets the parent of the source asset to the
    target by one call, or, when CDF already has that parent, logs a
    warning and makes no call; both return [True].  A source asset that CDF
    does not hold makes the handler raise [AttributeError]. *)
Theorem parent_set_or_kept (adt_client : ADT) (event_body : ADT2CDF.Body)
        (rel_source rel_target : Resource) (source_id relationship_id : string)
        (w : ADT2CDF.World) :
  ADT2CDF.b_relationshipName event_body = Some "parent" ->
  ADT2CDF.b_sourceId event_body = Some source_id ->
  ADT2CDF.b_relationshipId event_body = Some relationship_id ->
  query_twins adt_client (ADT2CDF.other_parents_query source_id relationship_id) = [] ->
  match find (ADT2CDF.has_ext (external_id rel_source)) (ADT2CDF.assets (ADT2CDF.cdf w)) with
  | None =>
      ADT2CDF.create_relationship adt_client event_body rel_source rel_target w
      = (Raise AttributeError, w)
  | Some a =>
      if opt_str_eqb (parent_external_id a) (Some (external_id rel_target))
      then ADT2CDF.create_relationship adt_client event_body rel_source rel_target w
           = (Ok true, add_log w (WARNING, "The parent of '%s' in CDF is already '%s'!"))
      else ADT2CDF.create_relationship adt_client event_body rel_source rel_target w
           = (Ok true,
              ADT2CDF.mkWorld
                (ADT2CDF.mkStore
                   (map (fun x => if ADT2CDF.has_ext (external_id rel_source) x
                                  then set_parent_external_id (Some (external_id rel_target)) x
                                  else x)
                        (ADT2CDF.assets (ADT2CDF.cdf w)))
                   (ADT2CDF.time_series (ADT2CDF.cdf w)) (ADT2CDF.datapoints (ADT2CDF.cdf w))
                   (ADT2CDF.relationships (ADT2CDF.cdf w))
                   (ADT2CDF.label_definitions (ADT2CDF.cdf w)))
                (ADT2CDF.calls w
                 ++ [ADT2CDF.AssetsSetParent (external_id rel_source) (external_id rel_target)])
                (ADT2CDF.logs w))
  end.
Proof.
  intros Hn Hs Hr Hq.
  assert (R : ADT2CDF.create_relationship adt_client event_body rel_source rel_target w
              = bind (ADT2CDF.assets_retrieve (external_id rel_source))
                     (fun found =>
                        bind (ADT2CDF.attr found)
                             (fun a =>
                                if opt_str_eqb (parent_external_id a)
                                               (Some (external_id rel_target))
                                then bind (ADT2CDF.log WARNING "The parent of '%s' in CDF is already '%s'!")
                                          (fun _ => ret true)
                                else bind (ADT2CDF.assets_set_parent (external_id rel_source)
                                                                     (external_id rel_target))
                                          (fun _ => ret true))) w).
  { unfold ADT2CDF.create_relationship. rewrite Hn, Hs, Hr.
    unfold ADT2CDF.item. unfold bind at 1. unfold ret at 1.
    cbn [String.eqb Ascii.eqb Bool.eqb].
    unfold bind at 1. unfold ret at 1. unfold bind at 1. unfold ret at 1.
    rewrite Hq. reflexivity. }
  destruct (find (ADT2CDF.has_ext (external_id rel_source)) (ADT2CDF.assets (ADT2CDF.cdf w)))
    as [a|] eqn:E.
  - destruct (opt_str_eqb (parent_external_id a) (Some (external_id rel_target))) eqn:P;
      rewrite R; unfold ADT2CDF.assets_retrieve, ADT2CDF.attr, bind, gets, ret;
      rewrite E, P; reflexivity.
  - rewrite R. unfold ADT2CDF.assets_retrieve, ADT2CDF.attr, bind, gets, ret, raise.
    rewrite E. reflexivity.
Qed.

Lemma parent_set_or_kept_witness :
  ADT2CDF.create_relationship no_adt (parent_body "A1->root" "A1" "root") pump sample_root
                              (world_of (store_with pump))
  = (Ok true,
     add_log (world_of (store_with pump))
             (WARNING, "The parent of '%s' in CDF is already '%s'!")).
Proof.
  apply (parent_set_or_kept no_adt (parent_body "A1->root" "A1" "root") pump sample_root
           "A1" "A1->root" (world_of (store_with pump))); reflexivity.
Defined.

(** X16.  A ['contains'] relationship create event links the time series
    to the source asset by one call and returns [True].  It makes no call
    and returns [False] when the twin graph has another ['contains'] edge
    into the same time series (an error is logged) and when the series is
    already linked to that asset (a warning is logged). *)
Theorem contains_link_guarded (adt_client : ADT) (event_body : ADT2CDF.Body)
        (rel_source rel_target ts : Resource) (target_id relationship_id : string)
        (w : ADT2CDF.World) :
  ADT2CDF.b_relationshipName event_body = Some "contains" ->
  ADT2CDF.b_targetId event_body = Some target_id ->
  ADT2CDF.b_relationshipId event_body = Some relationship_id ->
  find (ADT2CDF.has_ext (external_id rel_target)) (ADT2CDF.time_series (ADT2CDF.cdf w))
  = Some ts ->
  match query_twins adt_client (ADT2CDF.other_contains_query target_id relationship_id) with
  | _ :: _ =>
      ADT2CDF.create_relationship adt_client event_body rel_source rel_target w
      = (Ok false,
         add_log w (ERROR, "A timeseries in CDF can have a single asset linked, but another asset was added to timeseries '%s'. Aborting synchronization! Please delete the relationship with ID: '%s' from ADT!"))
  | [] =>
      if ADT2CDF.opt_Z_eqb (asset_id ts) (id rel_source)
      then ADT2CDF.create_relationship adt_client event_body rel_source rel_target w
           = (Ok false,
              add_log w (WARNING, "The linked asset of '%s' in CDF is already '%s'!"))
      else ADT2CDF.create_relationship adt_client event_body rel_source rel_target w
           = (Ok true,
              ADT2CDF.mkWorld
                (ADT2CDF.mkStore
                   (ADT2CDF.assets (ADT2CDF.cdf w))
                   (map (fun t => if ADT2CDF.has_ext (external_id rel_target) t
                                  then set_asset_id (id rel_source) t else t)
                        (ADT2CDF.time_series (ADT2CDF.cdf w)))
                   (ADT2CDF.datapoints (ADT2CDF.cdf w))
                   (ADT2CDF.relationships (ADT2CDF.cdf w))
                   (ADT2CDF.label_definitions (ADT2CDF.cdf w)))
                (ADT2CDF.calls w
                 ++ [ADT2CDF.TimeSeriesSetAsset (external_id rel_target) (id rel_source)])
                (ADT2CDF.logs w))
  end.
Proof.
  intros Hn Ht Hr E.
  assert (R : ADT2CDF.create_relationship adt_client event_body rel_source rel_target w
              = match query_twins adt_client
                        (ADT2CDF.other_contains_query target_id relationship_id) with
                | _ :: _ =>
                    bind (ADT2CDF.log ERROR "A timeseries in CDF can have a single asset linked, but another asset was added to timeseries '%s'. Aborting synchronization! Please delete the relationship with ID: '%s' from ADT!")
                         (fun _ => ret false) w
                | [] =>
                    bind (ADT2CDF.time_series_retrieve (external_id rel_target))
                         (fun found =>
                            bind (ADT2CDF.attr found)
                                 (fun ts =>
                                    if ADT2CDF.opt_Z_eqb (asset_id ts) (id rel_source)
                                    then bind (ADT2CDF.log WARNING "The linked asset of '%s' in CDF is already '%s'!")
                                              (fun _ => ret false)
                                    else bind (ADT2CDF.time_series_set_asset
                                                 (external_id rel_target) (id rel_source))
                                              (fun _ => ret true))) w
                end).
  { unfold ADT2CDF.create_relationship. rewrite Hn, Ht, Hr.
    unfold ADT2CDF.item. unfold bind at 1. unfold ret at 1.
    cbn [String.eqb Ascii.eqb Bool.eqb].
    unfold bind at 1. unfold ret at 1. unfold bind at 1. unfold ret at 1.
    destruct (query_twins adt_client (ADT2CDF.other_contains_query target_id relationship_id));
      reflexivity. }
  destruct (query_twins adt_client (ADT2CDF.other_contains_query target_id relationship_id))
    as [|row rows].
  - destruct (ADT2CDF.opt_Z_eqb (asset_id ts) (id rel_source)) eqn:P;
      rewrite R; unfold ADT2CDF.time_series_retrieve, ADT2CDF.attr, bind, gets, ret;
      rewrite E, P; reflexivity.
  - rewrite R. reflexivity.
Qed.

Lemma contains_link_guarded_witness :
  ADT2CDF.create_relationship no_adt (contains_body "A1->T1" "A1" "T1") pump flow
                              (world_of pump_and_flow)
  = (Ok false,
     add_log (world_of pump_and_flow)
             (WARNING, "The linked asset of '%s' in CDF is already '%s'!")).
Proof.
  apply (contains_link_guarded no_adt (contains_body "A1->T1" "A1" "T1") pump flow flow
           "T1" "A1->T1" (world_of pump_and_flow)); reflexivity.
Defined.




(** *** What [parse_event] makes of a cloud event *)

Lemma parse_relationship_event (event : ADT2CDF.EventHubEvent) (props : ADT2CDF.Properties)
      (event_body : ADT2CDF.Body) (event_subject operation : string) (w : ADT2CDF.World) :
  In operation ["Create"; "Update"; "Delete"] ->
  ADT2CDF.ce_type props = Some ("Microsoft.DigitalTwins.Relationship." ++ operation)%string ->
  ADT2CDF.get_body event = Some event_body ->
  ADT2CDF.ce_subject props = Some event_subject ->
  ADT2CDF.parse_event event props w
  = (Ok (Some (ADT2CDF.mkEventRepresentation (Some operation) (Some "relationship")
                                             event_subject event_body)), w).
Proof.
  intros Hop Hce Hb Hs.
  unfold ADT2CDF.parse_event, ADT2CDF.parse_event_body. rewrite Hce, Hb, Hs.
  simpl in Hop. destruct Hop as [<-|[<-|[<-|[]]]]; reflexivity.
Qed.

Lemma parse_twin_event (event : ADT2CDF.EventHubEvent) (props : ADT2CDF.Properties)
      (event_body : ADT2CDF.Body) (event_subject operation model : string)
      (w : ADT2CDF.World) :
  In operation ["Create"; "Update"; "Delete"] ->
  ADT2CDF.ce_type props = Some ("Microsoft.DigitalTwins.Twin." ++ operation)%string ->
  ADT2CDF.get_body event = Some event_body ->
  ADT2CDF.ce_subject props = Some event_subject ->
  (if String.eqb operation "Update"
   then ADT2CDF.b_modelId event_body
   else match ADT2CDF.b_metadata event_body with
        | Some md => md
        | None => None
        end) = Some model ->
  ADT2CDF.parse_event event props w
  = (Ok (Some (ADT2CDF.mkEventRepresentation (Some operation) (resource_of_model model)
                                             event_subject event_body)), w).
Proof.
  intros Hop Hce Hb Hs Hm.
  unfold ADT2CDF.parse_event, ADT2CDF.parse_event_body. rewrite Hce, Hb, Hs.
  unfold resource_of_model.
  change (model_value ASSET) with "dtmi:digitaltwins:cognite:cdf:Asset;1".
  change (model_value TIMESERIES) with "dtmi:digitaltwins:cognite:cdf:TimeSeries;1".
  assert (Hmd : operation <> "Update" -> ADT2CDF.b_metadata event_body = Some (Some model)).
  { intros Hne. apply String.eqb_neq in Hne. rewrite Hne in Hm.
    destruct (ADT2CDF.b_metadata event_body) as [[m|]|]; congruence. }
  assert (Hmi : operation = "Update" -> ADT2CDF.b_modelId event_body = Some model).
  { intros ->. exact Hm. }
  clear Hm.
  destruct (String.eqb model "dtmi:digitaltwins:cognite:cdf:Asset;1") eqn:Ea;
    [|destruct (String.eqb model "dtmi:digitaltwins:cognite:cdf:TimeSeries;1") eqn:Et];
    simpl in Hop; destruct Hop as [<-|[<-|[<-|[]]]];
    try (specialize (Hmd ltac:(discriminate))); try (specialize (Hmi eq_refl));
    unfold try_except, bind, ret, raise, ADT2CDF.item, ADT2CDF.index; cbn;
    rewrite ?Hmd, ?Hmi; cbn; rewrite ?Ea, ?Et; reflexivity.
Qed.

(** X18.  [parse_event] classifies a recognized cloud event by its type
    string alone for relationships, and by the model of the twin for
    twins: the operation is the last component of the event type; a
    relationship event gets the resource ['relationship']; a twin event
    gets ['asset'] or ['timeseries'] when the model (under ['$metadata'] for
    Create and Delete, under ['modelId'] for Update) is the asset or the
    time-series model, and no resource at all for another model.  Subject
    and body are passed on, nothing is logged. *)
Theorem parse_event_classifies (event : ADT2CDF.EventHubEvent) (props : ADT2CDF.Properties)
        (event_body : ADT2CDF.Body) (event_subject operation : string)
        (w : ADT2CDF.World) :
  In operation ["Create"; "Update"; "Delete"] ->
  ADT2CDF.get_body event = Some event_body ->
  ADT2CDF.ce_subject props = Some event_subject ->
  (ADT2CDF.ce_type props = Some ("Microsoft.DigitalTwins.Relationship." ++ operation)%string ->
   ADT2CDF.parse_event event props w
   = (Ok (Some (ADT2CDF.mkEventRepresentation (Some operation) (Some "relationship")
                                              event_subject event_body)), w))
  /\ (forall model,
        ADT2CDF.ce_type props = Some ("Microsoft.DigitalTwins.Twin." ++ operation)%string ->
        (if String.eqb operation "Update"
         then ADT2CDF.b_modelId event_body
         else match ADT2CDF.b_metadata event_body with
              | Some md => md
              | None => None
              end) = Some model ->
        ADT2CDF.parse_event event props w
        = (Ok (Some (ADT2CDF.mkEventRepresentation
                       (Some operation)
                       (if String.eqb model "dtmi:digitaltwins:cognite:cdf:Asset;1"
                        then Some "asset"
                        else if String.eqb model "dtmi:digitaltwins:cognite:cdf:TimeSeries;1"
                             then Some "timeseries"
                             else None)
                       event_subject event_body)), w)).
Proof.
  intros Hop Hb Hs. split.
  - intros Hce. apply parse_relationship_event; assumption.
  - intros model Hce Hm.
    apply (parse_twin_event event props event_body event_subject operation model w);
      assumption.
Qed.

Lemma parse_event_classifies_witness :
  ADT2CDF.parse_event
    (ADT2CDF.mkEvent (Some create_pump_body) (Some single_properties))
    (ADT2CDF.mkProperties (Some "Microsoft.DigitalTwins.Twin.Create") (Some "A1")
                          (Some "2022-01-01T00:00:01Z"))
    (world_of root_only)
  = (Ok (Some (ADT2CDF.mkEventRepresentation (Some "Create") (Some "asset") "A1"
                                             create_pump_body)),
     world_of root_only).
Proof.
  apply (parse_event_classifies
           (ADT2CDF.mkEvent (Some create_pump_body) (Some single_properties))
           (ADT2CDF.mkProperties (Some "Microsoft.DigitalTwins.Twin.Create") (Some "A1")
                                 (Some "2022-01-01T00:00:01Z"))
           create_pump_body "A1" "Create" (world_of root_only)
           ltac:(simpl; auto) eq_refl eq_refl)
    with (model := "dtmi:digitaltwins:cognite:cdf:Asset;1"); reflexivity.
Defined.

Section ForeignModel.
Variable ROOT_EXTERNAL_ID : string.
Variables handle_relationship handle_timeseries :
  ADT -> ADT2CDF.EventRepresentation -> M ADT2CDF.World bool.

(** X19.  A twin event for a twin whose model is neither the asset nor
    the time-series model ends the batch: [handle] raises
    [AttributeError] when it reads the resource of the event, before it
    logs the event or calls a handler; the events that follow in the batch
    are not processed and CDF is not touched. *)
Theorem foreign_model_aborts_batch (adt_client : ADT) (event : ADT2CDF.EventHubEvent)
        (rest : list ADT2CDF.EventHubEvent) (metadata : list ADT2CDF.Properties)
        (props : ADT2CDF.Properties) (event_body : ADT2CDF.Body)
        (event_subject operation model : string) (w : ADT2CDF.World) :
  find (ADT2CDF.has_ext ROOT_EXTERNAL_ID) (ADT2CDF.assets (ADT2CDF.cdf w)) <> None ->
  ADT2CDF.PropertiesArray event = Some metadata ->
  List.length metadata = List.length (event :: rest) ->
  nth_error metadata 0 = Some props ->
  In operation ["Create"; "Update"; "Delete"] ->
  ADT2CDF.ce_type props = Some ("Microsoft.DigitalTwins.Twin." ++ operation)%string ->
  ADT2CDF.get_body event = Some event_body ->
  ADT2CDF.ce_subject props = Some event_subject ->
  (if String.eqb operation "Update"
   then ADT2CDF.b_modelId event_body
   else match ADT2CDF.b_metadata event_body with
        | Some md => md
        | None => None
        end) = Some model ->
  model <> "dtmi:digitaltwins:cognite:cdf:Asset;1" ->
  model <> "dtmi:digitaltwins:cognite:cdf:TimeSeries;1" ->
  ADT2CDF.handle ROOT_EXTERNAL_ID handle_relationship handle_timeseries
                 adt_client (event :: rest) w
  = (Raise AttributeError, w).
Proof.
  intros Hroot Hpa Hlen Hnth Hop Hce Hb Hs Hm Hna Hnt.
  unfold ADT2CDF.handle, ADT2CDF.assets_retrieve. unfold bind at 1. unfold gets at 1.
  destruct (find (ADT2CDF.has_ext ROOT_EXTERNAL_ID) (ADT2CDF.assets (ADT2CDF.cdf w)));
    [|congruence].
  cbn [ADT2CDF.handle_events]. rewrite Hpa.
  unfold ADT2CDF.item at 1. unfold bind at 1. unfold ret at 1.
  rewrite Hlen, Nat.eqb_refl. cbn [negb].
  unfold ADT2CDF.index at 1. rewrite Hnth. unfold bind at 1. unfold ret at 1.
  unfold bind at 1.
  rewrite (parse_twin_event event props event_body event_subject operation model w
             Hop Hce Hb Hs Hm).
  unfold resource_of_model.
  apply String.eqb_neq in Hna. apply String.eqb_neq in Hnt.
  change (model_value ASSET) with "dtmi:digitaltwins:cognite:cdf:Asset;1".
  change (model_value TIMESERIES) with "dtmi:digitaltwins:cognite:cdf:TimeSeries;1".
  rewrite Hna, Hnt.
  unfold ADT2CDF.attr at 1. unfold bind at 1. unfold ret at 1.
  cbn [ADT2CDF.type ADT2CDF.resource].
  unfold ADT2CDF.attr at 1. unfold bind at 1. unfold ret at 1.
  assert (Hin : ADT2CDF.str_in operation ["Create"; "Update"; "Delete"] = true).
  { simpl in Hop. destruct Hop as [<-|[<-|[<-|[]]]]; reflexivity. }
  rewrite Hin. reflexivity.
Qed.
End ForeignModel.

Lemma foreign_model_aborts_batch_witness :
  ADT2CDF.handle "root" idle_handler idle_handler no_adt
                 (twin_create_batch "dtmi:example:Room;1") (world_of root_only)
  = (Raise AttributeError, world_of root_only).
Proof.
  apply (foreign_model_aborts_batch "root" idle_handler idle_handler no_adt
           (ADT2CDF.mkEvent (Some (twin_create_body "dtmi:example:Room;1"))
              (Some [ADT2CDF.mkProperties (Some "Microsoft.DigitalTwins.Twin.Create")
                                          (Some "X1") (Some "2022-01-01T00:00:01Z")]))
           []
           [ADT2CDF.mkProperties (Some "Microsoft.DigitalTwins.Twin.Create")
                                 (Some "X1") (Some "2022-01-01T00:00:01Z")]
           (ADT2CDF.mkProperties (Some "Microsoft.DigitalTwins.Twin.Create")
                                 (Some "X1") (Some "2022-01-01T00:00:01Z"))
           (twin_create_body "dtmi:example:Room;1") "X1" "Create" "dtmi:example:Room;1"
           (world_of root_only));
    try reflexivity; try discriminate.
  simpl. auto.
Defined.

(** *** Which phases a pass runs *)

Lemma bind_run {W A B} (m : M W A) (k : A -> M W B) (w w1 : W) (a : A) :
  m w = (Ok a, w1) -> bind m k w = k a w1.
Proof.
  intros H. unfold bind. rewrite H. reflexivity.
Qed.

Lemma get_last_exec_TS_run (ext_id : string) (w : CDF2ADT.World) :
  CDF2ADT.get_last_exec_TS ext_id w
  = (Ok (CDF2ADT.find_exec_TS ext_id (stored_runs w)), w).
Proof. reflexivity. Qed.

Section PassPhases.
Variables insert_assets insert_assets' : list Resource -> M CDF2ADT.TwinSide nat.
Variables insert_asset_to_asset_relationships insert_asset_to_asset_relationships' :
  CDF2ADT.CDF -> list Resource -> M CDF2ADT.TwinSide nat.
Variables insert_timeseries insert_timeseries' :
  CDF2ADT.CDF -> list Resource -> M CDF2ADT.TwinSide nat.
Variables update_assets update_assets' : list Resource -> M CDF2ADT.TwinSide nat.
Variables update_asset_to_asset_relationships update_asset_to_asset_relationships' :
  CDF2ADT.CDF -> list Resource -> Q -> M CDF2ADT.TwinSide nat.
Variables update_timeseries update_timeseries' :
  CDF2ADT.CDF -> list Resource -> Q -> M CDF2ADT.TwinSide nat.
Variables delete_assets delete_assets' : list Resource -> string -> M CDF2ADT.TwinSide nat.
Variables delete_asset_to_asset_relationships delete_asset_to_asset_relationships' :
  CDF2ADT.CDF -> list Resource -> M CDF2ADT.TwinSide nat.
Variables delete_timeseries delete_timeseries' :
  CDF2ADT.CDF -> list Resource -> M CDF2ADT.TwinSide nat.

(** X20.  A pass that stops at one of its two guards runs no phase and
    writes no checkpoint: when the root asset is not in CDF, and when a
    checkpoint is stored for the root while its twin is missing, [handle]
    returns after logging one error, and the world differs from the one it
    started in by that log record only. *)
Theorem stopped_pass_runs_no_phase (cdf_client : CDF2ADT.CDF) (root_ext_id : string)
        (w : CDF2ADT.World) :
  (CDF2ADT.assets_retrieve cdf_client root_ext_id = None ->
   CDF2ADT.handle insert_assets insert_asset_to_asset_relationships insert_timeseries
                  update_assets update_asset_to_asset_relationships update_timeseries
                  delete_assets delete_asset_to_asset_relationships delete_timeseries
                  cdf_client root_ext_id w
   = (Ok tt,
      pass_log w (ERROR, "The root asset with external ID '%s' does not exist in CDF. Aborting synchronization!")))
  /\ (CDF2ADT.assets_retrieve cdf_client root_ext_id <> None ->
      CDF2ADT.has_sync_ts (CDF2ADT.find_exec_TS root_ext_id (stored_runs w)) = true ->
      get_digital_twin (CDF2ADT.adt (CDF2ADT.twin w)) (CDF2ADT.convert_ext_id root_ext_id)
      = None ->
      CDF2ADT.handle insert_assets insert_asset_to_asset_relationships insert_timeseries
                     update_assets update_asset_to_asset_relationships update_timeseries
                     delete_assets delete_asset_to_asset_relationships delete_timeseries
                     cdf_client root_ext_id w
      = (Ok tt,
         pass_log w (ERROR, "Last CDF->ADT synchronization timestamp is defined, but the digital twin in ADT corresponding to the root asset '%s' from CDF does NOT exist!"))).
Proof.
  split.
  - intros E. unfold CDF2ADT.handle. rewrite E. apply lift_log_run.
  - intros E Hts Htw. unfold CDF2ADT.handle.
    destruct (CDF2ADT.assets_retrieve cdf_client root_ext_id) as [root_asset|];
      [|congruence].
    rewrite (bind_run _ _ w w _ (get_last_exec_TS_run root_ext_id w)).
    destruct w as [tw bl up].
    unfold bind at 1. unfold CDF2ADT.lift at 1, gets at 1.
    cbn [CDF2ADT.twin CDF2ADT.blob CDF2ADT.uploads] in *.
    rewrite Htw, Hts. cbn [andb negb]. apply lift_log_run.
Qed.

(** X21.  A pass runs one family of phases only.  Without a stored
    checkpoint for the root (a stored timestamp of [0.0] counts as none)
    the outcome of [handle] does not depend on the update and delete
    phases; with one, it does not depend on the insert phases. *)
Theorem pass_runs_one_family (cdf_client : CDF2ADT.CDF) (root_ext_id : string)
        (w : CDF2ADT.World) :
  (CDF2ADT.has_sync_ts (CDF2ADT.find_exec_TS root_ext_id (stored_runs w)) = false ->
   CDF2ADT.handle insert_assets insert_asset_to_asset_relationships insert_timeseries
                  update_assets update_asset_to_asset_relationships update_timeseries
                  delete_assets delete_asset_to_asset_relationships delete_timeseries
                  cdf_client root_ext_id w
   = CDF2ADT.handle insert_assets insert_asset_to_asset_relationships insert_timeseries
                    update_assets' update_asset_to_asset_relationships' update_timeseries'
                    delete_assets' delete_asset_to_asset_relationships' delete_timeseries'
                    cdf_client root_ext_id w)
  /\ (CDF2ADT.has_sync_ts (CDF2ADT.find_exec_TS root_ext_id (stored_runs w)) = true ->
      CDF2ADT.handle insert_assets insert_asset_to_asset_relationships insert_timeseries
                     update_assets update_asset_to_asset_relationships update_timeseries
                     delete_assets delete_asset_to_asset_relationships delete_timeseries
                     cdf_client root_ext_id w
      = CDF2ADT.handle insert_assets' insert_asset_to_asset_relationships' insert_timeseries'
                       update_assets update_asset_to_asset_relationships update_timeseries
                       delete_assets delete_asset_to_asset_relationships delete_timeseries
                       cdf_client root_ext_id w).
Proof.
  split; intros Hts; unfold CDF2ADT.handle;
    (destruct (CDF2ADT.assets_retrieve cdf_client root_ext_id) as [root_asset|];
     [|reflexivity]);
    rewrite !(bind_run _ _ w w _ (get_last_exec_TS_run root_ext_id w));
    rewrite Hts; reflexivity.
Qed.
End PassPhases.

Lemma stopped_pass_runs_no_phase_witness :
  CDF2ADT.handle (fun _ => failing_phase) (fun _ _ => failing_phase) (fun _ _ => failing_phase)
                 (fun _ => failing_phase) (fun _ _ _ => failing_phase)
                 (fun _ _ _ => failing_phase) (fun _ _ => failing_phase)
                 (fun _ _ => failing_phase) (fun _ _ => failing_phase)
                 sample_cdf "root" synced_pass_world
  = (Ok tt,
     pass_log synced_pass_world
       (ERROR, "Last CDF->ADT synchronization timestamp is defined, but the digital twin in ADT corresponding to the root asset '%s' from CDF does NOT exist!")).
Proof.
  apply (stopped_pass_runs_no_phase
           (fun _ => failing_phase) (fun _ _ => failing_phase) (fun _ _ => failing_phase)
           (fun _ => failing_phase) (fun _ _ _ => failing_phase)
           (fun _ _ _ => failing_phase) (fun _ _ => failing_phase)
           (fun _ _ => failing_phase) (fun _ _ => failing_phase)
           sample_cdf "root" synced_pass_world).
  - discriminate.
  - reflexivity.
  - reflexivity.
Defined.

Lemma pass_runs_one_family_witness :
  fst (CDF2ADT.handle slow_insert_assets (fun _ _ => ret 0) (fun _ _ => ret 0)
                      (fun _ => failing_phase) (fun _ _ _ => failing_phase)
                      (fun _ _ _ => failing_phase) (fun _ _ => failing_phase)
                      (fun _ _ => failing_phase) (fun _ _ => failing_phase)
                      sample_cdf "root" sample_pass_world) = Ok tt.
Proof.
  rewrite <- (proj1 (pass_runs_one_family
                       slow_insert_assets slow_insert_assets
                       (fun _ _ => ret 0) (fun _ _ => ret 0)
                       (fun _ _ => ret 0) (fun _ _ => ret 0)
                       (fun _ => ret 0) (fun _ => failing_phase)
                       (fun _ _ _ => ret 0) (fun _ _ _ => failing_phase)
                       (fun _ _ _ => ret 0) (fun _ _ _ => failing_phase)
                       (fun _ _ => ret 0) (fun _ _ => failing_phase)
                       (fun _ _ => ret 0) (fun _ _ => failing_phase)
                       (fun _ _ => ret 0) (fun _ _ => failing_phase)
                       sample_cdf "root" sample_pass_world) eq_refl).
  reflexivity.
Defined.

(** *** The endpoints of a relationship *)

Lemma retry_assets_cases (adt_client : ADT) (digital_twin_id : string)
      (missing_twin missing_resource : LogRecord) (w : ADT2CDF.World) :
  (exists r,
      ADT2CDF_Handlers.retry_by_twin adt_client ADT2CDF.assets_retrieve digital_twin_id
                                     missing_twin missing_resource w = (Ok (Some r), w)
      /\ In r (ADT2CDF.assets (ADT2CDF.cdf w)))
  \/ (exists rec,
         ADT2CDF_Handlers.retry_by_twin adt_client ADT2CDF.assets_retrieve digital_twin_id
                                        missing_twin missing_resource w
         = (Ok None, add_log w rec)).
Proof.
  unfold ADT2CDF_Handlers.retry_by_twin. destruct missing_twin, missing_resource.
  destruct (ADT2CDF_Handlers.twin_externalId adt_client digital_twin_id) as [ext|].
  - unfold ADT2CDF.assets_retrieve, bind, gets.
    destruct (find (ADT2CDF.has_ext ext) (ADT2CDF.assets (ADT2CDF.cdf w))) as [r|] eqn:E.
    + left. exists r. split; [reflexivity|apply (find_some_in _ _ _ E)].
    + right. eexists. reflexivity.
  - right. eexists. reflexivity.
Qed.

Lemma retry_time_series_cases (adt_client : ADT) (digital_twin_id : string)
      (missing_twin missing_resource : LogRecord) (w : ADT2CDF.World) :
  (exists r,
      ADT2CDF_Handlers.retry_by_twin adt_client ADT2CDF.time_series_retrieve digital_twin_id
                                     missing_twin missing_resource w = (Ok (Some r), w)
      /\ In r (ADT2CDF.time_series (ADT2CDF.cdf w)))
  \/ (exists rec,
         ADT2CDF_Handlers.retry_by_twin adt_client ADT2CDF.time_series_retrieve
                                        digital_twin_id missing_twin missing_resource w
         = (Ok None, add_log w rec)).
Proof.
  unfold ADT2CDF_Handlers.retry_by_twin. destruct missing_twin, missing_resource.
  destruct (ADT2CDF_Handlers.twin_externalId adt_client digital_twin_id) as [ext|].
  - unfold ADT2CDF.time_series_retrieve, bind, gets.
    destruct (find (ADT2CDF.has_ext ext) (ADT2CDF.time_series (ADT2CDF.cdf w))) as [r|] eqn:E.
    + left. exists r. split; [reflexivity|apply (find_some_in _ _ _ E)].
    + right. eexists. reflexivity.
  - right. eexists. reflexivity.
Qed.

(** What [get_rel_endpoints] returns, for a body that has the three keys
    it reads. *)
Lemma get_rel_endpoints_cases (adt_client : ADT) (rel : ADT2CDF.Body)
      (source_id rel_name target_id : string) (w w' : ADT2CDF.World)
      (res : result (option (Resource * Resource))) :
  ADT2CDF.b_sourceId rel = Some source_id ->
  ADT2CDF.b_relationshipName rel = Some rel_name ->
  ADT2CDF.b_targetId rel = Some target_id ->
  ADT2CDF_Handlers.get_rel_endpoints adt_client rel w = (res, w') ->
  (exists s t,
      res = Ok (Some (s, t)) /\ w' = w
      /\ In s (ADT2CDF.assets (ADT2CDF.cdf w))
      /\ In t (if String.eqb rel_name "contains"
               then ADT2CDF.time_series (ADT2CDF.cdf w)
               else ADT2CDF.assets (ADT2CDF.cdf w)))
  \/ (exists rec, res = Ok None /\ w' = add_log w rec).
Proof.
  intros Hs Hn Ht H. unfold ADT2CDF_Handlers.get_rel_endpoints in H.
  rewrite Hs, Hn, Ht in H.
  unfold ADT2CDF.item in H. unfold bind at 1 in H. unfold ret at 1 in H.
  unfold ADT2CDF.assets_retrieve at 1 in H. unfold bind at 1 in H. unfold gets at 1 in H.
  unfold bind at 1 in H. unfold ret at 1 in H. unfold bind at 1 in H. unfold ret at 1 in H.
  unfold bind at 1 in H.
  set (target_list := if String.eqb rel_name "contains"
                      then ADT2CDF.time_series (ADT2CDF.cdf w)
                      else ADT2CDF.assets (ADT2CDF.cdf w)).
  assert (T : (if String.eqb rel_name "contains"
               then ADT2CDF.time_series_retrieve target_id
               else ADT2CDF.assets_retrieve target_id) w
              = (Ok (find (ADT2CDF.has_ext target_id) target_list), w)).
  { unfold target_list. destruct (String.eqb rel_name "contains"); reflexivity. }
  rewrite T in H. clear T.
  assert (RT : (exists t,
                   (if String.eqb rel_name "contains"
                    then ADT2CDF_Handlers.retry_by_twin adt_client
                           ADT2CDF.time_series_retrieve target_id
                           (WARNING, "The timeseries with digital twin ID '%s' does not exist in ADT anymore!")
                           (WARNING, "The timeseries with external ID '%s' does not exist in CDF!")
                    else ADT2CDF_Handlers.retry_by_twin adt_client
                           ADT2CDF.assets_retrieve target_id
                           (ERROR, "The timeseries with external ID '%s' does not exist in ADT anymore!")
                           (ERROR, "The asset with external ID '%s' does not exist in CDF!")) w
                   = (Ok (Some t), w) /\ In t target_list)
               \/ (exists rec,
                      (if String.eqb rel_name "contains"
                       then ADT2CDF_Handlers.retry_by_twin adt_client
                              ADT2CDF.time_series_retrieve target_id
                              (WARNING, "The timeseries with digital twin ID '%s' does not exist in ADT anymore!")
                              (WARNING, "The timeseries with external ID '%s' does not exist in CDF!")
                       else ADT2CDF_Handlers.retry_by_twin adt_client
                              ADT2CDF.assets_retrieve target_id
                              (ERROR, "The timeseries with external ID '%s' does not exist in ADT anymore!")
                              (ERROR, "The asset with external ID '%s' does not exist in CDF!")) w
                      = (Ok None, add_log w rec))).
  { unfold target_list. destruct (String.eqb rel_name "contains").
    - apply retry_time_series_cases.
    - apply retry_assets_cases. }
  destruct (find (ADT2CDF.has_ext source_id) (ADT2CDF.assets (ADT2CDF.cdf w)))
    as [s|] eqn:Es;
    destruct (find (ADT2CDF.has_ext target_id) target_list) as [t|] eqn:Et.
  - inversion H; subst. left. exists s, t.
    split; [reflexivity|]. split; [reflexivity|].
    split; [apply (find_some_in _ _ _ Es)|apply (find_some_in _ _ _ Et)].
  - unfold bind at 1 in H. unfold ret at 1 in H. unfold bind at 1 in H.
    destruct RT as [(t & R & Hin)|(rec & R)]; rewrite R in H; inversion H; subst.
    + left. exists s, t. split; [reflexivity|]. split; [reflexivity|].
      split; [apply (find_some_in _ _ _ Es)|exact Hin].
    + right. exists rec. split; reflexivity.
  - unfold bind at 1 in H.
    destruct (retry_assets_cases adt_client source_id
                (WARNING, "The asset with digital twin ID '%s' does not exist in ADT anymore!")
                (WARNING, "The asset with external ID '%s' does not exist in CDF!") w)
      as [(s & R & Hin)|(rec & R)]; rewrite R in H; inversion H; subst.
    + left. exists s, t. split; [reflexivity|]. split; [reflexivity|].
      split; [exact Hin|apply (find_some_in _ _ _ Et)].
    + right. exists rec. split; reflexivity.
  - unfold bind at 1 in H.
    destruct (retry_assets_cases adt_client source_id
                (WARNING, "The asset with digital twin ID '%s' does not exist in ADT anymore!")
                (WARNING, "The asset with external ID '%s' does not exist in CDF!") w)
      as [(s & R & Hin)|(rec & R)]; rewrite R in H.
    2: { inversion H; subst. right. exists rec. split; reflexivity. }
    unfold bind at 1 in H.
    destruct RT as [(t & R2 & Hin2)|(rec & R2)]; rewrite R2 in H; inversion H; subst.
    + left. exists s, t. split; [reflexivity|]. split; [reflexivity|].
      split; assumption.
    + right. exists rec. split; reflexivity.
Qed.

(** X22.  [get_rel_endpoints] only reads: however it ends, the asset graph
    is as it was and no call on it was made.  The endpoints it returns are
    resources of the store, the source an asset and the target a time
    series for a ['contains'] relationship and an asset otherwise, and
    nothing is logged then; when it returns [None] it has logged one
    record. *)
Theorem get_rel_endpoints_sound (adt_client : ADT) (rel : ADT2CDF.Body)
        (w w' : ADT2CDF.World) (res : result (option (Resource * Resource))) :
  ADT2CDF_Handlers.get_rel_endpoints adt_client rel w = (res, w') ->
  ADT2CDF.cdf w' = ADT2CDF.cdf w
  /\ ADT2CDF.calls w' = ADT2CDF.calls w
  /\ (forall s t,
        res = Ok (Some (s, t)) ->
        w' = w
        /\ In s (ADT2CDF.assets (ADT2CDF.cdf w))
        /\ (ADT2CDF.b_relationshipName rel = Some "contains" ->
            In t (ADT2CDF.time_series (ADT2CDF.cdf w)))
        /\ (ADT2CDF.b_relationshipName rel <> Some "contains" ->
            In t (ADT2CDF.assets (ADT2CDF.cdf w))))
  /\ (res = Ok None -> exists rec, w' = add_log w rec).
Proof.
  intros H.
  destruct (ADT2CDF.b_sourceId rel) as [source_id|] eqn:Hs.
  2: { unfold ADT2CDF_Handlers.get_rel_endpoints in H. rewrite Hs in H.
       inversion H; subst. repeat split; intros; discriminate. }
  destruct (ADT2CDF.b_relationshipName rel) as [rel_name|] eqn:Hn.
  2: { unfold ADT2CDF_Handlers.get_rel_endpoints in H. rewrite Hs, Hn in H.
       inversion H; subst. repeat split; intros; discriminate. }
  destruct (ADT2CDF.b_targetId rel) as [target_id|] eqn:Ht.
  2: { unfold ADT2CDF_Handlers.get_rel_endpoints in H. rewrite Hs, Hn, Ht in H.
       inversion H; subst. repeat split; intros; discriminate. }
  destruct (get_rel_endpoints_cases adt_client rel source_id rel_name target_id w w' res
              Hs Hn Ht H) as [(s & t & -> & -> & Hin1 & Hin2)|(rec & -> & ->)].
  - split; [reflexivity|]. split; [reflexivity|]. split.
    + intros s0 t0 E. inversion E; subst s0 t0.
      split; [reflexivity|]. split; [exact Hin1|]. split.
      * intros E1. inversion E1; subst rel_name. exact Hin2.
      * intros E1. destruct (String.eqb rel_name "contains") eqn:Ec; [|exact Hin2].
        apply String.eqb_eq in Ec. congruence.
    + discriminate.
  - split; [reflexivity|]. split; [reflexivity|]. split.
    + discriminate.
    + intros _. exists rec. reflexivity.
Qed.

Lemma get_rel_endpoints_sound_witness :
  ADT2CDF_Handlers.get_rel_endpoints no_adt (contains_body "A1->T1" "A1" "T1")
                                     (world_of pump_and_flow)
  = (Ok (Some (pump, flow)), world_of pump_and_flow)
  /\ In flow (ADT2CDF.time_series (ADT2CDF.cdf (world_of pump_and_flow))).
Proof.
  split; [reflexivity|].
  destruct (get_rel_endpoints_sound no_adt (contains_body "A1->T1" "A1" "T1")
              (world_of pump_and_flow) (world_of pump_and_flow) (Ok (Some (pump, flow)))
              eq_refl) as (_ & _ & H & _).
  destruct (H pump flow eq_refl) as (_ & _ & H1 & _). apply H1. reflexivity.
Defined.

Section RelationshipEvents.
Variable ROOT_EXTERNAL_ID : string.
Variable update_relationship : ADT2CDF.Body -> string -> M ADT2CDF.World bool.

(** X23.  [handle_relationship] creates or deletes nothing for a Create
    or Delete event whose source cannot be found: when CDF holds no asset
    with the id of the source twin and the twin graph has no twin with that
    id, or a twin without ['externalId'], the handler logs the warning and
    returns [False], and the asset graph is as it was.  An Update event is
    passed to [update_relationship] without any lookup. *)
Theorem unresolved_source_stops_handler (adt_client : ADT)
        (event_representation : ADT2CDF.EventRepresentation)
        (ty source_id rel_name target_id : string) (w : ADT2CDF.World) :
  ADT2CDF.type event_representation = Some ty ->
  (In ty ["Create"; "Delete"] ->
   ADT2CDF.b_sourceId (ADT2CDF.body event_representation) = Some source_id ->
   ADT2CDF.b_relationshipName (ADT2CDF.body event_representation) = Some rel_name ->
   ADT2CDF.b_targetId (ADT2CDF.body event_representation) = Some target_id ->
   find (ADT2CDF.has_ext source_id) (ADT2CDF.assets (ADT2CDF.cdf w)) = None ->
   ADT2CDF_Handlers.twin_externalId adt_client source_id = None ->
   ADT2CDF_Handlers.handle_relationship ROOT_EXTERNAL_ID update_relationship
                                        adt_client event_representation w
   = (Ok false,
      add_log w (WARNING, "The asset with digital twin ID '%s' does not exist in ADT anymore!")))
  /\ (ty = "Update" ->
      ADT2CDF_Handlers.handle_relationship ROOT_EXTERNAL_ID update_relationship
                                           adt_client event_representation w
      = update_relationship (ADT2CDF.body event_representation)
                            (ADT2CDF.subject event_representation) w).
Proof.
  intros Hty. split.
  - intros Hin Hs Hn Ht Hf Htw.
    assert (E : ADT2CDF_Handlers.get_rel_endpoints adt_client
                  (ADT2CDF.body event_representation) w
                = (Ok None,
                   add_log w (WARNING, "The asset with digital twin ID '%s' does not exist in ADT anymore!"))).
    { unfold ADT2CDF_Handlers.get_rel_endpoints. rewrite Hs, Hn, Ht.
      unfold ADT2CDF.item. unfold bind at 1. unfold ret at 1.
      unfold ADT2CDF.assets_retrieve at 1. unfold bind at 1. unfold gets at 1. rewrite Hf.
      unfold bind at 1. unfold ret at 1. unfold bind at 1. unfold ret at 1.
      unfold bind at 1.
      assert (T : exists o, (if String.eqb rel_name "contains"
                             then ADT2CDF.time_series_retrieve target_id
                             else ADT2CDF.assets_retrieve target_id) w = (Ok o, w)).
      { destruct (String.eqb rel_name "contains"); eexists; reflexivity. }
      destruct T as [o ->].
      assert (K : forall k : option Resource -> M ADT2CDF.World (option (Resource * Resource)),
                 bind (ADT2CDF_Handlers.retry_by_twin adt_client ADT2CDF.assets_retrieve
                         source_id
                         (WARNING, "The asset with digital twin ID '%s' does not exist in ADT anymore!")
                         (WARNING, "The asset with external ID '%s' does not exist in CDF!"))
                      k w
                 = k None (add_log w (WARNING, "The asset with digital twin ID '%s' does not exist in ADT anymore!"))).
      { intros k. unfold ADT2CDF_Handlers.retry_by_twin. rewrite Htw. reflexivity. }
      destruct o; rewrite K; reflexivity. }
    unfold ADT2CDF_Handlers.handle_relationship. rewrite Hty.
    unfold ADT2CDF.attr. unfold bind at 1. unfold ret at 1.
    assert (Hstr : ADT2CDF.str_in ty ["Create"; "Delete"] = true).
    { simpl in Hin. destruct Hin as [<-|[<-|[]]]; reflexivity. }
    rewrite Hstr. unfold bind at 1. rewrite E. reflexivity.
  - intros ->. unfold ADT2CDF_Handlers.handle_relationship. rewrite Hty. reflexivity.
Qed.
End RelationshipEvents.

Lemma unresolved_source_stops_handler_witness :
  ADT2CDF_Handlers.handle_relationship
    "root" (fun _ _ => ret true) no_adt
    (ADT2CDF.mkEventRepresentation (Some "Delete") (Some "relationship") "A9->root"
                                   (parent_body "A9->root" "A9" "root"))
    (world_of root_only)
  = (Ok false,
     add_log (world_of root_only)
             (WARNING, "The asset with digital twin ID '%s' does not exist in ADT anymore!")).
Proof.
  apply (unresolved_source_stops_handler
           "root" (fun _ _ => ret true) no_adt
           (ADT2CDF.mkEventRepresentation (Some "Delete") (Some "relationship") "A9->root"
                                          (parent_body "A9->root" "A9" "root"))
           "Delete" "A9" "parent" "root" (world_of root_only) eq_refl);
    try reflexivity.
  simpl. auto.
Defined.

(** *** Deleting a relationship *)

Section DeleteRelationship.
Variable ROOT_EXTERNAL_ID : string.

Let delete_relationship := ADT2CDF_Handlers.delete_relationship ROOT_EXTERNAL_ID.

(** X24.  Deleting a ['parent'] relationship never leaves the source
    asset without a parent.  When the parent CDF has for the source is not
    the target of the deleted edge, nothing is changed; otherwise the
    parent becomes the root asset when the twin graph has no other parent
    edge for the source, and the target of the first other parent edge when
    it has one.  All three return [True]. *)
Theorem deleted_parent_edge (adt_client : ADT) (event_body : ADT2CDF.Body)
        (rel_source rel_target : Resource) (source_id target_id relationship_id : string)
        (w : ADT2CDF.World) :
  ADT2CDF.b_relationshipName event_body = Some "parent" ->
  ADT2CDF.b_sourceId event_body = Some source_id ->
  ADT2CDF.b_targetId event_body = Some target_id ->
  ADT2CDF.b_relationshipId event_body = Some relationship_id ->
  let set_parent (p : string) (log_records : list LogRecord) :=
    ADT2CDF.mkWorld
      (ADT2CDF.mkStore
         (map (fun x => if ADT2CDF.has_ext (external_id rel_source) x
                        then set_parent_external_id (Some p) x else x)
              (ADT2CDF.assets (ADT2CDF.cdf w)))
         (ADT2CDF.time_series (ADT2CDF.cdf w)) (ADT2CDF.datapoints (ADT2CDF.cdf w))
         (ADT2CDF.relationships (ADT2CDF.cdf w)) (ADT2CDF.label_definitions (ADT2CDF.cdf w)))
      (ADT2CDF.calls w ++ [ADT2CDF.AssetsSetParent (external_id rel_source) p])
      (ADT2CDF.logs w ++ log_records) in
  if opt_str_eqb (parent_external_id rel_source) (Some (external_id rel_target))
  then
    match query_twins adt_client (ADT2CDF.other_parents_query source_id relationship_id) with
    | [] =>
        delete_relationship adt_client event_body rel_source rel_target w
        = (Ok true, set_parent ROOT_EXTERNAL_ID [])
    | RowR R :: _ =>
        forall p,
          find (ADT2CDF.has_ext (targetId R)) (ADT2CDF.assets (ADT2CDF.cdf w)) = Some p ->
          delete_relationship adt_client event_body rel_source rel_target w
          = (Ok true,
             set_parent (targetId R)
               [(WARNING, "Changing parent in CDF! You are deleting the '%s'->'%s' parent relationship from ADT, but '%s' is another parent in ADT, setting it in CDF as well!")])
    | RowTs _ _ _ :: _ =>
        delete_relationship adt_client event_body rel_source rel_target w
        = (Raise (KeyError "R"), w)
    end
  else
    delete_relationship adt_client event_body rel_source rel_target w
    = (Ok true,
       add_log w (WARNING, "Parent not deleted in CDF! You are deleting the '%s'->'%s' parent relationship from ADT, but the parent is actually '%s' in CDF!")).
Proof.
  intros Hn Hs Ht Hr set_parent.
  assert (R0 : delete_relationship adt_client event_body rel_source rel_target w
               = (if negb (opt_str_eqb (parent_external_id rel_source)
                                       (Some (external_id rel_target)))
                  then
                    bind (ADT2CDF.log WARNING "Parent not deleted in CDF! You are deleting the '%s'->'%s' parent relationship from ADT, but the parent is actually '%s' in CDF!")
                         (fun _ => ret true)
                  else
                    match query_twins adt_client
                            (ADT2CDF.other_parents_query source_id relationship_id) with
                    | row0 :: _ =>
                        bind (ADT2CDF_Handlers.row_R row0)
                             (fun R =>
                                bind (ADT2CDF.log WARNING "Changing parent in CDF! You are deleting the '%s'->'%s' parent relationship from ADT, but '%s' is another parent in ADT, setting it in CDF as well!")
                                     (fun _ =>
                                        bind (ADT2CDF_Handlers.other_asset adt_client (targetId R))
                                             (fun new_parent_asset =>
                                                match new_parent_asset with
                                                | None => ret false
                                                | Some p =>
                                                    bind (ADT2CDF.assets_set_parent
                                                            (external_id rel_source)
                                                            (external_id p))
                                                         (fun _ => ret true)
                                                end)))
                    | [] =>
                        bind (ADT2CDF.assets_set_parent (external_id rel_source)
                                                        ROOT_EXTERNAL_ID)
                             (fun _ => ret true)
                    end) w).
  { unfold delete_relationship, ADT2CDF_Handlers.delete_relationship.
    rewrite Hn, Hs, Ht, Hr.
    unfold ADT2CDF.item. unfold bind at 1. unfold ret at 1.
    cbn [String.eqb Ascii.eqb Bool.eqb].
    destruct (opt_str_eqb (parent_external_id rel_source) (Some (external_id rel_target)));
      cbn [negb].
    - unfold bind at 1. unfold ret at 1. unfold bind at 1. unfold ret at 1.
      destruct (query_twins adt_client
                  (ADT2CDF.other_parents_query source_id relationship_id)); reflexivity.
    - reflexivity. }
  destruct (opt_str_eqb (parent_external_id rel_source) (Some (external_id rel_target)));
    cbn [negb] in R0.
  - destruct (query_twins adt_client (ADT2CDF.other_parents_query source_id relationship_id))
      as [|[R|a t r] rows].
    + rewrite R0. unfold set_parent. rewrite app_nil_r. reflexivity.
    + intros p Hp. rewrite R0.
      assert (Hext : external_id p = targetId R) by (apply (find_some_count _ _ _ Hp)).
      unfold ADT2CDF_Handlers.row_R, ADT2CDF_Handlers.other_asset, ADT2CDF.assets_retrieve,
        ADT2CDF.log, ADT2CDF.assets_set_parent, ADT2CDF.mutate, bind, ret, gets, modify.
      cbn [ADT2CDF.cdf ADT2CDF.calls ADT2CDF.logs]. rewrite Hp, Hext. reflexivity.
    + rewrite R0. reflexivity.
  - rewrite R0. reflexivity.
Qed.

(** X25.  Deleting a ['contains'] relationship never leaves the time
    series without a linked asset.  When the asset CDF links the series to
    is not the source of the deleted edge, nothing is changed; otherwise,
    when the twin graph has no other ['contains'] edge into the series, the
    series is linked to the root asset, and the handler raises
    [AttributeError] when CDF does not hold the root asset. *)
Theorem deleted_contains_edge (adt_client : ADT) (event_body : ADT2CDF.Body)
        (rel_source rel_target : Resource) (source_id target_id relationship_id : string)
        (w : ADT2CDF.World) :
  ADT2CDF.b_relationshipName event_body = Some "contains" ->
  ADT2CDF.b_sourceId event_body = Some source_id ->
  ADT2CDF.b_targetId event_body = Some target_id ->
  ADT2CDF.b_relationshipId event_body = Some relationship_id ->
  if ADT2CDF.opt_Z_eqb (id rel_source) (asset_id rel_target)
  then
    query_twins adt_client (ADT2CDF.other_contains_query target_id relationship_id) = [] ->
    match find (ADT2CDF.has_ext ROOT_EXTERNAL_ID) (ADT2CDF.assets (ADT2CDF.cdf w)) with
    | Some root =>
        delete_relationship adt_client event_body rel_source rel_target w
        = (Ok true,
           ADT2CDF.mkWorld
             (ADT2CDF.mkStore
                (ADT2CDF.assets (ADT2CDF.cdf w))
                (map (fun t => if ADT2CDF.has_ext (external_id rel_target) t
                               then set_asset_id (id root) t else t)
                     (ADT2CDF.time_series (ADT2CDF.cdf w)))
                (ADT2CDF.datapoints (ADT2CDF.cdf w)) (ADT2CDF.relationships (ADT2CDF.cdf w))
                (ADT2CDF.label_definitions (ADT2CDF.cdf w)))
             (ADT2CDF.calls w
              ++ [ADT2CDF.TimeSeriesSetAsset (external_id rel_target) (id root)])
             (ADT2CDF.logs w))
    | None =>
        delete_relationship adt_client event_body rel_source rel_target w
        = (Raise AttributeError, w)
    end
  else
    delete_relationship adt_client event_body rel_source rel_target w
    = (Ok true,
       add_log w (WARNING, "Timeseries-asset link not deleted in CDF! You are deleting the '%s'->'%s' link relationship from ADT, but the linked asset is different in CDF!")).
Proof.
  intros Hn Hs Ht Hr.
  assert (R0 : delete_relationship adt_client event_body rel_source rel_target w
               = (if negb (ADT2CDF.opt_Z_eqb (id rel_source) (asset_id rel_target))
                  then
                    bind (ADT2CDF.log WARNING "Timeseries-asset link not deleted in CDF! You are deleting the '%s'->'%s' link relationship from ADT, but the linked asset is different in CDF!")
                         (fun _ => ret true)
                  else
                    match query_twins adt_client
                            (ADT2CDF.other_contains_query target_id relationship_id) with
                    | row0 :: _ =>
                        bind (ADT2CDF_Handlers.row_R row0)
                             (fun R =>
                                bind (ADT2CDF.log WARNING "Changing linked asset in CDF! You are deleting the '%s'->'%s' link relationship from ADT, but '%s' is another linked asset in ADT, setting it in CDF as well!")
                                     (fun _ =>
                                        bind (ADT2CDF_Handlers.other_asset adt_client (sourceId R))
                                             (fun new_linked_asset =>
                                                match new_linked_asset with
                                                | None => ret false
                                                | Some a =>
                                                    bind (ADT2CDF.time_series_set_asset
                                                            (external_id rel_target) (id a))
                                                         (fun _ => ret true)
                                                end)))
                    | [] =>
                        bind (ADT2CDF.assets_retrieve ROOT_EXTERNAL_ID)
                             (fun root =>
                                bind (ADT2CDF.attr root)
                                     (fun r =>
                                        bind (ADT2CDF.time_series_set_asset
                                                (external_id rel_target) (id r))
                                             (fun _ => ret true)))
                    end) w).
  { unfold delete_relationship, ADT2CDF_Handlers.delete_relationship.
    rewrite Hn, Hs, Ht, Hr.
    unfold ADT2CDF.item. unfold bind at 1. unfold ret at 1.
    cbn [String.eqb Ascii.eqb Bool.eqb].
    destruct (ADT2CDF.opt_Z_eqb (id rel_source) (asset_id rel_target)); cbn [negb].
    - unfold bind at 1. unfold ret at 1. unfold bind at 1. unfold ret at 1.
      destruct (query_twins adt_client
                  (ADT2CDF.other_contains_query target_id relationship_id)); reflexivity.
    - reflexivity. }
  destruct (ADT2CDF.opt_Z_eqb (id rel_source) (asset_id rel_target)); cbn [negb] in R0.
  - intros Hq. rewrite Hq in R0.
    destruct (find (ADT2CDF.has_ext ROOT_EXTERNAL_ID) (ADT2CDF.assets (ADT2CDF.cdf w)))
      as [root|] eqn:E; rewrite R0;
      unfold ADT2CDF.assets_retrieve, ADT2CDF.attr, bind, gets, ret, raise; rewrite E;
      reflexivity.
  - rewrite R0. reflexivity.
Qed.

(** X26.  A ['relatesTo'] relationship is deleted from CDF only when the
    CDF relationship with the id of the event has the source and the
    target of the event.  With another source or target it is kept, a
    warning is logged and the handler returns [True]; when CDF has no such
    relationship the handler logs an error and returns [False]. *)
Theorem deleted_relates_to (adt_client : ADT) (event_body : ADT2CDF.Body)
        (rel_source rel_target : Resource) (source_id target_id relationship_id : string)
        (w : ADT2CDF.World) :
  ADT2CDF.b_relationshipName event_body = Some "relatesTo" ->
  ADT2CDF.b_sourceId event_body = Some source_id ->
  ADT2CDF.b_targetId event_body = Some target_id ->
  ADT2CDF.b_relationshipId event_body = Some relationship_id ->
  match find (fun r => String.eqb (ADT2CDF.rel_external_id r) relationship_id)
             (ADT2CDF.relationships (ADT2CDF.cdf w)) with
  | None =>
      delete_relationship adt_client event_body rel_source rel_target w
      = (Ok false,
         add_log w (ERROR, "Relationship with external ID '%s' does not exist in CDF!"))
  | Some r =>
      if String.eqb (ADT2CDF.source_external_id r) source_id
      then if String.eqb (ADT2CDF.target_external_id r) target_id
           then
             delete_relationship adt_client event_body rel_source rel_target w
             = (Ok true,
                ADT2CDF.mkWorld
                  (ADT2CDF.mkStore
                     (ADT2CDF.assets (ADT2CDF.cdf w)) (ADT2CDF.time_series (ADT2CDF.cdf w))
                     (ADT2CDF.datapoints (ADT2CDF.cdf w))
                     (filter (fun x => negb (String.eqb (ADT2CDF.rel_external_id x)
                                                        relationship_id))
                             (ADT2CDF.relationships (ADT2CDF.cdf w)))
                     (ADT2CDF.label_definitions (ADT2CDF.cdf w)))
                  (ADT2CDF.calls w) (ADT2CDF.logs w))
           else
             delete_relationship adt_client event_body rel_source rel_target w
             = (Ok true,
                add_log w (WARNING, "Relationship '%s' not deleted from CDF, because the target asset in CDF ('%s') is different from ADT ('%s')!"))
      else
        delete_relationship adt_client event_body rel_source rel_target w
        = (Ok true,
           add_log w (WARNING, "Relationship '%s' not deleted from CDF, because the source asset in CDF ('%s') is different from ADT ('%s')!"))
  end.
Proof.
  intros Hn Hs Ht Hr.
  destruct (find (fun r => String.eqb (ADT2CDF.rel_external_id r) relationship_id)
                 (ADT2CDF.relationships (ADT2CDF.cdf w))) as [r|] eqn:E;
    [destruct (String.eqb (ADT2CDF.source_external_id r) source_id) eqn:E1;
     [destruct (String.eqb (ADT2CDF.target_external_id r) target_id) eqn:E2|]|];
    unfold delete_relationship, ADT2CDF_Handlers.delete_relationship;
    rewrite Hn, Hs, Ht, Hr;
    unfold ADT2CDF.item; unfold bind at 1; unfold ret at 1;
    cbn [String.eqb Ascii.eqb Bool.eqb];
    unfold ADT2CDF.relationships_retrieve, ADT2CDF.log,
      ADT2CDF_Handlers.relationships_delete, bind, ret, gets, modify;
    cbv beta; rewrite E; cbv beta iota; rewrite ?E1; cbn [negb]; cbv beta iota;
    rewrite ?E2; reflexivity.
Qed.
End DeleteRelationship.

Lemma deleted_parent_edge_witness :
  ADT2CDF_Handlers.delete_relationship "root" no_adt (parent_body "A1->root" "A1" "root")
                                       pump sample_root (world_of (store_with pump))
  = (Ok true,
     ADT2CDF.mkWorld (store_with pump) [ADT2CDF.AssetsSetParent "A1" "root"] []).
Proof.
  apply (deleted_parent_edge "root" no_adt (parent_body "A1->root" "A1" "root")
           pump sample_root "A1" "root" "A1->root" (world_of (store_with pump)));
    reflexivity.
Defined.

Lemma deleted_contains_edge_witness :
  ADT2CDF_Handlers.delete_relationship "root" no_adt (contains_body "A1->T1" "A1" "T1")
                                       pump flow (world_of pump_and_flow)
  = (Raise AttributeError, world_of pump_and_flow).
Proof.
  apply (deleted_contains_edge "root" no_adt (contains_body "A1->T1" "A1" "T1")
           pump flow "A1" "T1" "A1->T1" (world_of pump_and_flow));
    reflexivity.
Defined.

Lemma deleted_relates_to_witness :
  let s := ADT2CDF.mkStore [pump; sample_root] [] []
                           [ADT2CDF.mkCdfRelationship "r1" "A1" "root" []] [] in
  ADT2CDF_Handlers.delete_relationship "root" no_adt (relates_body "r1" "A1" "A2" None)
                                       pump sample_root (world_of s)
  = (Ok true,
     add_log (world_of s)
             (WARNING, "Relationship '%s' not deleted from CDF, because the target asset in CDF ('%s') is different from ADT ('%s')!")).
Proof.
  intros s.
  apply (deleted_relates_to "root" no_adt (relates_body "r1" "A1" "A2" None)
           pump sample_root "A1" "A2" "r1" (world_of s)); reflexivity.
Defined.

(** *** The time-series handlers *)

Lemma keeps_assets_ret {A} (a : A) : keeps_assets (ret a).
Proof. intros w r w' H. inversion H; subst. repeat split. Qed.

Lemma keeps_assets_raise {A} (e : exn) : keeps_assets (@raise ADT2CDF.World A e).
Proof. intros w r w' H. inversion H; subst. repeat split. Qed.

Lemma keeps_assets_gets {A} (f : ADT2CDF.World -> A) : keeps_assets (gets f).
Proof. intros w r w' H. inversion H; subst. repeat split. Qed.

Lemma keeps_assets_diverge {A} :
  keeps_assets (fun w : ADT2CDF.World => (@Diverge A, w)).
Proof. intros w r w' H. inversion H; subst. repeat split. Qed.

Lemma keeps_assets_bind {A B} (m : M ADT2CDF.World A) (k : A -> M ADT2CDF.World B) :
  keeps_assets m -> (forall a, keeps_assets (k a)) -> keeps_assets (bind m k).
Proof.
  intros Hm Hk w r w' H. unfold bind in H.
  destruct (m w) as [[a|e|] w1] eqn:E; apply Hm in E; destruct E as (E1 & E2 & E3).
  - apply Hk in H. destruct H as (H1 & H2 & H3). repeat split; congruence.
  - inversion H; subst. repeat split; assumption.
  - inversion H; subst. repeat split; assumption.
Qed.

Lemma keeps_assets_log l msg : keeps_assets (ADT2CDF.log l msg).
Proof. intros w r w' H. inversion H; subst. repeat split. Qed.

Lemma keeps_assets_attr {A} (v : option A) : keeps_assets (ADT2CDF.attr v).
Proof. destruct v; [apply keeps_assets_ret|apply keeps_assets_raise]. Qed.

Lemma keeps_assets_item {A} key (v : option A) : keeps_assets (ADT2CDF.item key v).
Proof. destruct v; [apply keeps_assets_ret|apply keeps_assets_raise]. Qed.

Lemma keeps_assets_time_series_ops :
  (forall ext, keeps_assets (ADT2CDF.time_series_delete ext))
  /\ (forall r, keeps_assets (ADT2CDF.time_series_create r))
  /\ (forall r, keeps_assets (ADT2CDF.time_series_update r))
  /\ (forall d, keeps_assets (ADT2CDF.datapoints_insert d)).
Proof.
  split; [|split; [|split]]; intros x w r w' H; inversion H; subst; repeat split.
Qed.

Lemma keeps_assets_fetch record event_body :
  keeps_assets (ADT2CDF.fetch_changes_to_CDF_record record event_body).
Proof.
  intros w r w' H. apply fetch_changes_kept in H. destruct H as [[G _] _].
  rewrite G. repeat split.
Qed.

Ltac keeps_assets_step :=
  first [ apply keeps_assets_fetch
        | apply keeps_assets_bind
        | match goal with |- forall _, _ => intro end
        | apply keeps_assets_ret
        | apply keeps_assets_raise
        | apply keeps_assets_gets
        | apply keeps_assets_log
        | apply keeps_assets_attr
        | apply keeps_assets_item
        | apply keeps_assets_diverge
        | apply (proj1 keeps_assets_time_series_ops)
        | apply (proj1 (proj2 keeps_assets_time_series_ops))
        | apply (proj1 (proj2 (proj2 keeps_assets_time_series_ops)))
        | apply (proj2 (proj2 (proj2 keeps_assets_time_series_ops)))
        | match goal with
          | |- keeps_assets (if ?c then _ else _) => destruct c
          | |- keeps_assets (match ?x with _ => _ end) => destruct x
          | |- keeps_assets (let (_, _) := ?x in _) => destruct x
          end ].

Section TimeSeriesHandlers.
Variable ROOT_EXTERNAL_ID : string.
Variables strptime float_of : string -> option Q.

Lemma keeps_assets_check adt_id latest_value timestamp_str :
  keeps_assets (ADT2CDF.check_and_insert_datapoint strptime float_of
                                                   adt_id latest_value timestamp_str).
Proof.
  unfold ADT2CDF.check_and_insert_datapoint, ADT2CDF.datapoints_retrieve_latest,
    ADT2CDF.time_series_retrieve.
  repeat keeps_assets_step.
Qed.

Lemma keeps_assets_insert_datapoints ext actions :
  forall live has_datapoint,
    keeps_assets (ADT2CDF_Handlers.insert_datapoints strptime float_of ext actions live
                                                     has_datapoint).
Proof.
  induction actions as [|action rest IH]; intros live has_datapoint.
  - apply keeps_assets_ret.
  - cbn [ADT2CDF_Handlers.insert_datapoints]. unfold ADT2CDF_Handlers.get_str.
    repeat first [ apply IH | apply keeps_assets_check | keeps_assets_step ].
Qed.

Lemma keeps_assets_update_timeseries adt_client adt_id event_body :
  keeps_assets (ADT2CDF_Handlers.update_timeseries strptime float_of
                                                   adt_client adt_id event_body).
Proof.
  unfold ADT2CDF_Handlers.update_timeseries, ADT2CDF.time_series_retrieve.
  repeat first [ apply keeps_assets_insert_datapoints | keeps_assets_step ].
Qed.

Lemma keeps_assets_create_timeseries adt_id event_body :
  keeps_assets (ADT2CDF.create_timeseries ROOT_EXTERNAL_ID strptime float_of
                                          adt_id event_body).
Proof.
  unfold ADT2CDF.create_timeseries, ADT2CDF.has_timeseries_in_CDF_by_external_id,
    ADT2CDF.time_series_retrieve, ADT2CDF.assets_retrieve, ADT2CDF.fill_from_body.
  repeat first [ apply keeps_assets_check | keeps_assets_step ].
Qed.

Lemma keeps_assets_delete_timeseries adt_id :
  keeps_assets (ADT2CDF.delete_timeseries adt_id).
Proof.
  unfold ADT2CDF.delete_timeseries, ADT2CDF.has_timeseries_in_CDF_by_external_id,
    ADT2CDF.time_series_retrieve.
  repeat keeps_assets_step.
Qed.

(** X27.  No event of a time series changes an asset: however
    [handle_timeseries] ends, for a Create, an Update or a Delete event, the
    assets, the relationships and the label definitions of the store are as
    they were. *)
Theorem handle_timeseries_keeps_assets (adt_client : ADT)
        (event_representation : ADT2CDF.EventRepresentation)
        (w w' : ADT2CDF.World) (res : result bool) :
  ADT2CDF_Handlers.handle_timeseries ROOT_EXTERNAL_ID strptime float_of
                                     adt_client event_representation w = (res, w') ->
  ADT2CDF.assets (ADT2CDF.cdf w') = ADT2CDF.assets (ADT2CDF.cdf w)
  /\ ADT2CDF.relationships (ADT2CDF.cdf w') = ADT2CDF.relationships (ADT2CDF.cdf w)
  /\ ADT2CDF.label_definitions (ADT2CDF.cdf w')
     = ADT2CDF.label_definitions (ADT2CDF.cdf w).
Proof.
  revert w res w'. change (keeps_assets (ADT2CDF_Handlers.handle_timeseries
                                           ROOT_EXTERNAL_ID strptime float_of
                                           adt_client event_representation)).
  unfold ADT2CDF_Handlers.handle_timeseries.
  repeat first [ apply keeps_assets_create_timeseries
               | apply keeps_assets_update_timeseries
               | apply keeps_assets_delete_timeseries
               | keeps_assets_step ].
Qed.

(** The part of [update_timeseries] that follows the retrieval of the
    series returns [True] when it returns. *)
Lemma update_resolved_true (timeseries : Resource) (event_body : ADT2CDF.Body)
      (w w' : ADT2CDF.World) (b : bool) :
  bind (ADT2CDF.fetch_changes_to_CDF_record timeseries event_body)
       (fun st =>
          bind (if fst st then ADT2CDF.time_series_update (snd st) else ret tt)
               (fun _ =>
                  bind (ADT2CDF.item "patch" (ADT2CDF.b_patch event_body))
                       (fun patch =>
                          bind (ADT2CDF_Handlers.insert_datapoints
                                  strptime float_of (external_id (snd st)) patch patch false)
                               (fun has_datapoint =>
                                  if negb (fst st) && negb has_datapoint
                                  then bind (ADT2CDF.log WARNING "Nothing to update! Timeseries '%s' and latest value is already up to date!")
                                            (fun _ => ret true)
                                  else ret (fst st || has_datapoint))))) w
  = (Ok b, w') ->
  b = true.
Proof.
  intros H.
  apply bind_ok in H. destruct H as ([hc r] & w1 & _ & H). cbn [fst snd] in H.
  apply bind_ok in H. destruct H as (u & w2 & _ & H).
  apply bind_ok in H. destruct H as (patch & w3 & _ & H).
  apply bind_ok in H. destruct H as (hd & w4 & _ & H).
  destruct hc, hd; cbn [negb andb orb] in H;
    unfold ADT2CDF.log, bind, ret, modify in H; inversion H; reflexivity.
Qed.

(** X28.  [update_timeseries] returns [False] only when it cannot find
    the time series, after logging the error: once the series is found,
    every run that returns returns [True], whether or not a property or the
    latest value changed. *)
Theorem update_timeseries_false_only_unresolved (adt_client : ADT) (adt_id : string)
        (event_body : ADT2CDF.Body) (w w' : ADT2CDF.World) :
  ADT2CDF_Handlers.update_timeseries strptime float_of adt_client adt_id event_body w
  = (Ok false, w') ->
  find (ADT2CDF.has_ext adt_id) (ADT2CDF.time_series (ADT2CDF.cdf w)) = None
  /\ w' = add_log w (ERROR, "Cannot perform update! CDF timeseries with external ID '%s' does not exist!").
Proof.
  unfold ADT2CDF_Handlers.update_timeseries, ADT2CDF.time_series_retrieve.
  unfold bind at 1. unfold gets at 1.
  destruct (find (ADT2CDF.has_ext adt_id) (ADT2CDF.time_series (ADT2CDF.cdf w)))
    as [t|] eqn:E.
  - unfold bind at 1. unfold ret at 1. intros H.
    apply update_resolved_true in H. discriminate.
  - destruct (get_digital_twin adt_client adt_id) as [dt|]; [|discriminate].
    destruct (dt_externalId dt) as [ext|].
    + unfold bind at 1. unfold bind at 1. unfold gets at 1.
      destruct (find (ADT2CDF.has_ext ext) (ADT2CDF.time_series (ADT2CDF.cdf w)))
        as [t|] eqn:E2.
      * unfold ret at 1. intros H. apply update_resolved_true in H. discriminate.
      * unfold ADT2CDF.log, bind, ret, modify. intros H. inversion H; subst.
        split; reflexivity.
    + unfold ADT2CDF.log, bind, ret, modify. intros H. inversion H; subst.
      split; reflexivity.
Qed.
End TimeSeriesHandlers.

Lemma handle_timeseries_keeps_assets_witness :
  let s := ADT2CDF.mkStore [pump] [flow] [ADT2CDF.mkDatapoint "T1" 5000%Q (ADT2CDF.DNum 1%Q)]
                           [] [] in
  let run := ADT2CDF_Handlers.handle_timeseries
               "root" (fun _ => Some 6%Q) (fun _ => Some 2%Q) no_adt
               (ADT2CDF.mkEventRepresentation (Some "Update") (Some "timeseries") "T1"
                                              value_update_body)
               (world_of s) in
  fst run = Ok true
  /\ ADT2CDF.calls (snd run)
     = [ADT2CDF.DatapointsInsert (ADT2CDF.mkDatapoint "T1" (6 * 1000)%Q (ADT2CDF.DNum 2%Q))]
  /\ ADT2CDF.assets (ADT2CDF.cdf (snd run)) = [pump].
Proof.
  intros s run. split; [reflexivity|]. split; [reflexivity|].
  apply (handle_timeseries_keeps_assets
           "root" (fun _ => Some 6%Q) (fun _ => Some 2%Q) no_adt
           (ADT2CDF.mkEventRepresentation (Some "Update") (Some "timeseries") "T1"
                                          value_update_body)
           (world_of s) (snd run) (fst run)).
  reflexivity.
Defined.

Lemma update_timeseries_false_only_unresolved_witness :
  let twin := mkTwin (Some "Flow") None None None (Some None) None in
  let w' := snd (ADT2CDF_Handlers.update_timeseries
                   (fun _ => Some 6%Q) (fun _ => Some 2%Q)
                   (mkADT (fun _ => Some twin) (fun _ => [])) "T9" value_update_body
                   (world_of pump_and_flow)) in
  find (ADT2CDF.has_ext "T9") (ADT2CDF.time_series pump_and_flow) = None
  /\ w' = add_log (world_of pump_and_flow)
                  (ERROR, "Cannot perform update! CDF timeseries with external ID '%s' does not exist!").
Proof.
  intros twin w'.
  apply (update_timeseries_false_only_unresolved
           (fun _ => Some 6%Q) (fun _ => Some 2%Q)
           (mkADT (fun _ => Some twin) (fun _ => [])) "T9" value_update_body
           (world_of pump_and_flow) w').
  reflexivity.
Defined.

(** *** Writing the twin graph *)

Lemma get_twin_dict_run (a : Resource) (m : dict string) (w : CDF2ADT_Graph.World) :
  metadata a = Some m ->
  CDF2ADT.get_twin_dict a ASSET w = (Ok (asset_twin a m), w).
Proof.
  intros Hm. unfold CDF2ADT.get_twin_dict, CDF2ADT.convert_metadata, asset_twin.
  rewrite Hm. unfold bind, ret.
  destruct (truthy_opt (description a)); reflexivity.
Qed.

Lemma create_twin_run (a : Resource) (w : CDF2ADT_Graph.World) :
  (forall c, CDF2ADT_Graph.refused w c = None) ->
  metadata a <> None ->
  CDF2ADT_Graph.create_twin a w
  = (Ok tt, CDF2ADT_Graph.mkWorld (CDF2ADT_Graph.side w) (CDF2ADT_Graph.refused w)
                                  (CDF2ADT_Graph.sent w ++ twin_calls a)).
Proof.
  intros Hr Hm. destruct (metadata a) as [m|] eqn:Em; [|congruence].
  unfold CDF2ADT_Graph.create_twin. unfold bind at 1.
  rewrite (get_twin_dict_run a m w Em).
  unfold twin_calls, parent_edge. rewrite Em.
  unfold try_except, bind, CDF2ADT_Graph.send. rewrite Hr.
  destruct (parent_external_id a) as [parent|].
  - destruct (truthy parent).
    + unfold CDF2ADT_Graph.insert_adt_relationship.
      cbn [existsb String.eqb Ascii.eqb Bool.eqb orb negb].
      unfold CDF2ADT_Graph.send. cbn [CDF2ADT_Graph.refused CDF2ADT_Graph.side
                                       CDF2ADT_Graph.sent relationshipId].
      rewrite Hr, <- app_assoc. reflexivity.
    + reflexivity.
  - reflexivity.
Qed.

Lemma insert_each_run (asset_list : list Resource) :
  forall n (w : CDF2ADT_Graph.World),
    (forall c, CDF2ADT_Graph.refused w c = None) ->
    (forall a, In a asset_list -> metadata a <> None) ->
    CDF2ADT_Graph.insert_each asset_list n w
    = (Ok (n + List.length asset_list),
       CDF2ADT_Graph.mkWorld (CDF2ADT_Graph.side w) (CDF2ADT_Graph.refused w)
                             (CDF2ADT_Graph.sent w ++ flat_map twin_calls asset_list)).
Proof.
  induction asset_list as [|a rest IH]; intros n w Hr Hm.
  - cbn. rewrite Nat.add_0_r, app_nil_r. destruct w; reflexivity.
  - cbn [CDF2ADT_Graph.insert_each]. unfold bind.
    rewrite (create_twin_run a w Hr (Hm a (or_introl eq_refl))).
    rewrite IH; [|exact Hr|intros a' Ha'; apply Hm; right; exact Ha'].
    cbn [CDF2ADT_Graph.side CDF2ADT_Graph.refused CDF2ADT_Graph.sent flat_map List.length].
    rewrite <- app_assoc.
    replace (n + 1 + List.length rest) with (n + S (List.length rest)) by lia.
    reflexivity.
Qed.

Lemma insert_each_stops (pre : list Resource) (a : Resource) (post : list Resource) :
  forall n (w : CDF2ADT_Graph.World),
    (forall c, CDF2ADT_Graph.refused w c = None) ->
    (forall x, In x pre -> metadata x <> None) ->
    metadata a = None ->
    CDF2ADT_Graph.insert_each (pre ++ a :: post) n w
    = (Raise TypeError,
       CDF2ADT_Graph.mkWorld (CDF2ADT_Graph.side w) (CDF2ADT_Graph.refused w)
                             (CDF2ADT_Graph.sent w ++ flat_map twin_calls pre)).
Proof.
  induction pre as [|x pre IH]; intros n w Hr Hm Ha.
  - cbn [app CDF2ADT_Graph.insert_each flat_map]. unfold bind.
    unfold CDF2ADT_Graph.create_twin, CDF2ADT.get_twin_dict, CDF2ADT.convert_metadata.
    rewrite Ha. unfold bind, raise. rewrite app_nil_r. destruct w; reflexivity.
  - cbn [app CDF2ADT_Graph.insert_each]. unfold bind.
    rewrite (create_twin_run x w Hr (Hm x (or_introl eq_refl))).
    rewrite IH; [|exact Hr|intros x' Hx'; apply Hm; right; exact Hx'|exact Ha].
    cbn [CDF2ADT_Graph.side CDF2ADT_Graph.refused CDF2ADT_Graph.sent flat_map].
    rewrite <- app_assoc. reflexivity.
Qed.

(** X29.  On a twin graph that accepts every call, [insert_assets] returns
    the number of assets after sending, for each asset in turn, the upsert
    of its twin under the translated external id and, for an asset with a
    parent, the upsert of a ['parent'] edge to the translated id of the
    parent, with the relationship id [child->parent].  The first asset
    without a metadata dictionary ends the run with [TypeError]; the calls
    for the assets before it have been sent and stay sent. *)
Theorem insert_assets_calls (asset_list : list Resource) (w : CDF2ADT_Graph.World) :
  (forall c, CDF2ADT_Graph.refused w c = None) ->
  ((forall a, In a asset_list -> metadata a <> None) ->
   CDF2ADT_Graph.insert_assets asset_list w
   = (Ok (List.length asset_list),
      CDF2ADT_Graph.mkWorld (CDF2ADT_Graph.side w) (CDF2ADT_Graph.refused w)
                            (CDF2ADT_Graph.sent w ++ flat_map twin_calls asset_list)))
  /\ (forall pre a post,
        asset_list = pre ++ a :: post ->
        (forall x, In x pre -> metadata x <> None) ->
        metadata a = None ->
        CDF2ADT_Graph.insert_assets asset_list w
        = (Raise TypeError,
           CDF2ADT_Graph.mkWorld (CDF2ADT_Graph.side w) (CDF2ADT_Graph.refused w)
                                 (CDF2ADT_Graph.sent w ++ flat_map twin_calls pre))).
Proof.
  intros Hr. split.
  - intros Hm. unfold CDF2ADT_Graph.insert_assets.
    rewrite (insert_each_run asset_list 0 w Hr Hm). reflexivity.
  - intros pre a post -> Hm Ha. unfold CDF2ADT_Graph.insert_assets.
    apply insert_each_stops; assumption.
Qed.

Lemma insert_assets_calls_witness :
  CDF2ADT_Graph.insert_assets [sample_root; pump; bare_child] (open_graph no_adt)
  = (Raise TypeError,
     CDF2ADT_Graph.mkWorld
       (idle_twin_side no_adt) (fun _ => None)
       [CDF2ADT_Graph.UpsertDigitalTwin "root" (asset_twin sample_root []);
        CDF2ADT_Graph.UpsertDigitalTwin "A1" (asset_twin pump []);
        CDF2ADT_Graph.UpsertRelationship
          "A1" "A1->root" (mkRelationship "A1->root" "parent" "A1" "root" None)]).
Proof.
  apply (proj2 (insert_assets_calls [sample_root; pump; bare_child] (open_graph no_adt)
                  (fun _ => eq_refl))
               [sample_root; pump] bare_child [] eq_refl).
  - intros x [<-|[<-|[]]]; discriminate.
  - reflexivity.
Defined.

Section StaleRelationships.
Variable str_of_list : list string -> string.
Variable relationships_list : list string -> list string -> list ADT2CDF.CdfRelationship.

Lemma delete_stale_run (rel_ext_ids : list string) (rows : list Row) :
  forall n (w w' : CDF2ADT_Graph.World) res,
    CDF2ADT_Graph.delete_stale rel_ext_ids rows n w = (res, w') ->
    exists deleted rest,
      CDF2ADT_Graph.sent w' = CDF2ADT_Graph.sent w ++ deleted
      /\ CDF2ADT_Graph.side w' = CDF2ADT_Graph.side w
      /\ stale_deletions rel_ext_ids rows = deleted ++ rest
      /\ (forall m, res = Ok m -> m = n + List.length deleted)
      /\ ((forall c, CDF2ADT_Graph.refused w c = None) ->
          forallb is_RowR rows = true ->
          res = Ok (n + List.length deleted) /\ rest = []).
Proof.
  induction rows as [|r rows IH]; intros n w w' res H.
  - inversion H; subst. exists [], []. rewrite app_nil_r.
    cbn [List.length]. rewrite Nat.add_0_r.
    split; [reflexivity|]. split; [reflexivity|]. split; [reflexivity|].
    split; [intros m E; inversion E; reflexivity|].
    intros _ _. split; reflexivity.
  - cbn [CDF2ADT_Graph.delete_stale] in H. destruct r as [R|a t i].
    + unfold CDF2ADT_Graph.row_R in H. unfold bind at 1 in H. unfold ret at 1 in H.
      cbn [stale_deletions flat_map].
      destruct (negb (existsb (String.eqb (relationshipId R)) rel_ext_ids)) eqn:Est.
      * unfold bind at 1 in H. unfold CDF2ADT_Graph.send in H.
        destruct (CDF2ADT_Graph.refused w
                    (CDF2ADT_Graph.DeleteRelationship (sourceId R) (relationshipId R)))
          as [e|] eqn:Eref.
        -- inversion H; subst.
           exists [], ([CDF2ADT_Graph.DeleteRelationship (sourceId R) (relationshipId R)]
                         ++ stale_deletions rel_ext_ids rows).
           rewrite app_nil_r.
           split; [reflexivity|]. split; [reflexivity|]. split; [reflexivity|].
           split; [intros m E; discriminate|].
           intros Hr. rewrite Hr in Eref. discriminate.
        -- apply IH in H. destruct H as (deleted & rest & H1 & H2 & H3 & H4 & H5).
           cbn [CDF2ADT_Graph.sent CDF2ADT_Graph.side CDF2ADT_Graph.refused] in *.
           exists (CDF2ADT_Graph.DeleteRelationship (sourceId R) (relationshipId R)
                     :: deleted), rest.
           split; [rewrite H1, <- app_assoc; reflexivity|].
           split; [exact H2|].
           split; [fold (stale_deletions rel_ext_ids rows); rewrite H3; reflexivity|].
           split.
           ++ intros m E. apply H4 in E. cbn [List.length]. lia.
           ++ intros Hr Hrows. cbn [forallb is_RowR andb] in Hrows.
              destruct (H5 Hr Hrows) as [E1 E2]. split; [|exact E2].
              rewrite E1. cbn [List.length].
              replace (n + 1 + List.length deleted) with (n + S (List.length deleted)) by lia.
              reflexivity.
      * apply IH in H. destruct H as (deleted & rest & H1 & H2 & H3 & H4 & H5).
        exists deleted, rest.
        split; [exact H1|]. split; [exact H2|].
        split; [fold (stale_deletions rel_ext_ids rows); rewrite H3; reflexivity|].
        split; [exact H4|].
        intros Hr Hrows. cbn [forallb is_RowR andb] in Hrows. exact (H5 Hr Hrows).
    + unfold CDF2ADT_Graph.row_R, bind, raise in H. inversion H; subst.
      exists [], (stale_deletions rel_ext_ids (RowTs a t i :: rows)).
      rewrite app_nil_r.
      split; [reflexivity|]. split; [reflexivity|]. split; [reflexivity|].
      split; [intros m E; discriminate|].
      intros _ Hrows. discriminate.
Qed.

Lemma stale_deletions_safe (rel_ext_ids : list string) (rows : list Row) c :
  In c (stale_deletions rel_ext_ids rows) ->
  exists R, In (RowR R) rows
            /\ c = CDF2ADT_Graph.DeleteRelationship (sourceId R) (relationshipId R)
            /\ ~ In (relationshipId R) rel_ext_ids.
Proof.
  unfold stale_deletions. intros H. apply in_flat_map in H.
  destruct H as ([R|a t i] & Hin & Hc); [|destruct Hc].
  destruct (negb (existsb (String.eqb (relationshipId R)) rel_ext_ids)) eqn:E; [|destruct Hc].
  destruct Hc as [<-|[]]. exists R. split; [exact Hin|]. split; [reflexivity|].
  intros Hi. apply negb_true_iff in E.
  assert (X : existsb (String.eqb (relationshipId R)) rel_ext_ids = true).
  { apply existsb_exists. exists (relationshipId R). split; [exact Hi|apply String.eqb_refl]. }
  congruence.
Qed.

(** X30.  [delete_asset_to_asset_relationships] deletes stale
    relationships only.  However the run ends, every call it has sent is
    the deletion of a relationship returned by the twin-graph query whose
    id is not among the ids of the relationships CDF lists for the assets;
    the twin graph is queried in batches first; and the number returned is
    the number of deletions sent.  When the twin graph accepts every call,
    every such relationship of the query result is deleted. *)
Theorem only_stale_relationships_deleted (asset_list : list Resource)
        (w w' : CDF2ADT_Graph.World) (res : result nat) :
  let ids := map external_id asset_list in
  let rel_ext_ids := map ADT2CDF.rel_external_id (relationships_list ids ids) in
  let query := CDF2ADT.query_adt_batches
                 str_of_list
                 ("SELECT R FROM DIGITALTWINS T JOIN CT RELATED T.relatesTo R WHERE T.$dtId in "
                    ++ CDF2ADT.SQL_PLACEHOLDER)%string
                 (map CDF2ADT.convert_ext_id ids) (CDF2ADT_Graph.side w) in
  CDF2ADT_Graph.delete_asset_to_asset_relationships str_of_list relationships_list
                                                    asset_list w = (res, w') ->
  exists rows deleted,
    fst query = Ok rows
    /\ CDF2ADT_Graph.side w' = snd query
    /\ CDF2ADT_Graph.sent w' = CDF2ADT_Graph.sent w ++ deleted
    /\ (forall c, In c deleted ->
          exists R, In (RowR R) rows
                    /\ c = CDF2ADT_Graph.DeleteRelationship (sourceId R) (relationshipId R)
                    /\ ~ In (relationshipId R) rel_ext_ids)
    /\ (forall n, res = Ok n -> n = List.length deleted)
    /\ ((forall c, CDF2ADT_Graph.refused w c = None) ->
        forallb is_RowR rows = true ->
        res = Ok (List.length deleted) /\ deleted = stale_deletions rel_ext_ids rows).
Proof.
  intros ids rel_ext_ids query H.
  unfold CDF2ADT_Graph.delete_asset_to_asset_relationships in H.
  fold ids in H. fold rel_ext_ids in H.
  unfold bind at 1 in H. unfold CDF2ADT_Graph.lift at 1 in H. fold query in H.
  assert (Q : exists rows tw, query = (Ok rows, tw)).
  { unfold query, CDF2ADT.query_adt_batches. rewrite query_each_run.
    eexists. eexists. reflexivity. }
  destruct Q as (rows & tw & Q). rewrite Q in H.
  apply delete_stale_run in H.
  destruct H as (deleted & rest & H1 & H2 & H3 & H4 & H5).
  cbn [CDF2ADT_Graph.sent CDF2ADT_Graph.side CDF2ADT_Graph.refused] in *.
  exists rows, deleted. rewrite Q. cbn [fst snd].
  split; [reflexivity|]. split; [exact H2|]. split; [exact H1|]. split.
  - intros c Hc. apply (stale_deletions_safe rel_ext_ids rows).
    rewrite H3. apply in_or_app. left. exact Hc.
  - split.
    + intros n E. apply H4 in E. lia.
    + intros Hr Hrows. destruct (H5 Hr Hrows) as [E1 E2]. split; [exact E1|].
      rewrite H3, E2, app_nil_r. reflexivity.
Qed.
End StaleRelationships.

Lemma only_stale_relationships_deleted_witness :
  let a := mkADT (fun _ => None)
                 (fun _ => [RowR (mkRelationship "r1" "relatesTo" "A1" "root" None);
                            RowR (mkRelationship "r2" "relatesTo" "A1" "root" None)]) in
  let listed := fun _ _ : list string => [ADT2CDF.mkCdfRelationship "r1" "A1" "root" []] in
  let run := CDF2ADT_Graph.delete_asset_to_asset_relationships
               plain_str_of_list listed [sample_root; pump] (open_graph a) in
  fst run = Ok 1
  /\ CDF2ADT_Graph.sent (snd run) = [CDF2ADT_Graph.DeleteRelationship "A1" "r2"]
  /\ exists rows deleted,
       CDF2ADT_Graph.sent (snd run) = [] ++ deleted
       /\ forall c, In c deleted ->
            exists R, In (RowR R) rows
                      /\ c = CDF2ADT_Graph.DeleteRelationship (sourceId R) (relationshipId R)
                      /\ ~ In (relationshipId R) ["r1"].
Proof.
  intros a listed run. split; [reflexivity|]. split; [reflexivity|].
  destruct (only_stale_relationships_deleted
              plain_str_of_list listed [sample_root; pump] (open_graph a)
              (snd run) (fst run) eq_refl)
    as (rows & deleted & _ & _ & H1 & H2 & _).
  exists rows, deleted. split; [exact H1|exact H2].
Defined.
